(** * GeneCall: the gene-call normalizer (CGC_parser.py) and the comparison
      driver (CGC_main.py), embedded as executable Rocq definitions.

    Both scripts are Python 2 programs whose work happens at module top level.
    Strings are byte strings ([string] of [ascii]); Python integers are [Z];
    the files the scripts write are lists of written lines; the exceptions and
    [exit] calls are the constructors of a result type threaded by a small
    state-and-error monad. *)

From Stdlib Require Import String Ascii List ZArith Lia Bool Arith.
From Stdlib Require Import DecimalString.
Import ListNotations.
Open Scope string_scope.

(* ================================================================== *)
(** * Python byte strings *)
(* ================================================================== *)

Module PyStr.

(** [str.lower()] on a byte string: 'A'..'Z' are shifted, the rest is kept. *)
Definition lower_ascii (a : ascii) : ascii :=
  let n := nat_of_ascii a in
  if (65 <=? n)%nat && (n <=? 90)%nat then ascii_of_nat (n + 32) else a.

Fixpoint lower (s : string) : string :=
  match s with
  | EmptyString => EmptyString
  | String a s' => String (lower_ascii a) (lower s')
  end.

(** The character classes of the [re] module on byte strings. *)
Definition is_digit (a : ascii) : bool :=
  let n := nat_of_ascii a in (48 <=? n)%nat && (n <=? 57)%nat.

(** [\s] is [ \t\n\r\f\v]. *)
Definition is_space (a : ascii) : bool :=
  let n := nat_of_ascii a in ((9 <=? n)%nat && (n <=? 13)%nat) || (n =? 32)%nat.

(** [.] is any byte but the newline. *)
Definition not_newline (a : ascii) : bool := negb (nat_of_ascii a =? 10)%nat.

Definition is_char (c : ascii) (a : ascii) : bool := Ascii.eqb c a.

Fixpoint one_of (cs : string) (a : ascii) : bool :=
  match cs with
  | EmptyString => false
  | String c cs' => Ascii.eqb c a || one_of cs' a
  end.

Definition digit_value (a : ascii) : Z := Z.of_nat (nat_of_ascii a) - 48.

(** Value of a run of decimal digits, most significant first; [None] as soon
    as a byte is not a digit. *)
Fixpoint digits_from (acc : Z) (s : string) : option Z :=
  match s with
  | EmptyString => Some acc
  | String a s' =>
      if is_digit a then digits_from (10 * acc + digit_value a) s' else None
  end.

Definition digits (s : string) : option Z :=
  match s with
  | EmptyString => None
  | _ => digits_from 0 s
  end.

Fixpoint lstrip (s : string) : string :=
  match s with
  | String a s' => if is_space a then lstrip s' else s
  | EmptyString => EmptyString
  end.

Fixpoint rstrip (s : string) : string :=
  match s with
  | EmptyString => EmptyString
  | String a s' =>
      match rstrip s' with
      | EmptyString => if is_space a then EmptyString else String a EmptyString
      | t => String a t
      end
  end.

(** [int(s)] on a string: surrounding white space is dropped, one sign is
    allowed, the rest must be a non-empty run of digits.  [None] stands for
    the [ValueError] Python raises otherwise. *)
Definition py_int (s : string) : option Z :=
  match rstrip (lstrip s) with
  | String a d =>
      if Ascii.eqb a "+" then digits d
      else if Ascii.eqb a "-" then option_map Z.opp (digits d)
      else digits (String a d)
  | EmptyString => None
  end.

(** Every byte of [s] is in the class [c]. *)
Fixpoint all_in (c : ascii -> bool) (s : string) : bool :=
  match s with
  | EmptyString => true
  | String a s' => c a && all_in c s'
  end.

(** [str(n)] on an integer. *)
Definition str_of_int (z : Z) : string := NilZero.string_of_int (Z.to_int z).

End PyStr.

(* ================================================================== *)
(** * The fragment of Python's [re] the two scripts use *)
(* ================================================================== *)

Module Re.

(** Every pattern of the scripts is a sequence of single-character classes,
    greedy repetitions of one class ([*], and [+] as the class followed by
    its [*]), the anchor [^] and capture groups that do not nest.  A group is
    written by its opening and closing marks; groups are numbered in the
    order they close, which is the order they open. *)
Inductive item : Type :=
| Bol                           (* ^  *)
| One  (c : ascii -> bool)      (* one character of the class *)
| Star (c : ascii -> bool)      (* greedy c* *)
| GOpen                         (* (  *)
| GClose.                       (* )  *)

Definition regex := list item.

Definition push (a : ascii) (cur : option string) : option string :=
  match cur with
  | Some g => Some (g ++ String a EmptyString)
  | None => None
  end.

Definition close_group (cur : option string) : string :=
  match cur with Some g => g | None => EmptyString end.

(** Backtracking match of [r] at the head of [s], which sits at offset [pos]
    of the searched string.  [cur] is the text of the group being captured,
    [cl] the groups already closed.  A [Star] takes as many characters as it
    can and gives them back one at a time when the rest fails. *)
Fixpoint match_here (r : regex)
  : string -> nat -> option string -> list string -> option (list string) :=
  match r with
  | [] => fun _ _ _ cl => Some cl
  | Bol :: r' => fun s pos cur cl =>
      if (pos =? 0)%nat then match_here r' s pos cur cl else None
  | One c :: r' => fun s pos cur cl =>
      match s with
      | String a s' =>
          if c a then match_here r' s' (S pos) (push a cur) cl else None
      | EmptyString => None
      end
  | Star c :: r' =>
      fix star (s : string)
        : nat -> option string -> list string -> option (list string) :=
        fun pos cur cl =>
        match s with
        | String a s' =>
            if c a then
              match star s' (S pos) (push a cur) cl with
              | Some res => Some res
              | None => match_here r' s pos cur cl
              end
            else match_here r' s pos cur cl
        | EmptyString => match_here r' s pos cur cl
        end
  | GOpen :: r' => fun s pos _ cl => match_here r' s pos (Some EmptyString) cl
  | GClose :: r' => fun s pos cur cl =>
      match_here r' s pos None (cl ++ [close_group cur])%list
  end.

(** [re.search]: the match at the leftmost offset that has one. *)
Fixpoint search_at (r : regex) (s : string) (pos : nat) : option (list string) :=
  match match_here r s pos None [] with
  | Some cl => Some cl
  | None =>
      match s with
      | String _ s' => search_at r s' (S pos)
      | EmptyString => None
      end
  end.

Definition search (r : regex) (s : string) : option (list string) :=
  search_at r s 0.

(** [m.group(k)], k >= 1. *)
Definition group (m : list string) (k : nat) : string :=
  nth (k - 1) m EmptyString.

(** Truth value of a match object. *)
Definition matched (m : option (list string)) : bool :=
  match m with Some _ => true | None => false end.

(** Pattern builders. *)
Fixpoint lit (w : string) : regex :=
  match w with
  | EmptyString => []
  | String a w' => One (PyStr.is_char a) :: lit w'
  end.

Definition plus (c : ascii -> bool) : regex := [One c; Star c].
Definition grp (r : regex) : regex := GOpen :: r ++ [GClose].
Definition cat (rs : list regex) : regex := List.concat rs.

(** What a successful match of [r] says about the groups it returns: each
    [One] took a byte of its class, each [Star] a run of bytes of its class,
    and the bytes taken between the marks of a group are its text. *)
Definition pushs (w : string) (cur : option string) : option string :=
  match cur with
  | Some g => Some (g ++ w)
  | None => None
  end.

Fixpoint shape (r : regex) (cur : option string) (cl res : list string) : Prop :=
  match r with
  | [] => res = cl
  | Bol :: r' => shape r' cur cl res
  | One c :: r' => exists a, c a = true /\ shape r' (push a cur) cl res
  | Star c :: r' =>
      exists w, PyStr.all_in c w = true /\ shape r' (pushs w cur) cl res
  | GOpen :: r' => shape r' (Some EmptyString) cl res
  | GClose :: r' => shape r' None (cl ++ [close_group cur])%list res
  end.

(** The text of a group [(\d+)] and of a group [([+-])]. *)
Definition number (s : string) : bool :=
  match s with
  | String _ _ => PyStr.all_in PyStr.is_digit s
  | EmptyString => false
  end.

Definition plus_or_minus (s : string) : bool :=
  String.eqb s "+" || String.eqb s "-".

Definition d1 : regex := plus PyStr.is_digit.         (* \d+ *)
Definition s1 : regex := plus PyStr.is_space.         (* \s+ *)
Definition sp : regex := [One PyStr.is_space].        (* \s  *)
Definition dg : regex := [One PyStr.is_digit].        (* \d  *)
Definition any0 : regex := [Star PyStr.not_newline].  (* .*  *)
Definition any1 : regex := [One PyStr.not_newline].   (* .   *)
Definition sign : regex := [One (PyStr.one_of "+-")]. (* [+-] *)
Definition tab : regex := lit (String (ascii_of_nat 9) EmptyString).  (* \t *)
Definition cls2 (x y : ascii) : regex :=              (* [Xx] *)
  [One (fun a => Ascii.eqb x a || Ascii.eqb y a)].

End Re.

(* ================================================================== *)
(** * Exceptions, results and the state-and-error monad *)
(* ================================================================== *)

Module Py.

Inductive exn : Type :=
| TypeError
| ValueError
| NameError
| IOError (msg : string).

(** How a piece of script ends: with a value, by [exit(code)], or with an
    exception nobody caught. *)
Inductive result (A : Type) : Type :=
| Ret (a : A)
| Exit (code : Z)
| Raise (e : exn).
Arguments Ret {A} a.
Arguments Exit {A} code.
Arguments Raise {A} e.

Section Monad.
Context {W : Type}.

Definition M (A : Type) : Type := W -> result A * W.

Definition ret {A} (a : A) : M A := fun w => (Ret a, w).

Definition bind {A B} (m : M A) (k : A -> M B) : M B :=
  fun w =>
    match m w with
    | (Ret a, w') => k a w'
    | (Exit c, w') => (Exit c, w')
    | (Raise e, w') => (Raise e, w')
    end.

Definition raise {A} (e : exn) : M A := fun w => (Raise e, w).
Definition exit {A} (code : Z) : M A := fun w => (Exit code, w).
Definition modify (f : W -> W) : M unit := fun w => (Ret tt, f w).
Definition when (b : bool) (m : M unit) : M unit := if b then m else ret tt.

(** [for x in xs: body], the loop variables threaded as [v]. *)
Fixpoint for_each {S X} (body : S -> X -> M S) (xs : list X) (v : S) : M S :=
  match xs with
  | [] => ret v
  | x :: xs' => bind (body v x) (for_each body xs')
  end.
End Monad.
Arguments M W A : clear implicits.

(** The file system as a script meets it: opening a path for reading
    gives the lines [read().splitlines()] returns or the text of the
    [IOError]; opening a path for writing succeeds or gives that text. *)
Record filesystem : Type := mkFs {
  open_r : string -> string + list string;
  open_w : string -> option string
}.

(** [int(s)], raising [ValueError] where Python does. *)
Definition int_ {W} (s : string) : M W Z :=
  match PyStr.py_int s with
  | Some z => ret z
  | None => raise ValueError
  end.

End Py.

Declare Scope py_scope.
Delimit Scope py_scope with py.
Notation "x <- c1 ;; c2" := (Py.bind c1 (fun x => c2))
  (at level 61, c1 at next level, right associativity) : py_scope.
Notation "c1 ;; c2" := (Py.bind c1 (fun _ => c2))
  (at level 61, right associativity) : py_scope.

Definition TAB : string := String (ascii_of_nat 9) EmptyString.
Definition NL : string := String (ascii_of_nat 10) EmptyString.
Definition DQUOTE : string := String (ascii_of_nat 34) EmptyString.

(** A Python value as the scripts' loop variables hold them: the same name is
    an [int] at one point and a [str] at another. *)
Inductive pyval : Type :=
| PInt (z : Z)
| PStr (s : string).

(** ["%s" % v] *)
Definition fmt_s (v : pyval) : string :=
  match v with
  | PInt z => PyStr.str_of_int z
  | PStr s => s
  end.

(** The integer a field stands for when it is read back. *)
Definition int_of (v : pyval) : option Z :=
  match v with
  | PInt z => Some z
  | PStr s => PyStr.py_int s
  end.

(* ================================================================== *)
(** * CGC_parser.py *)
(* ================================================================== *)

Module CGC_parser.
Import Py Re.
Local Open Scope py_scope.

(** ** CONFIGURABLE *)
Definition GLIMMER3 : bool := true.
Definition PRODIGAL_sco : bool := true.
Definition PRODIGAL_gff : bool := false.
Definition RAST_GFF3 : bool := true.

(** ** FILES *)
Definition CODE_BASE : string := "./CGC_parser".
Definition CODE : string := CODE_BASE ++ ".py".
Definition logfile : string := CODE_BASE ++ ".log".
Definition outfile : string := CODE_BASE ++ ".out".

(** ** PATTERNS
    The source text of each pattern is quoted in a comment next to it; a
    blank is put between a star and a closing parenthesis there. *)
Definition p_comment : regex := Bol :: lit "#".                       (* ^# *)
Definition p_prodigal : regex :=
  cat [cls2 "P" "p"; cls2 "R" "r"; cls2 "O" "o"; cls2 "D" "d";
       cls2 "I" "i"; cls2 "G" "g"; cls2 "A" "a"; cls2 "L" "l"].
Definition p_genemark : regex :=
  cat [cls2 "G" "g"; cls2 "E" "e"; cls2 "N" "n"; cls2 "E" "e";
       cls2 "M" "m"; cls2 "A" "a"; cls2 "R" "r"; cls2 "K" "k"].
Definition p_glimmer : regex :=                      (* [Gg][Ll][Ii][Mm]+[Ee][Rr] *)
  cat [cls2 "G" "g"; cls2 "L" "l"; cls2 "I" "i";
       plus (fun a => Ascii.eqb "M" a || Ascii.eqb "m" a);
       cls2 "E" "e"; cls2 "R" "r"].
Definition p_rast : regex :=
  cat [cls2 "R" "r"; cls2 "A" "a"; cls2 "S" "s"; cls2 "T" "t"].
Definition p_phate : regex :=
  cat [cls2 "P" "p"; cls2 "H" "h"; cls2 "A" "a"; cls2 "T" "t"; cls2 "E" "e"].

(** ** CONSTANTS *)
Definition HELP_STRING : string :=
  "Script " ++ CODE ++ " inputs the name of a gene caller plus the output file arising " ++ NL
  ++ "from that gene caller. Then, the script converts the data to a format that is acceptable as input to " ++ NL
  ++ "script CGC_main.py, which compares gene calls among a set of gene caller outputs." ++ NL
  ++ "Type: python" ++ CODE ++ " usage|input for more information" ++ NL.

Definition USAGE_STRING : string :=
  "Usage:  python " ++ CODE ++ " <geneCaller_name> <geneCall_filename> (optional)<output_filename>" ++ NL.

Definition INPUT_STRING : string :=
  "You may enter the name of a gene caller (e.g., Prodigal, GeneMark, Glimmer, RAST, PHATE), followed by the gene-call file that the program produced. For Prodigal, use the Name.genes.sco file. For GeneMarkS, use the Name.fasta.lst file. For Glimmer2, use the Name.g2.coord file, but for Glimmer3 use the run3.coords file. For RAST, use gff3 output. For PhATE... TBD." ++ NL.

Definition ACCEPTABLE_ARG_COUNT : list nat := [2; 3; 4]%nat.

(** ** The files the script writes *)

(** What one [write] call puts on a stream: a fixed text, or the six values
    given to the record format ["%s\t%s\t%s\t%s\t%s\t%s\n"].  Where the source
    wraps a value in [str(...)] before formatting it with [%s] the value is
    kept as it is: both render to the same text. *)
Inductive out_line : Type :=
| Text (s : string)
| Row (geneNo : pyval) (strand : string) (leftEnd rightEnd length : pyval)
      (contig : string).

(** The text of a written line, without its final newline. *)
Definition render (x : out_line) : string :=
  match x with
  | Text s => s
  | Row g s l r n c =>
      fmt_s g ++ TAB ++ s ++ TAB ++ fmt_s l ++ TAB ++ fmt_s r ++ TAB
      ++ fmt_s n ++ TAB ++ c
  end.

(** The module globals the functions read and write.  [USER_OUT] is [None]
    as long as the name is not bound. *)
Record world : Type := mkWorld {
  USER_OUT_PROVIDED : bool;
  OUTFILE : list out_line;
  USER_OUT : option (list out_line);
  LOGFILE : list string;
  STDOUT : list string
}.

Definition world0 : world := mkWorld false [] None [] [].

Definition OUT_write (x : out_line) : M world unit :=
  modify (fun w => mkWorld (USER_OUT_PROVIDED w) (OUTFILE w ++ [x])%list (USER_OUT w)
                           (LOGFILE w) (STDOUT w)).

(** [USER_OUT.write(...)]: a [NameError] when [USER_OUT] was never assigned. *)
Definition USER_OUT_write (x : out_line) : M world unit :=
  fun w =>
    match USER_OUT w with
    | Some u => (Ret tt, mkWorld (USER_OUT_PROVIDED w) (OUTFILE w) (Some (u ++ [x])%list)
                                 (LOGFILE w) (STDOUT w))
    | None => (Raise NameError, w)
    end.

Definition LOGFILE_write (s : string) : M world unit :=
  modify (fun w => mkWorld (USER_OUT_PROVIDED w) (OUTFILE w) (USER_OUT w)
                           (LOGFILE w ++ [s])%list (STDOUT w)).

Definition print (s : string) : M world unit :=
  modify (fun w => mkWorld (USER_OUT_PROVIDED w) (OUTFILE w) (USER_OUT w)
                           (LOGFILE w) (STDOUT w ++ [s])%list).

(** [if USER_OUT_PROVIDED: USER_OUT.write(...)] *)
Definition if_user_out (x : out_line) : M world unit :=
  fun w => if USER_OUT_PROVIDED w then USER_OUT_write x w else (Ret tt, w).

(** [OUT.write(rec)] followed by the guarded [USER_OUT.write(rec)]. *)
Definition write_both (x : out_line) : M world unit :=
  OUT_write x ;; if_user_out x.

(** The loop variables of the [Process*] functions. *)
Record locals : Type := mkLocals {
  geneNo : pyval;
  contig : string;
  strand : string;
  leftEnd : pyval;
  rightEnd : pyval;
  length : pyval;
  count : Z
}.

(** The branch taken on a strand that is neither '+' nor '-': the log line is
    written, then [OUT.write("%s\n" ("ERROR ..."))] calls a string, a
    [TypeError], before anything reaches [OUT]. *)
Definition unknown_strand {A} (strand : string) : M world A :=
  LOGFILE_write ("ERROR: unknown strand designator, " ++ strand) ;;
  raise TypeError.

(** [s[1:]] *)
Definition drop_first (s : string) : string :=
  match s with
  | String _ s' => s'
  | EmptyString => EmptyString
  end.

(** [if re.search('^>',s) or re.search('^<',s): s = s[1:]] *)
Definition strip_angle (s : string) : string :=
  if matched (search (Bol :: lit ">") s) || matched (search (Bol :: lit "<") s)
  then drop_first s else s.

Definition default_contig (c : string) : string :=
  if String.eqb c "" then "unknown" else c.

(** ** ProcessGenemark *)

Module Genemark.
(* \s+(\d+)\s+([+-])\s+([\d\>\<]+)\s+(\d+)\s+(\d+)\s+\d+ *)
Definition p_dataLine : regex :=
  cat [s1; grp d1; s1; grp sign; s1;
       grp (plus (fun a => PyStr.is_digit a || PyStr.one_of "><" a));
       s1; grp d1; s1; grp d1; s1; d1].
(* FASTA\sdefinition\sline:\s(.* )\s+length=\d+ *)
Definition p_contigLine : regex :=
  cat [lit "FASTA"; sp; lit "definition"; sp; lit "line:"; sp; grp any0;
       s1; lit "length="; d1].

Definition init : locals := mkLocals (PInt 0) "" "" (PStr "") (PStr "") (PInt 0) 0.

Definition step (v : locals) (line : string) : M world locals :=
  let match_comment := search p_comment line in
  let match_contigLine := search p_contigLine line in
  let match_dataLine := search p_dataLine line in
  if matched match_comment then ret v
  else match match_contigLine with
  | Some m =>
      ret (mkLocals (geneNo v) (group m 1) (strand v) (leftEnd v) (rightEnd v)
                    (length v) (count v))
  | None =>
  match match_dataLine with
  | Some m =>
      geneNo' <- int_ (group m 1) ;;
      let strand' := group m 2 in
      let leftEnd' := group m 3 in
      let rightEnd' := group m 4 in
      length' <- int_ (group m 5) ;;
      let leftEnd' := strip_angle leftEnd' in
      let rightEnd' := strip_angle rightEnd' in
      if negb (String.eqb strand' "+") && negb (String.eqb strand' "-")
      then unknown_strand strand'
      else
        let contig' := default_contig (contig v) in
        write_both (Row (PInt geneNo') strand' (PStr leftEnd') (PStr rightEnd')
                        (PInt length') contig') ;;
        ret (mkLocals (PInt geneNo') contig' strand' (PStr leftEnd')
                      (PStr rightEnd') (PInt length') (count v))
  | None => ret v
  end
  end.
End Genemark.

Definition ProcessGenemark (fLines : list string) : M world unit :=
  for_each Genemark.step fLines Genemark.init ;; ret tt.

(** ** ProcessGlimmer *)

Module Glimmer.
(* ^>(.* )\s+length=\d+\s+numreads=\d+ *)
Definition p_contigLine : regex :=
  cat [[Bol]; lit ">"; grp any0; s1; lit "length="; d1; s1; lit "numreads="; d1].

Definition p_dataLine (glimmer3 : bool) : regex :=
  if glimmer3 then
    (* orf(\d+)\s+(\d+)\s+(\d+)\s+([+-])\d\s+([\d\.]+) *)
    cat [lit "orf"; grp d1; s1; grp d1; s1; grp d1; s1; grp sign; dg; s1;
         grp (plus (fun a => PyStr.is_digit a || PyStr.is_char "." a))]
  else
    (* \s+(\d+)\s+(\d+)\s+(\d+)\s+\[([+-])\d\sL=\s*(\d+)\sr=.*\] *)
    cat [s1; grp d1; s1; grp d1; s1; grp d1; s1; lit "["; grp sign; dg; sp;
         lit "L="; [Star PyStr.is_space]; grp d1; sp; lit "r="; any0; lit "]"].

Definition init : locals := mkLocals (PInt 0) "" "" (PStr "") (PStr "") (PInt 0) 0.

Definition step (glimmer3 : bool) (v : locals) (line : string) : M world locals :=
  let match_comment := search p_comment line in
  let match_contigLine := search p_contigLine line in
  let match_dataLine := search (p_dataLine glimmer3) line in
  if matched match_comment then ret v
  else match match_contigLine with
  | Some m =>
      ret (mkLocals (geneNo v) (group m 1) (strand v) (leftEnd v) (rightEnd v)
                    (length v) (count v))
  | None =>
  match match_dataLine with
  | Some m =>
      geneNo' <- int_ (group m 1) ;;
      left <- int_ (group m 2) ;;
      right <- int_ (group m 3) ;;
      let strand' := group m 4 in
      ends <- (if String.eqb strand' "+" then
                 ret (left, if glimmer3 then right else right + 3)
               else if String.eqb strand' "-" then
                 ret (if glimmer3 then right else right - 3, left)
               else unknown_strand strand')%Z ;;
      let leftEnd' := fst ends in
      let rightEnd' := snd ends in
      let length' := (rightEnd' - leftEnd' + 1)%Z in
      let contig' := default_contig (contig v) in
      write_both (Row (PInt geneNo') strand' (PInt leftEnd') (PInt rightEnd')
                      (PInt length') contig') ;;
      ret (mkLocals (PInt geneNo') contig' strand' (PInt leftEnd')
                    (PInt rightEnd') (PInt length') (count v))
  | None => ret v
  end
  end.
End Glimmer.

Definition ProcessGlimmer (glimmer3 : bool) (fLines : list string) : M world unit :=
  for_each (Glimmer.step glimmer3) fLines Glimmer.init ;; ret tt.

(** ** ProcessRAST *)

Module RAST.
(* (.* )\t.*\tCDS\t(\d+)\t(\d+)\t\.\t([+-])\t\d\t.* *)
Definition p_dataLine : regex :=
  cat [grp any0; tab; any0; tab; lit "CDS"; tab; grp d1; tab; grp d1; tab;
       lit "."; tab; grp sign; tab; dg; tab; any0].

Definition init : locals := mkLocals (PInt 0) "" "" (PStr "") (PStr "") (PInt 0) 0.

Definition step (v : locals) (line : string) : M world locals :=
  let match_comment := search p_comment line in
  let match_dataLine := search p_dataLine line in
  if matched match_comment then ret v
  else match match_dataLine with
  | Some m =>
      let count' := (count v + 1)%Z in
      let geneNo' := count' in
      let contig' := group m 1 in
      leftEnd' <- int_ (group m 2) ;;
      rightEnd' <- int_ (group m 3) ;;
      let strand' := group m 4 in
      let length' := (rightEnd' - leftEnd' + 1)%Z in
      write_both (Row (PInt geneNo') strand' (PInt leftEnd') (PInt rightEnd')
                      (PInt length') contig') ;;
      ret (mkLocals (PInt geneNo') contig' strand' (PInt leftEnd')
                    (PInt rightEnd') (PInt length') count')
  | None => ret v
  end.
End RAST.

Definition ProcessRAST (rast_gff3 : bool) (fLines : list string) : M world unit :=
  if rast_gff3 then for_each RAST.step fLines RAST.init ;; ret tt
  else ret tt.

(** ** ProcessProdigal *)

Module Prodigal.
(* ^>(\d+)_(\d+)_(\d+)_([+-]) *)
Definition p_dataLine_sco : regex :=
  cat [[Bol]; lit ">"; grp d1; lit "_"; grp d1; lit "_"; grp d1; lit "_"; grp sign].
(* (.* )\t.*\tCDS\t(\d+)\t(\d+)\t([\d\.]+)\t([+-])\t.\t(.* ) *)
Definition p_dataLine_gff : regex :=
  cat [grp any0; tab; any0; tab; lit "CDS"; tab; grp d1; tab; grp d1; tab;
       grp (plus (fun a => PyStr.is_digit a || PyStr.is_char "." a)); tab;
       grp sign; tab; any1; tab; grp any0].

Definition init : locals :=
  mkLocals (PInt 0) "unknown" "" (PStr "") (PStr "") (PInt 0) 0.

(** The record written from the loop variables as they stand. *)
Definition row_of (v : locals) : out_line :=
  Row (geneNo v) (strand v) (leftEnd v) (rightEnd v) (length v) (contig v).

(** In both loops the two [write] calls sit at the level of the [if], after
    it, not inside the [elif match_dataLine] branch. *)
Definition step_sco (v : locals) (line : string) : M world locals :=
  let match_comment := search p_comment line in
  let match_dataLine := search p_dataLine_sco line in
  if matched match_comment then ret v
  else
    v' <- match match_dataLine with
          | Some m =>
              let geneNo' := group m 1 in
              leftEnd' <- int_ (group m 2) ;;
              rightEnd' <- int_ (group m 3) ;;
              let strand' := group m 4 in
              let length' := (rightEnd' - leftEnd' + 1)%Z in
              ret (mkLocals (PStr geneNo') (contig v) strand' (PInt leftEnd')
                            (PInt rightEnd') (PInt length') (count v))
          | None => ret v
          end ;;
    write_both (row_of v') ;;
    ret v'.

Definition step_gff (v : locals) (line : string) : M world locals :=
  let match_comment := search p_comment line in
  let match_dataLine := search p_dataLine_gff line in
  if matched match_comment then ret v
  else
    v' <- match match_dataLine with
          | Some m =>
              let count' := (count v + 1)%Z in
              let geneNo' := count' in
              let contig' := group m 1 in
              leftEnd' <- int_ (group m 2) ;;
              rightEnd' <- int_ (group m 3) ;;
              let strand' := group m 5 in
              let length' := (rightEnd' - leftEnd' + 1)%Z in
              ret (mkLocals (PInt geneNo') contig' strand' (PInt leftEnd')
                            (PInt rightEnd') (PInt length') count')
          | None => ret v
          end ;;
    write_both (row_of v') ;;
    ret v'.
End Prodigal.

Definition ProcessProdigal (prodigal_sco : bool) (fLines : list string) : M world unit :=
  if prodigal_sco then for_each Prodigal.step_sco fLines Prodigal.init ;; ret tt
  else for_each Prodigal.step_gff fLines Prodigal.init ;; ret tt.

(** ** ProcessPhate *)

Module Phate.
(* ^(\d+)\t(\d+)\t([+-]) *)
Definition p_dataLine : regex :=
  cat [[Bol]; grp d1; tab; grp d1; tab; grp sign].

Definition init : locals :=
  mkLocals (PInt 0) "unknown" "" (PStr "") (PStr "") (PInt 0) 0.

Definition step (v : locals) (line : string) : M world locals :=
  let match_comment := search p_comment line in
  let match_dataLine := search p_dataLine line in
  if matched match_comment then ret v
  else match match_dataLine with
  | Some m =>
      let count' := (count v + 1)%Z in
      let geneNo' := count' in
      let strand' := group m 3 in
      ends <- (if String.eqb strand' "+" then
                 leftEnd' <- int_ (group m 1) ;;
                 rightEnd' <- int_ (group m 2) ;;
                 ret (leftEnd', rightEnd')
               else
                 rightEnd' <- int_ (group m 1) ;;
                 leftEnd' <- int_ (group m 2) ;;
                 ret (leftEnd', rightEnd')) ;;
      let leftEnd' := fst ends in
      let rightEnd' := snd ends in
      let length' := (Z.abs (rightEnd' - leftEnd') + 1)%Z in
      write_both (Row (PInt geneNo') strand' (PInt leftEnd') (PInt rightEnd')
                      (PInt length') (contig v)) ;;
      ret (mkLocals (PInt geneNo') (contig v) strand' (PInt leftEnd')
                    (PInt rightEnd') (PInt length') count')
  | None => ret v
  end.
End Phate.

Definition ProcessPhate (fLines : list string) : M world unit :=
  for_each Phate.step fLines Phate.init ;; ret tt.

(** ** The module top level *)

Definition set_USER_OUT_PROVIDED (b : bool) : M world unit :=
  modify (fun w => mkWorld b (OUTFILE w) (USER_OUT w) (LOGFILE w) (STDOUT w)).

Definition bind_USER_OUT : M world unit :=
  modify (fun w => mkWorld (USER_OUT_PROVIDED w) (OUTFILE w) (Some []) (LOGFILE w)
                           (STDOUT w)).

Definition get_USER_OUT_PROVIDED : M world bool :=
  fun w => (Ret (USER_OUT_PROVIDED w), w).

Definition arg (argv : list string) (i : nat) : string := nth i argv "".

(** GET INPUT PARAMETERS: the triple (geneCaller, geneCallerOut, userOutfile). *)
Definition get_input_parameters (argv : list string)
  : M world (string * string * string) :=
  let argCount := List.length argv in
  if existsb (Nat.eqb argCount) ACCEPTABLE_ARG_COUNT then
    if matched (search (lit "help") (PyStr.lower (arg argv 1))) then
      print HELP_STRING ;; exit 0
    else if matched (search (lit "input") (PyStr.lower (arg argv 1))) then
      print INPUT_STRING ;; exit 0
    else if matched (search (lit "usage") (PyStr.lower (arg argv 1))) then
      print USAGE_STRING ;; exit 0
    else if (argCount =? 3)%nat || (argCount =? 4)%nat then
      let geneCaller := PyStr.lower (arg argv 1) in
      let geneCallerOut := arg argv 2 in
      if (argCount =? 4)%nat then
        set_USER_OUT_PROVIDED true ;;
        ret (geneCaller, geneCallerOut, arg argv 3)
      else ret (geneCaller, geneCallerOut, "")
    else
      print USAGE_STRING ;;
      LOGFILE_write "Incorrect number of command-line arguments provided" ;;
      exit 0
  else
    print USAGE_STRING ;;
    LOGFILE_write "Incorrect number of command-line arguments provided" ;;
    exit 0.

(** Open file: the lines of the input file.  [e] is the last [IOError]
    caught; the user's output file is opened after the [fileError] test, and
    a failure there is printed and flagged but not tested again. *)
Definition open_files (fs : filesystem) (geneCallerOut userOutfile : string)
  : M world (list string) :=
  r1 <- match open_r fs geneCallerOut with
        | inr lines => ret (lines, None)
        | inl e => print e ;; ret ([], Some e)
        end ;;
  e2 <- match open_w fs outfile with
        | None => ret (snd r1)
        | Some e => print e ;; ret (Some e)
        end ;;
  match e2 with
  | Some e =>
      LOGFILE_write ("ERROR: problem with input file:" ++ geneCallerOut ++ e) ;;
      exit 0
  | None =>
      provided <- get_USER_OUT_PROVIDED ;;
      (if provided then
         match open_w fs userOutfile with
         | None => bind_USER_OUT
         | Some e => print e
         end
       else ret tt) ;;
      ret (fst r1)
  end.

(** BEGIN MAIN and CLEAN UP. *)
Definition process (geneCaller geneCallerOut : string) (fileLines : list string)
  : M world unit :=
  let match_glimmer := search p_glimmer geneCaller in
  let match_genemark := search p_genemark geneCaller in
  let match_prodigal := search p_prodigal geneCaller in
  let match_rast := search p_rast geneCaller in
  let match_phate := search p_phate geneCaller in
  let header := Text ("# " ++ geneCaller ++ " gene calls" ++ ", taken from file "
                      ++ geneCallerOut) in
  let columns := Text ("Gene No." ++ TAB ++ "Strand" ++ TAB ++ "LeftEnd" ++ TAB
                       ++ "RightEnd" ++ TAB ++ "Length" ++ TAB ++ "Contig") in
  OUT_write header ;;
  OUT_write columns ;;
  if_user_out header ;;
  if_user_out columns ;;
  (if matched match_genemark then ProcessGenemark fileLines
   else if matched match_glimmer then ProcessGlimmer GLIMMER3 fileLines
   else if matched match_prodigal then ProcessProdigal PRODIGAL_sco fileLines
   else if matched match_rast then ProcessRAST RAST_GFF3 fileLines
   else if matched match_phate then ProcessPhate fileLines
   else LOGFILE_write ("ERROR: Cannot process unknown gene caller output file:"
                       ++ geneCaller)) ;;
  if_user_out (Text "# END") ;;
  OUT_write (Text "# END") ;;
  LOGFILE_write "Processing complete".

(** The whole script, run on [sys.argv]: [LOGFILE = open(logfile,"w")] comes
    first and is not guarded. *)
Definition main (fs : filesystem) (argv : list string) : M world unit :=
  match open_w fs logfile with
  | Some e => raise (IOError e)
  | None =>
      params <- get_input_parameters argv ;;
      let geneCaller := fst (fst params) in
      let geneCallerOut := snd (fst params) in
      let userOutfile := snd params in
      fileLines <- open_files fs geneCallerOut userOutfile ;;
      process geneCaller geneCallerOut fileLines
  end.

(** ** Properties of emitted records, as decidable tests *)

(** The lines a piece of script adds to [OUTFILE] when run from [w]. *)
Definition written {A} (m : M world A) (w : world) : list out_line :=
  skipn (List.length (OUTFILE w)) (OUTFILE (snd (m w))).

(** The world after [x] went to [OUTFILE] and, when [USER_OUT] is bound and
    asked for, to [USER_OUT]. *)
Definition add_row (x : out_line) (w : world) : world :=
  mkWorld (USER_OUT_PROVIDED w) (OUTFILE w ++ [x])%list
          (if USER_OUT_PROVIDED w
           then match USER_OUT w with
                | Some u => Some (u ++ [x])%list
                | None => None
                end
           else USER_OUT w)
          (LOGFILE w) (STDOUT w).

Definition add_rows (xs : list out_line) (w : world) : world :=
  fold_left (fun w' x => add_row x w') xs w.

(** [USER_OUT] is bound whenever [USER_OUT_PROVIDED] is set. *)
Definition user_out_bound (w : world) : bool :=
  implb (USER_OUT_PROVIDED w)
        (match USER_OUT w with Some _ => true | None => false end).

(** A run of [m] from [w] that put [xs] on the output and changed nothing
    else, and that ended normally if [USER_OUT] could be written. *)
Definition writes {A} (m : M world A) (w : world) (xs : list out_line) : Prop :=
  exists r, m w = (r, add_rows xs w)
            /\ (user_out_bound w = true -> exists a, r = Ret a).

(** A line that is no comment and matches neither the contig pattern (where
    the function has one) nor the data pattern. *)
Definition unparsed (p_contigLine : option regex) (p_dataLine : regex)
           (line : string) : bool :=
  negb (matched (search p_comment line))
  && negb (match p_contigLine with
           | Some p => matched (search p line)
           | None => false
           end)
  && negb (matched (search p_dataLine line)).

(** A line that reaches the data branch of ProcessGenemark or
    ProcessGlimmer. *)
Definition data_line (p_contigLine p_dataLine : regex) (line : string) : bool :=
  negb (matched (search p_comment line))
  && negb (matched (search p_contigLine line))
  && matched (search p_dataLine line).

(** [length == abs(rightEnd - leftEnd) + 1], all three integers. *)
Definition length_abs (x : out_line) : bool :=
  match x with
  | Row _ _ (PInt l) (PInt r) (PInt n) _ => (n =? Z.abs (r - l) + 1)%Z
  | _ => false
  end.

(** The length of the row is the fifth group of a data line of [lines],
    read as an integer. *)
Definition length_copied (lines : list string) (x : out_line) : bool :=
  match x with
  | Row _ _ _ _ (PInt n) _ =>
      existsb (fun line =>
                 match search Genemark.p_dataLine line with
                 | Some m =>
                     match PyStr.py_int (group m 5) with
                     | Some k => (k =? n)%Z
                     | None => false
                     end
                 | None => false
                 end) lines
  | _ => false
  end.

Definition rows (xs : list out_line) : list out_line :=
  filter (fun x => match x with Row _ _ _ _ _ _ => true | Text _ => false end) xs.

(** [leftEnd <= rightEnd] on a written line. *)
Definition ends_ordered (x : out_line) : bool :=
  match x with
  | Row _ _ l r _ _ =>
      match int_of l, int_of r with
      | Some a, Some b => (a <=? b)%Z
      | _, _ => false
      end
  | Text _ => false
  end.

(** [length == rightEnd - leftEnd + 1] on a written line. *)
Definition length_consistent (x : out_line) : bool :=
  match x with
  | Row _ _ l r n _ =>
      match int_of l, int_of r, int_of n with
      | Some a, Some b, Some c => (c =? b - a + 1)%Z
      | _, _, _ => false
      end
  | Text _ => false
  end.

(** The strand of a written line is '+' or '-'. *)
Definition strand_ok (x : out_line) : bool :=
  match x with
  | Row _ s _ _ _ _ => String.eqb s "+" || String.eqb s "-"
  | Text _ => false
  end.

(** ** Reading the written lines *)

Definition is_row (x : out_line) : bool :=
  match x with Row _ _ _ _ _ _ => true | Text _ => false end.

Definition row_geneNo (x : out_line) : option pyval :=
  match x with Row g _ _ _ _ _ => Some g | Text _ => None end.

Definition row_contig (x : out_line) : option string :=
  match x with Row _ _ _ _ _ c => Some c | Text _ => None end.

(** The contig of a record is not the empty string. *)
Definition contig_named (x : out_line) : bool :=
  match x with
  | Row _ _ _ _ _ c => negb (String.eqb c "")
  | Text _ => false
  end.

(** A line that reaches the data branch of a function without a contig
    pattern (ProcessRAST, ProcessPhate). *)
Definition data_line0 (p_dataLine : regex) (line : string) : bool :=
  negb (matched (search p_comment line)) && matched (search p_dataLine line).

(** The gene numbers [first], [first + 1], ... of [n] records. *)
Definition numbered (first n : nat) : list (option pyval) :=
  map (fun k => Some (PInt (Z.of_nat k))) (seq first n).

(** The two header lines and the closing line of an output file. *)
Definition header_line (geneCaller geneCallerOut : string) : out_line :=
  Text ("# " ++ geneCaller ++ " gene calls" ++ ", taken from file " ++ geneCallerOut).

Definition columns_line : out_line :=
  Text ("Gene No." ++ TAB ++ "Strand" ++ TAB ++ "LeftEnd" ++ TAB
        ++ "RightEnd" ++ TAB ++ "Length" ++ TAB ++ "Contig").

Definition end_line : out_line := Text "# END".

(** ** Loop invariants *)

(** After the lines [done]: the counter is the number of records, which is
    the number of data lines; the records are numbered from 1; the contig is
    'unknown' throughout. *)
Definition phate_state (done : list string) (v : locals) (xs : list out_line) : Prop :=
  count v = Z.of_nat (List.length xs)
  /\ contig v = "unknown"
  /\ List.length xs = List.length (filter (data_line0 Phate.p_dataLine) done)
  /\ map row_geneNo xs = numbered 1 (List.length xs)
  /\ Forall (fun x => row_contig x = Some "unknown") xs.

(** The caller name selects one of the five [Process*] functions. *)
Definition known_caller (geneCaller : string) : bool :=
  matched (search p_genemark geneCaller)
  || matched (search p_glimmer geneCaller)
  || matched (search p_prodigal geneCaller)
  || matched (search p_rast geneCaller)
  || matched (search p_phate geneCaller).

(** None of the help words of the parser is in the lowercased argument. *)
Definition no_help_word (a : string) : Prop :=
  forall kw, In kw ["help"; "input"; "usage"] ->
             ~ (exists pre post, PyStr.lower a = pre ++ kw ++ post).

End CGC_parser.

(* ================================================================== *)
(** * CGC_main.py *)
(* ================================================================== *)

Module CGC_main.
Import Py Re.
Local Open Scope py_scope.

(** ** FILES *)
Definition CODE_BASE : string := "./CGC_main".
Definition CODE_FILE : string := CODE_BASE ++ ".py".
Definition LOG_FILE : string := CODE_BASE ++ ".log".
Definition OUT_FILE : string := CODE_BASE ++ ".out".

(** ** PRINT CONTROL *)
Definition CHATTY : bool := true.
Definition DEBUG : bool := false.

(** ** CONSTANTS *)
Definition HELP_STRING : string :=
  "This code inputs a list of at least 2 files comprising gene calls (generated by a gene caller program) and outputs the genes that are in common and unique with respect to each caller.  Type: python "
  ++ CODE_FILE ++ " usage|input|detail for more information" ++ NL.

Definition USAGE_STRING : string :=
  "Usage:  python " ++ CODE_FILE ++ " <infile>n" ++ NL.

Definition INPUT_STRING : string :=
  "Input for " ++ CODE_FILE
  ++ " comprises a list of path/filenames comprising outputs generated by gene caller programs, with each separated by a single space. The output files are to have been prepared using code "
  ++ DQUOTE ++ "CGC_parser.py" ++ DQUOTE
  ++ " to assure that they have a common pre-defined format and indicate the name of the gene caller in the comments section."
  ++ NL ++ "Example:  python " ++ CODE_FILE ++ " genemark.calls prodigal.calls" ++ NL.

Definition INFO_STRING : string :=
  "This code currently supports the following gene callers:  GeneMark, Glimmer, Prodigal, RAST, and PhATE. For more information regarding input to "
  ++ CODE_FILE ++ ", type:  " ++ CODE_FILE ++ " input".

(** ** The imported modules CGC_geneCall and CGC_compare

    Their classes are used by the driver through these names only.  Each
    method is taken as a function on the object it is called on. *)
Class Collaborators : Type := {
  GeneCallSet : Type;
  GeneCallList : Type;
  Comparison : Type;
  GeneCallSet_new : GeneCallSet;                 (* CGC_geneCall.GeneCallSet() *)
  AddGeneCalls : GeneCallSet -> list string -> GeneCallSet;
  SortGeneCalls : GeneCallSet -> GeneCallSet;
  geneCaller : GeneCallSet -> string;
  geneCallList : GeneCallSet -> GeneCallList;
  Comparison_new : Comparison;                   (* CGC_compare.Comparison() *)
  Merge : Comparison -> GeneCallList -> Comparison;
  Compare : Comparison -> Comparison;
  IdentifyCommonCore : Comparison -> Comparison;
  PrintReport : Comparison -> Comparison
}.

(** A method call made by the driver.  A call set is named by its place in
    [callerList]. *)
Inductive event : Type :=
| EvAddGeneCalls (i : nat) (geneFile : string)
| EvSortGeneCalls (i : nat)
| EvSetPrintAll (i : nat)
| EvMerge (i : nat)
| EvCompare
| EvIdentifyCommonCore
| EvPrintReport
| EvPrintAll.

(** What a run leaves behind: the printed lines, the log, the input files
    opened for reading and the method calls, each oldest first. *)
Record world : Type := mkWorld {
  STDOUT : list string;
  LOG : list string;
  opened : list string;
  calls : list event
}.

Definition world0 : world := mkWorld [] [] [] [].

Definition print (s : string) : M world unit :=
  modify (fun w => mkWorld (STDOUT w ++ [s])%list (LOG w) (opened w) (calls w)).

Definition LOG_write (s : string) : M world unit :=
  modify (fun w => mkWorld (STDOUT w) (LOG w ++ [s])%list (opened w) (calls w)).

Definition call (e : event) : M world unit :=
  modify (fun w => mkWorld (STDOUT w) (LOG w) (opened w) (calls w ++ [e])%list).

(** [open(path,"r")], not guarded in the driver. *)
Definition open_input (fs : filesystem) (path : string) : M world (list string) :=
  match open_r fs path with
  | inr lines =>
      modify (fun w => mkWorld (STDOUT w) (LOG w) (opened w ++ [path])%list (calls w)) ;;
      ret lines
  | inl e => raise (IOError e)
  end.

(** [open(path,"w")], not guarded in the driver. *)
Definition open_output (fs : filesystem) (path : string) : M world unit :=
  match open_w fs path with
  | None => ret tt
  | Some e => raise (IOError e)
  end.

Definition arg (argv : list string) (i : nat) : string := nth i argv "".

(** GET INPUT PARAMETERS: [fileSet]. *)
Definition get_input_parameters (argv : list string) : M world (list string) :=
  let argCount := List.length argv in
  if (1 <? argCount)%nat then
    if matched (search (lit "help") (PyStr.lower (arg argv 1))) then
      print HELP_STRING ;; exit 0
    else if matched (search (lit "input") (PyStr.lower (arg argv 1))) then
      print INPUT_STRING ;; exit 0
    else if matched (search (lit "usage") (PyStr.lower (arg argv 1))) then
      print USAGE_STRING ;; exit 0
    else if matched (search (lit "detail") (PyStr.lower (arg argv 1))) then
      print INFO_STRING ;; exit 0
    else if matched (search (lit "info") (PyStr.lower (arg argv 1))) then
      print INFO_STRING ;; exit 0
    else ret (tl argv)
  else
    LOG_write "Incorrect number of command-line arguments provided" ;;
    print USAGE_STRING ;;
    exit 0.

Section Pipeline.
Context {C : Collaborators}.

(** [for geneFile in fileSet: ...], building [callerList]. *)
Definition add_file (fs : filesystem) (callerList : list GeneCallSet)
           (geneFile : string) : M world (list GeneCallSet) :=
  let callSet := GeneCallSet_new in
  geneFile_handle <- open_input fs geneFile ;;
  when CHATTY (print ("Adding Calls from file " ++ geneFile)) ;;
  call (EvAddGeneCalls (List.length callerList) geneFile) ;;
  let callSet := AddGeneCalls callSet geneFile_handle in
  ret (callerList ++ [callSet])%list.

(** [for caller in callerList: caller.PrintAll()] under [DEBUG]. *)
Definition print_all_sets (callerList : list GeneCallSet) : M world unit :=
  for_each (fun (_ : unit) i => call (EvSetPrintAll i))
           (seq 0 (List.length callerList)) tt.

(** [for caller in callerList: caller.SortGeneCalls()]: every object of the
    list is sorted in place. *)
Definition sort_all (callerList : list GeneCallSet) : M world (list GeneCallSet) :=
  for_each (fun done caller =>
              call (EvSortGeneCalls (List.length done)) ;;
              ret (done ++ [SortGeneCalls caller])%list)
           callerList [].

(** [for caller in callerList: compareGCs.Merge(caller.geneCallList)] *)
Definition merge_all (callerList : list GeneCallSet) (compareGCs : Comparison)
  : M world (nat * Comparison) :=
  for_each (fun st caller =>
              call (EvMerge (fst st)) ;;
              ret (S (fst st), Merge (snd st) (geneCallList caller)))
           callerList (0%nat, compareGCs).

(** BEGIN MAIN. *)
Definition pipeline (fs : filesystem) (fileSet : list string) : M world Comparison :=
  when CHATTY (print "Main: Iterating through fileSet...") ;;
  callerList <- for_each (add_file fs) fileSet [] ;;
  when CHATTY (print "Main: callerList is" ;;
               for_each (fun (_ : unit) caller => print (geneCaller caller ++ " , "))
                        callerList tt ;;
               print "") ;;
  when DEBUG (print (NL ++ "******************Original Lists:") ;;
              print_all_sets callerList) ;;
  when CHATTY (print "Main: Sorting gene calls for each caller...") ;;
  callerList <- sort_all callerList ;;
  when DEBUG (print (NL ++ "******************Sorted Lists:") ;;
              print_all_sets callerList) ;;
  when CHATTY (print "Main: Comparing accross the call sets...") ;;
  let compareGCs := Comparison_new in
  merged <- merge_all callerList compareGCs ;;
  let compareGCs := snd merged in
  call EvCompare ;;
  let compareGCs := Compare compareGCs in
  call EvIdentifyCommonCore ;;
  let compareGCs := IdentifyCommonCore compareGCs in
  call EvPrintReport ;;
  let compareGCs := PrintReport compareGCs in
  when DEBUG (call EvPrintAll) ;;
  ret compareGCs.

(** The whole script, run on [sys.argv]: the two files of the driver are
    opened first. *)
Definition main (fs : filesystem) (argv : list string) : M world Comparison :=
  open_output fs OUT_FILE ;;
  open_output fs LOG_FILE ;;
  fileSet <- get_input_parameters argv ;;
  pipeline fs fileSet.
End Pipeline.

(** The trivial collaborators: objects without content. *)
Definition no_content : Collaborators :=
  {| GeneCallSet := unit; GeneCallList := unit; Comparison := unit;
     GeneCallSet_new := tt;
     AddGeneCalls := fun _ _ => tt;
     SortGeneCalls := fun _ => tt;
     geneCaller := fun _ => "";
     geneCallList := fun _ => tt;
     Comparison_new := tt;
     Merge := fun _ _ => tt;
     Compare := fun _ => tt;
     IdentifyCommonCore := fun _ => tt;
     PrintReport := fun _ => tt |}.

(** The operations of the comparison in the order the control flow names
    them, for [n] call sets read from [fileSet]. *)
Definition expected_calls (fileSet : list string) : list event :=
  (map (fun p => EvAddGeneCalls (fst p) (snd p))
       (combine (seq 0 (List.length fileSet)) fileSet)
   ++ map EvSortGeneCalls (seq 0 (List.length fileSet))
   ++ map EvMerge (seq 0 (List.length fileSet))
   ++ [EvCompare; EvIdentifyCommonCore; EvPrintReport])%list.

(** Between [w] and [w'] the log file was left alone, the input files
    [files] were opened and the calls [evs] were made. *)
Definition extends (w w' : world) (files : list string) (evs : list event) : Prop :=
  LOG w' = LOG w /\ opened w' = (opened w ++ files)%list
  /\ calls w' = (calls w ++ evs)%list.

(** [s] contains [kw] somewhere. *)
Definition contains (kw s : string) : Prop :=
  exists pre post, s = pre ++ kw ++ post.

Definition keywords : list string := ["help"; "input"; "usage"; "detail"; "info"].

End CGC_main.

(* ================================================================== *)
(** * Sample inputs *)
(* ================================================================== *)

Module Sample.
Import Py.

(** Every path can be read (each file holds one PHATE line) and written,
    but [/no/such/dir/calls.out] cannot be created. *)
Definition fs_user_out_unwritable : filesystem :=
  mkFs (fun _ => inr ["10" ++ TAB ++ "50" ++ TAB ++ "+"])
       (fun p => if String.eqb p "/no/such/dir/calls.out"
                 then Some "[Errno 2] No such file or directory: '/no/such/dir/calls.out'"
                 else None).

(** Every path can be written; [missing.calls] cannot be read, the other
    paths hold an empty call file. *)
Definition fs_missing_input : filesystem :=
  mkFs (fun p => if String.eqb p "missing.calls"
                 then inl "[Errno 2] No such file or directory: 'missing.calls'"
                 else inr ["# PHATE gene calls, taken from file x"; "# END"])
       (fun _ => None).

Definition phate_plus_line : string := "100" ++ TAB ++ "50" ++ TAB ++ "+".
Definition glimmer3_plus_line : string := "orf00001      100       50  +1     5.30".
Definition glimmer3_minus_line : string := "orf00002      900      400  -2     7.10".
Definition genemark_line : string := "     1        +          10         100           50        1".
Definition genemark_bad_strand : string := "     1        *          10         100           91        1".
Definition prodigal_sco_file : list string :=
  ["# Sequence Data: seqnum=1;seqlen=5000"; ""; ">1_337_2799_+"].
Definition prodigal_sco_file2 : list string :=
  [">1_337_2799_+"; "no gene on this line"].

End Sample.

(* ================================================================== *)
(** * Facts about strings, [int] and the matcher *)
(* ================================================================== *)

Section StringFacts.

Lemma append_empty_r (s : string) : s ++ "" = s.
Proof. induction s as [|a s IH]; simpl; [reflexivity | now rewrite IH]. Qed.

Lemma append_assoc_s (s t u : string) : (s ++ t) ++ u = s ++ (t ++ u).
Proof. induction s as [|a s IH]; simpl; [reflexivity | now rewrite IH]. Qed.

Lemma append_snoc (g : string) (a : ascii) (w : string) :
  (g ++ String a "") ++ w = g ++ String a w.
Proof. now rewrite append_assoc_s. Qed.

Lemma digit_not_space (a : ascii) :
  PyStr.is_digit a = true -> PyStr.is_space a = false.
Proof.
  unfold PyStr.is_digit, PyStr.is_space. intros H.
  apply andb_true_iff in H. destruct H as [H1 H2].
  apply Nat.leb_le in H1.
  apply orb_false_iff. split.
  - apply andb_false_iff. right. apply Nat.leb_gt. lia.
  - apply Nat.eqb_neq. lia.
Qed.

Lemma digit_not_char (a c : ascii) :
  PyStr.is_digit a = true -> PyStr.is_digit c = false -> Ascii.eqb a c = false.
Proof.
  intros Ha Hc. destruct (Ascii.eqb a c) eqn:E; [|reflexivity].
  apply Ascii.eqb_eq in E. subst. congruence.
Qed.

Lemma lstrip_digits (s : string) :
  PyStr.all_in PyStr.is_digit s = true -> PyStr.lstrip s = s.
Proof.
  destruct s as [|a s]; simpl; [reflexivity|]. intros H.
  apply andb_true_iff in H. destruct H as [Ha _].
  now rewrite (digit_not_space a Ha).
Qed.

Lemma rstrip_digits (s : string) :
  PyStr.all_in PyStr.is_digit s = true -> PyStr.rstrip s = s.
Proof.
  induction s as [|a s IH]; simpl; [reflexivity|]. intros H.
  apply andb_true_iff in H. destruct H as [Ha Hs].
  rewrite (IH Hs). destruct s; [|reflexivity].
  now rewrite (digit_not_space a Ha).
Qed.

Lemma digits_from_some (s : string) :
  PyStr.all_in PyStr.is_digit s = true ->
  forall acc, exists z, PyStr.digits_from acc s = Some z.
Proof.
  induction s as [|a s IH]; simpl; intros H acc.
  - now exists acc.
  - apply andb_true_iff in H. destruct H as [Ha Hs]. rewrite Ha. apply IH, Hs.
Qed.

(** [int] succeeds on what [\d+] captures. *)
Lemma py_int_digits (a : ascii) (s : string) :
  PyStr.all_in PyStr.is_digit (String a s) = true ->
  exists z, PyStr.py_int (String a s) = Some z.
Proof.
  intros H. unfold PyStr.py_int.
  rewrite (lstrip_digits _ H), (rstrip_digits _ H).
  pose proof H as H'. simpl in H'. apply andb_true_iff in H'. destruct H' as [Ha Hs].
  rewrite (digit_not_char a "+" Ha eq_refl), (digit_not_char a "-" Ha eq_refl).
  unfold PyStr.digits. apply digits_from_some, H.
Qed.

End StringFacts.

Section MatcherFacts.
Import Re.

Lemma pushs_empty (cur : option string) : pushs "" cur = cur.
Proof. destruct cur; simpl; [now rewrite append_empty_r | reflexivity]. Qed.

Lemma pushs_push (a : ascii) (w : string) (cur : option string) :
  pushs w (push a cur) = pushs (String a w) cur.
Proof. destruct cur; simpl; [now rewrite append_snoc | reflexivity]. Qed.

(** The matcher is sound for [shape]. *)
Lemma match_here_shape (r : regex) :
  forall s pos cur cl res,
    match_here r s pos cur cl = Some res -> shape r cur cl res.
Proof.
  induction r as [|i r IH]; intros s pos cur cl res H.
  - simpl in H. simpl. congruence.
  - destruct i.
    + simpl in H. simpl. destruct (pos =? 0)%nat; [eauto | discriminate].
    + simpl in H. simpl. destruct s as [|a s]; [discriminate|].
      destruct (c a) eqn:E; [|discriminate]. exists a. eauto.
    + revert pos cur cl H. induction s as [|a s IHs]; intros pos cur cl H.
      * simpl in H. apply IH in H. exists "". simpl. split; [reflexivity|].
        now rewrite pushs_empty.
      * simpl in H. destruct (c a) eqn:E.
        -- match type of H with
           | match ?X with _ => _ end = _ => destruct X eqn:E1
           end.
           ++ injection H as ->. apply IHs in E1. destruct E1 as (w & Hw & Hs).
              exists (String a w). simpl. rewrite E, Hw. split; [reflexivity|].
              now rewrite <- pushs_push.
           ++ apply IH in H. exists "". split; [reflexivity|]. now rewrite pushs_empty.
        -- apply IH in H. exists "". split; [reflexivity|]. now rewrite pushs_empty.
    + simpl in H. simpl. eauto.
    + simpl in H. simpl. eauto.
Qed.

Lemma search_at_shape (r : regex) (s : string) :
  forall pos res, search_at r s pos = Some res -> shape r None [] res.
Proof.
  induction s as [|a s IH]; intros pos res H; simpl in H.
  - destruct (match_here r "" pos None []) eqn:E; [|discriminate].
    injection H as ->. eapply match_here_shape, E.
  - destruct (match_here r (String a s) pos None []) eqn:E.
    + injection H as ->. eapply match_here_shape, E.
    + eapply IH, H.
Qed.

Lemma search_shape (r : regex) (s : string) (res : list string) :
  search r s = Some res -> shape r None [] res.
Proof. apply search_at_shape. Qed.

(** A literal pattern matches at the head of [s] exactly when [s] starts
    with the literal. *)
Lemma match_here_lit (kw : string) :
  forall s pos cl,
    match_here (lit kw) s pos None cl = Some cl <-> exists post, s = kw ++ post.
Proof.
  induction kw as [|a kw IH]; intros s pos cl; simpl.
  - split; [intros _; now exists s | reflexivity].
  - destruct s as [|b s].
    + split; [discriminate | intros [post H]; discriminate].
    + unfold PyStr.is_char. destruct (Ascii.eqb a b) eqn:E.
      * apply Ascii.eqb_eq in E. subst b. simpl. rewrite IH.
        split; intros [post H]; exists post; congruence.
      * apply Ascii.eqb_neq in E.
        split; [discriminate | intros [post H]; congruence].
Qed.

Lemma match_here_lit_cl (kw : string) :
  forall s pos cl res, match_here (lit kw) s pos None cl = Some res -> res = cl.
Proof.
  induction kw as [|a kw IH]; intros s pos cl res; simpl.
  - congruence.
  - destruct s as [|b s]; [discriminate|].
    destruct (PyStr.is_char a b); [|discriminate]. simpl. apply IH.
Qed.

Lemma search_at_lit (kw s : string) :
  forall pos,
    matched (search_at (lit kw) s pos) = true <->
    exists pre post, s = pre ++ kw ++ post.
Proof.
  induction s as [|a s IH]; intros pos; simpl.
  - destruct (match_here (lit kw) "" pos None []) eqn:E; simpl.
    + split; [intros _ | reflexivity].
      pose proof (match_here_lit_cl _ _ _ _ _ E) as ->.
      apply match_here_lit in E. destruct E as [post E]. now exists "", post.
    + split; [discriminate|]. intros (pre & post & H).
      destruct pre; [|discriminate]. simpl in H.
      assert (X : match_here (lit kw) "" pos None [] = Some [])
        by (apply match_here_lit; eauto).
      congruence.
  - destruct (match_here (lit kw) (String a s) pos None []) eqn:E; simpl.
    + split; [intros _ | reflexivity].
      pose proof (match_here_lit_cl _ _ _ _ _ E) as ->.
      apply match_here_lit in E. destruct E as [post E]. now exists "", post.
    + rewrite IH. split.
      * intros (pre & post & H). exists (String a pre), post. simpl. now rewrite H.
      * intros (pre & post & H). destruct pre as [|b pre].
        -- simpl in H.
           assert (X : match_here (lit kw) (String a s) pos None [] = Some [])
             by (apply match_here_lit; eauto).
           congruence.
        -- simpl in H. injection H as _ H. eauto.
Qed.

(** [re.search(kw, s)] finds a literal exactly when [s] contains it. *)
Lemma search_lit (kw s : string) :
  matched (search (lit kw) s) = true <-> CGC_main.contains kw s.
Proof. apply search_at_lit. Qed.

End MatcherFacts.

(* ================================================================== *)
(** * What the data patterns capture *)
(* ================================================================== *)

Section Groups.
Import Re CGC_parser.

Lemma sign_char (a : ascii) :
  PyStr.one_of "+-" a = true -> plus_or_minus (String a "") = true.
Proof.
  intros H. cbn [PyStr.one_of] in H.
  apply orb_true_iff in H. destruct H as [H|H]; [|rewrite orb_false_r in H];
    apply Ascii.eqb_eq in H; subst; reflexivity.
Qed.

Lemma number_cons (a : ascii) (w : string) :
  PyStr.is_digit a = true -> PyStr.all_in PyStr.is_digit w = true ->
  number (String a w) = true.
Proof. intros Ha Hw. simpl. now rewrite Ha, Hw. Qed.

Lemma int_of_number (s : string) :
  number s = true -> exists z, PyStr.py_int s = Some z.
Proof. destruct s as [|a s]; [discriminate|]. apply py_int_digits. Qed.

Ltac unpack H :=
  repeat match type of H with
         | exists _, _ => let a := fresh "a" in destruct H as [a H]
         | _ /\ _ => let C := fresh "C" in destruct H as [C H]
         end.

Ltac groups_of H pat :=
  apply search_shape in H;
  cbv [pat Re.cat concat Re.s1 Re.d1 Re.sp Re.dg Re.any0 Re.any1 Re.tab Re.lit
       Re.grp Re.sign Re.plus app] in H;
  cbn [shape push pushs close_group append app] in H;
  unpack H; subst;
  cbv [group Nat.sub nth];
  repeat split; auto using sign_char, number_cons.

Lemma genemark_groups (line : string) (m : list string) :
  search Genemark.p_dataLine line = Some m ->
  number (group m 1) = true /\ plus_or_minus (group m 2) = true
  /\ number (group m 4) = true /\ number (group m 5) = true.
Proof. intros H. groups_of H Genemark.p_dataLine. Qed.

Lemma glimmer_groups (g3 : bool) (line : string) (m : list string) :
  search (Glimmer.p_dataLine g3) line = Some m ->
  number (group m 1) = true /\ number (group m 2) = true
  /\ number (group m 3) = true /\ plus_or_minus (group m 4) = true.
Proof. intros H. destruct g3; groups_of H Glimmer.p_dataLine. Qed.

Lemma rast_groups (line : string) (m : list string) :
  search RAST.p_dataLine line = Some m ->
  number (group m 2) = true /\ number (group m 3) = true
  /\ plus_or_minus (group m 4) = true.
Proof. intros H. groups_of H RAST.p_dataLine. Qed.

Lemma prodigal_sco_groups (line : string) (m : list string) :
  search Prodigal.p_dataLine_sco line = Some m ->
  number (group m 2) = true /\ number (group m 3) = true.
Proof. intros H. groups_of H Prodigal.p_dataLine_sco. Qed.


Lemma phate_groups (line : string) (m : list string) :
  search Phate.p_dataLine line = Some m ->
  number (group m 1) = true /\ number (group m 2) = true
  /\ plus_or_minus (group m 3) = true.
Proof. intros H. groups_of H Phate.p_dataLine. Qed.

End Groups.

(* ================================================================== *)
(** * The output of the [Process*] loops *)
(* ================================================================== *)

Section Loops.
Import Py Re CGC_parser.

Lemma write_both_add (x : out_line) (w : world) :
  write_both x w =
  (if user_out_bound w then Ret tt else Raise NameError, add_row x w).
Proof.
  unfold write_both, bind, OUT_write, if_user_out, USER_OUT_write, modify,
    user_out_bound, add_row.
  destruct w as [p o u l s]; simpl. destruct p, u; reflexivity.
Qed.

Lemma bound_add_row (x : out_line) (w : world) :
  user_out_bound (add_row x w) = user_out_bound w.
Proof.
  unfold user_out_bound, add_row. destruct w as [p o u l s]; simpl.
  destruct p, u; reflexivity.
Qed.

Lemma bound_add_rows (xs : list out_line) :
  forall w, user_out_bound (add_rows xs w) = user_out_bound w.
Proof.
  induction xs as [|x xs IH]; intros w; simpl; [reflexivity|].
  unfold add_rows in IH. now rewrite IH, bound_add_row.
Qed.

Lemma add_rows_app (xs ys : list out_line) (w : world) :
  add_rows (xs ++ ys) w = add_rows ys (add_rows xs w).
Proof. apply fold_left_app. Qed.

Lemma OUTFILE_add_rows (xs : list out_line) :
  forall w, OUTFILE (add_rows xs w) = (OUTFILE w ++ xs)%list.
Proof.
  induction xs as [|x xs IH]; intros w; simpl.
  - now rewrite app_nil_r.
  - unfold add_rows in IH. rewrite IH. simpl. now rewrite <- app_assoc.
Qed.

Lemma LOGFILE_add_rows (xs : list out_line) :
  forall w, LOGFILE (add_rows xs w) = LOGFILE w.
Proof.
  induction xs as [|x xs IH]; intros w; simpl; [reflexivity|].
  unfold add_rows in IH. now rewrite IH.
Qed.

Lemma written_add_rows {A} (m : M world A) (w : world) (xs : list out_line) :
  snd (m w) = add_rows xs w -> written m w = xs.
Proof.
  intros H. unfold written. rewrite H, OUTFILE_add_rows.
  rewrite skipn_app, skipn_all, Nat.sub_diag. reflexivity.
Qed.

Lemma writes_written {A} (m : M world A) (w : world) (xs : list out_line) :
  writes m w xs -> written m w = xs.
Proof. intros (r & H & _). apply written_add_rows. now rewrite H. Qed.

Lemma writes_nothing {A} (a : A) (w : world) : writes (ret a) w [].
Proof. exists (Ret a). split; [reflexivity | eauto]. Qed.

Lemma writes_one {A} (x : out_line) (a : A) (w : world) :
  writes (bind (write_both x) (fun _ => ret a)) w [x].
Proof.
  unfold writes, bind. rewrite write_both_add.
  destruct (user_out_bound w).
  - exists (Ret a). split; [reflexivity | eauto].
  - exists (Raise NameError). split; [reflexivity | discriminate].
Qed.

Lemma for_each_app {S X} (body : S -> X -> M world S) (xs ys : list X) :
  forall v w,
    for_each body (xs ++ ys) v w =
    bind (for_each body xs v) (for_each body ys) w.
Proof.
  induction xs as [|x xs IH]; intros v w; simpl.
  - reflexivity.
  - unfold bind in *.
    destruct (body v x w) as [[v'|c|e] w']; [apply IH | reflexivity | reflexivity].
Qed.

(** A loop whose every step writes rows with [P] writes rows with [P]. *)
Lemma for_each_writes {S} (P : out_line -> Prop) (Q : string -> Prop)
      (step : S -> string -> M world S) :
  (forall v x w, Q x -> exists xs, writes (step v x) w xs /\ Forall P xs) ->
  forall lines, Forall Q lines ->
  forall v w, exists xs, writes (for_each step lines v) w xs /\ Forall P xs.
Proof.
  intros Hstep lines HQ. induction HQ as [|x lines Hx HQ IH]; intros v w.
  - exists []. split; [apply writes_nothing | constructor].
  - destruct (Hstep v x w Hx) as (xs1 & (r & E & Hr) & P1).
    assert (U : for_each step (x :: lines) v w
                = match r with
                  | Ret v' => for_each step lines v' (add_rows xs1 w)
                  | Exit c => (Exit c, add_rows xs1 w)
                  | Raise e => (Raise e, add_rows xs1 w)
                  end)
      by (simpl; unfold bind; rewrite E; now destruct r).
    destruct r as [v'|c|e].
    + destruct (IH v' (add_rows xs1 w)) as (xs2 & (r2 & E2 & Hr2) & P2).
      exists (xs1 ++ xs2)%list. split; [|now apply Forall_app].
      exists r2. rewrite U, add_rows_app. split; [exact E2|].
      intros B. apply Hr2. now rewrite bound_add_rows.
    + exists xs1. split; [|exact P1]. exists (Exit c). split; [exact U|].
      intros B. destruct (Hr B) as [a Ha]. discriminate.
    + exists xs1. split; [|exact P1]. exists (Raise e). split; [exact U|].
      intros B. destruct (Hr B) as [a Ha]. discriminate.
Qed.

(** [for_each ... ;; ret tt] writes what the loop writes. *)
Lemma writes_then_ret {S} (m : M world S) (w : world) (xs : list out_line) :
  writes m w xs -> writes (bind m (fun _ => ret tt)) w xs.
Proof.
  intros (r & E & Hr). unfold writes, bind. rewrite E. destruct r as [v|c|e].
  - exists (Ret tt). split; [reflexivity | eauto].
  - exists (Exit c). split; [reflexivity|]. intros B. destruct (Hr B); discriminate.
  - exists (Raise e). split; [reflexivity|]. intros B. destruct (Hr B); discriminate.
Qed.

(** A step that does nothing can be left out of the loop. *)
Lemma for_each_skip {S} (step : S -> string -> M world S) (line : string) :
  (forall v w, step v line w = (Ret v, w)) ->
  forall pre post v w,
    for_each step (pre ++ line :: post) v w = for_each step (pre ++ post) v w.
Proof.
  intros Hskip pre post v w. rewrite !for_each_app. unfold bind.
  destruct (for_each step pre v w) as [[v'|c|e] w']; try reflexivity.
  simpl. unfold bind. now rewrite Hskip.
Qed.

End Loops.

(* ================================================================== *)
(** * One step of each loop *)
(* ================================================================== *)

Section Steps.
Import Py Re CGC_parser.

Lemma int_number {W} (s : string) (w : W) :
  number s = true -> exists z, PyStr.py_int s = Some z /\ int_ s w = (Ret z, w).
Proof.
  intros H. destruct (int_of_number s H) as [z Hz]. exists z. split; [exact Hz|].
  unfold int_. now rewrite Hz.
Qed.

Lemma bind_ret_r {W A} (m : M W A) (w : W) : bind m ret w = m w.
Proof. unfold bind, ret. destruct (m w) as [[a|c|e] w']; reflexivity. Qed.

(** *** Lines that are passed over *)

Lemma genemark_step_unparsed (line : string) :
  unparsed (Some Genemark.p_contigLine) Genemark.p_dataLine line = true ->
  forall v w, Genemark.step v line w = (Ret v, w).
Proof.
  unfold unparsed, Genemark.step. intros H v w.
  destruct (search p_comment line); [discriminate|].
  destruct (search Genemark.p_contigLine line); [discriminate|].
  destruct (search Genemark.p_dataLine line); [discriminate|]. reflexivity.
Qed.

Lemma glimmer_step_unparsed (g3 : bool) (line : string) :
  unparsed (Some Glimmer.p_contigLine) (Glimmer.p_dataLine g3) line = true ->
  forall v w, Glimmer.step g3 v line w = (Ret v, w).
Proof.
  unfold unparsed, Glimmer.step. intros H v w.
  destruct (search p_comment line); [discriminate|].
  destruct (search Glimmer.p_contigLine line); [discriminate|].
  destruct (search (Glimmer.p_dataLine g3) line); [discriminate|]. reflexivity.
Qed.

Lemma rast_step_unparsed (line : string) :
  unparsed None RAST.p_dataLine line = true ->
  forall v w, RAST.step v line w = (Ret v, w).
Proof.
  unfold unparsed, RAST.step. intros H v w.
  destruct (search p_comment line); [discriminate|].
  destruct (search RAST.p_dataLine line); [discriminate|]. reflexivity.
Qed.

Lemma phate_step_unparsed (line : string) :
  unparsed None Phate.p_dataLine line = true ->
  forall v w, Phate.step v line w = (Ret v, w).
Proof.
  unfold unparsed, Phate.step. intros H v w.
  destruct (search p_comment line); [discriminate|].
  destruct (search Phate.p_dataLine line); [discriminate|]. reflexivity.
Qed.

(** *** What a step does: nothing to the files, or one record *)

Lemma genemark_step_cases (v : locals) (line : string) (w : world) :
  (exists v', Genemark.step v line w = (Ret v', w))
  \/ (exists m gn len v',
         search Genemark.p_dataLine line = Some m
         /\ PyStr.py_int (group m 1) = Some gn
         /\ PyStr.py_int (group m 5) = Some len
         /\ plus_or_minus (group m 2) = true
         /\ Genemark.step v line w
            = bind (write_both
                      (Row (PInt gn) (group m 2) (PStr (strip_angle (group m 3)))
                           (PStr (strip_angle (group m 4))) (PInt len)
                           (default_contig (contig v))))
                   (fun _ => ret v') w).
Proof.
  unfold Genemark.step.
  destruct (search p_comment line) as [mc|]; simpl; [left; eexists; reflexivity|].
  destruct (search Genemark.p_contigLine line) as [mg|]; simpl; [left; eexists; reflexivity|].
  destruct (search Genemark.p_dataLine line) as [m|] eqn:E; simpl; [|left; eexists; reflexivity].
  right. destruct (genemark_groups _ _ E) as (N1 & S2 & _ & N5).
  destruct (int_number (group m 1) w N1) as (gn & I1 & R1).
  destruct (int_number (group m 5) w N5) as (len & I5 & R5).
  exists m, gn, len. eexists.
  split; [reflexivity|]. split; [exact I1|]. split; [exact I5|]. split; [exact S2|].
  unfold bind at 1. rewrite R1. unfold bind at 1. rewrite R5.
  unfold plus_or_minus in S2. apply orb_true_iff in S2.
  destruct S2 as [S2|S2]; rewrite S2; simpl; try rewrite andb_false_r; reflexivity.
Qed.

Lemma glimmer_step_cases (g3 : bool) (v : locals) (line : string) (w : world) :
  (data_line Glimmer.p_contigLine (Glimmer.p_dataLine g3) line = false
   /\ exists v', Glimmer.step g3 v line w = (Ret v', w))
  \/ (data_line Glimmer.p_contigLine (Glimmer.p_dataLine g3) line = true
      /\ exists m gn left right v',
          search (Glimmer.p_dataLine g3) line = Some m
          /\ PyStr.py_int (group m 1) = Some gn
          /\ PyStr.py_int (group m 2) = Some left
          /\ PyStr.py_int (group m 3) = Some right
          /\ plus_or_minus (group m 4) = true
          /\ Glimmer.step g3 v line w
             = bind (write_both
                       (let ends :=
                          if String.eqb (group m 4) "+"
                          then (left, if g3 then right else right + 3)%Z
                          else (if g3 then right else right - 3, left)%Z in
                        Row (PInt gn) (group m 4) (PInt (fst ends)) (PInt (snd ends))
                            (PInt (snd ends - fst ends + 1))
                            (default_contig (contig v))))
                    (fun _ => ret v') w).
Proof.
  unfold data_line, Glimmer.step.
  destruct (search p_comment line) as [mc|]; simpl; [left; split; [reflexivity | eexists; reflexivity]|].
  destruct (search Glimmer.p_contigLine line) as [mg|]; simpl; [left; split; [reflexivity | eexists; reflexivity]|].
  destruct (search (Glimmer.p_dataLine g3) line) as [m|] eqn:E; simpl; [|left; split; [reflexivity | eexists; reflexivity]].
  right. split; [reflexivity|].
  destruct (glimmer_groups _ _ _ E) as (N1 & N2 & N3 & S4).
  destruct (int_number (group m 1) w N1) as (gn & I1 & R1).
  destruct (int_number (group m 2) w N2) as (left & I2 & R2).
  destruct (int_number (group m 3) w N3) as (right & I3 & R3).
  unfold plus_or_minus in S4.
  destruct (String.eqb (group m 4) "+") eqn:Ep;
    exists m, gn, left, right; eexists;
    (split; [reflexivity|]); (split; [exact I1|]); (split; [exact I2|]);
    (split; [exact I3|]); (split; [unfold plus_or_minus; rewrite Ep; exact S4|]);
    unfold bind at 1; rewrite R1; unfold bind at 1; rewrite R2;
    unfold bind at 1; rewrite R3; rewrite Ep.
  - unfold bind at 1. unfold ret at 1. cbn [fst snd]. reflexivity.
  - simpl in S4. rewrite S4. unfold bind at 1. unfold ret at 1. cbn [fst snd].
    reflexivity.
Qed.

Lemma rast_step_cases (v : locals) (line : string) (w : world) :
  (exists v', RAST.step v line w = (Ret v', w))
  \/ (exists m l r v',
         search RAST.p_dataLine line = Some m
         /\ plus_or_minus (group m 4) = true
         /\ RAST.step v line w
            = bind (write_both
                      (Row (PInt (count v + 1)) (group m 4) (PInt l) (PInt r)
                           (PInt (r - l + 1)) (group m 1)))
                   (fun _ => ret v') w).
Proof.
  unfold RAST.step.
  destruct (search p_comment line) as [mc|]; simpl; [left; eexists; reflexivity|].
  destruct (search RAST.p_dataLine line) as [m|] eqn:E; simpl; [|left; eexists; reflexivity].
  right. destruct (rast_groups _ _ E) as (N2 & N3 & S4).
  destruct (int_number (group m 2) w N2) as (l & I2 & R2).
  destruct (int_number (group m 3) w N3) as (r & I3 & R3).
  exists m, l, r. eexists. split; [reflexivity|]. split; [exact S4|].
  unfold bind at 1. rewrite R2. unfold bind at 1. rewrite R3. reflexivity.
Qed.

Lemma phate_step_cases (v : locals) (line : string) (w : world) :
  (exists v', Phate.step v line w = (Ret v', w))
  \/ (exists m l r v',
         search Phate.p_dataLine line = Some m
         /\ plus_or_minus (group m 3) = true
         /\ Phate.step v line w
            = bind (write_both
                      (Row (PInt (count v + 1)) (group m 3) (PInt l) (PInt r)
                           (PInt (Z.abs (r - l) + 1)) (contig v)))
                   (fun _ => ret v') w).
Proof.
  unfold Phate.step.
  destruct (search p_comment line) as [mc|]; simpl; [left; eexists; reflexivity|].
  destruct (search Phate.p_dataLine line) as [m|] eqn:E; simpl; [|left; eexists; reflexivity].
  right. destruct (phate_groups _ _ E) as (N1 & N2 & S3).
  destruct (int_number (group m 1) w N1) as (a & I1 & R1).
  destruct (int_number (group m 2) w N2) as (b & I2 & R2).
  destruct (String.eqb (group m 3) "+") eqn:Ep.
  - exists m, a, b. eexists. split; [reflexivity|]. split; [exact S3|].
    unfold bind at 1. unfold bind at 1. rewrite R1. unfold bind at 1. rewrite R2.
    reflexivity.
  - exists m, b, a. eexists. split; [reflexivity|]. split; [exact S3|].
    unfold bind at 1. unfold bind at 1. rewrite R1. unfold bind at 1. rewrite R2.
    reflexivity.
Qed.



End Steps.

(* ================================================================== *)
(** * The records each [Process*] function writes *)
(* ================================================================== *)

Section Records.
Import Py Re CGC_parser.

Lemma writes_ret_eq {A} (m : M world A) (w : world) (a : A) :
  m w = (Ret a, w) -> writes m w [].
Proof. intros H. exists (Ret a). split; [exact H | eauto]. Qed.

Lemma writes_one_eq {A} (m : M world A) (w : world) (x : out_line) (a : A) :
  m w = bind (write_both x) (fun _ => ret a) w -> writes m w [x].
Proof.
  intros H. destruct (writes_one x a w) as (r & E & Hr).
  exists r. split; [congruence | exact Hr].
Qed.

Lemma all_lines (lines : list string) : Forall (fun _ : string => True) lines.
Proof. apply Forall_forall. trivial. Qed.

Lemma forallb_Forall (p : out_line -> bool) (xs : list out_line) :
  Forall (fun x => p x = true) xs -> forallb p xs = true.
Proof. intros H. apply forallb_forall. now apply Forall_forall. Qed.

Lemma glimmer_loop (g3 : bool) (lines : list string) (v : locals) (w : world) :
  exists xs, writes (for_each (Glimmer.step g3) lines v) w xs
             /\ Forall (fun x => length_consistent x = true) xs.
Proof.
  apply (for_each_writes _ (fun _ => True)); [|apply all_lines].
  clear. intros v x w _.
  destruct (glimmer_step_cases g3 v x w)
    as [(_ & v' & E) | (_ & m & gn & l & r & v' & _ & _ & _ & _ & _ & E)].
  - exists []. split; [eapply writes_ret_eq, E | constructor].
  - eexists. split; [eapply writes_one_eq, E|].
    constructor; [|constructor]. simpl. apply Z.eqb_refl.
Qed.

Lemma rast_loop (lines : list string) (v : locals) (w : world) :
  exists xs, writes (for_each RAST.step lines v) w xs
             /\ Forall (fun x => length_consistent x = true) xs.
Proof.
  apply (for_each_writes _ (fun _ => True)); [|apply all_lines].
  clear. intros v x w _.
  destruct (rast_step_cases v x w) as [(v' & E) | (m & l & r & v' & _ & _ & E)].
  - exists []. split; [eapply writes_ret_eq, E | constructor].
  - eexists. split; [eapply writes_one_eq, E|].
    constructor; [|constructor]. simpl. apply Z.eqb_refl.
Qed.

Lemma phate_loop (lines : list string) (v : locals) (w : world) :
  exists xs, writes (for_each Phate.step lines v) w xs
             /\ Forall (fun x => length_abs x = true) xs.
Proof.
  apply (for_each_writes _ (fun _ => True)); [|apply all_lines].
  clear. intros v x w _.
  destruct (phate_step_cases v x w) as [(v' & E) | (m & l & r & v' & _ & _ & E)].
  - exists []. split; [eapply writes_ret_eq, E | constructor].
  - eexists. split; [eapply writes_one_eq, E|].
    constructor; [|constructor]. simpl. apply Z.eqb_refl.
Qed.

Lemma genemark_loop (all lines : list string) (v : locals) (w : world) :
  incl lines all ->
  exists xs, writes (for_each Genemark.step lines v) w xs
             /\ Forall (fun x => length_copied all x = true) xs.
Proof.
  intros Hin.
  apply (for_each_writes _ (fun x => In x all)); [|now apply Forall_forall].
  clear. intros v x w Hx.
  destruct (genemark_step_cases v x w)
    as [(v' & E) | (m & gn & len & v' & Em & _ & I5 & _ & E)].
  - exists []. split; [eapply writes_ret_eq, E | constructor].
  - eexists. split; [eapply writes_one_eq, E|].
    constructor; [|constructor]. simpl. apply existsb_exists.
    exists x. split; [exact Hx|]. rewrite Em, I5. apply Z.eqb_refl.
Qed.

(** Each function, as the loop followed by [return]. *)
Lemma process_writes {S} (step : S -> string -> M world S) (lines : list string)
      (v : S) (w : world) (P : out_line -> Prop) :
  (exists xs, writes (for_each step lines v) w xs /\ Forall P xs) ->
  exists xs, writes (bind (for_each step lines v) (fun _ => ret tt)) w xs
             /\ Forall P xs.
Proof. intros (xs & H & HP). exists xs. split; [now apply writes_then_ret | exact HP]. Qed.

(** With [USER_OUT] usable the function returns, and the log is untouched. *)
Lemma writes_returns (m : M world unit) (w : world) (P : out_line -> Prop) :
  (exists xs, writes m w xs /\ Forall P xs) ->
  user_out_bound w = true ->
  exists w', m w = (Ret tt, w') /\ LOGFILE w' = LOGFILE w.
Proof.
  intros (xs & (r & E & Hr) & _) B. destruct (Hr B) as [[] ->].
  eexists. split; [exact E | apply LOGFILE_add_rows].
Qed.

End Records.

(* ================================================================== *)
(** * The normalizer: claims about the emitted records *)
(* ================================================================== *)

Section NormalizerClaims.
Import Py Re CGC_parser.

(** C1.  The claim is that every emitted record has leftEnd <= rightEnd.
    ProcessPhate on the '+' line [100<TAB>50<TAB>+] and ProcessGlimmer (in
    the Glimmer3 setting) on a '+' line with start 100 and end 50 both write
    a record with leftEnd 100 and rightEnd 50: the ends follow the strand
    only, the smaller coordinate is never looked for. *)
Theorem plus_strand_left_above_right :
  written (ProcessPhate [Sample.phate_plus_line]) world0
  = [Row (PInt 1) "+" (PInt 100) (PInt 50) (PInt 51) "unknown"]
  /\ forallb ends_ordered (written (ProcessPhate [Sample.phate_plus_line]) world0)
     = false
  /\ written (ProcessGlimmer GLIMMER3 [Sample.glimmer3_plus_line]) world0
     = [Row (PInt 1) "+" (PInt 100) (PInt 50) (PInt (-49)) "unknown"]
  /\ forallb ends_ordered
             (written (ProcessGlimmer GLIMMER3 [Sample.glimmer3_plus_line]) world0)
     = false.
Proof. vm_compute. repeat split. Qed.




(** C3.  The claim is that no record with a strand other than '+' or '-'
    (the empty string included) is ever written.  ProcessProdigal writes its
    loop variables after every line that is no comment, also when the line
    did not match: on a file whose second line is blank it writes a record
    with the empty strand the variables start with. *)
Theorem prodigal_writes_empty_strand :
  written (ProcessProdigal PRODIGAL_sco Sample.prodigal_sco_file) world0
  = [Row (PInt 0) "" (PStr "") (PStr "") (PInt 0) "unknown";
     Row (PStr "1") "+" (PInt 337) (PInt 2799) (PInt 2463) "unknown"]
  /\ forallb strand_ok
             (written (ProcessProdigal PRODIGAL_sco Sample.prodigal_sco_file) world0)
     = false.
Proof. vm_compute. split; reflexivity. Qed.

(** C5.  The claim is that a line that is no comment and does not match the
    data pattern produces no record.  In ProcessProdigal such a line
    produces one: the record of the line before is written again. *)
Theorem prodigal_writes_for_unmatched_line :
  unparsed None Prodigal.p_dataLine_sco "no gene on this line" = true
  /\ written (ProcessProdigal PRODIGAL_sco Sample.prodigal_sco_file2) world0
     = [Row (PStr "1") "+" (PInt 337) (PInt 2799) (PInt 2463) "unknown";
        Row (PStr "1") "+" (PInt 337) (PInt 2799) (PInt 2463) "unknown"].
Proof. vm_compute. split; reflexivity. Qed.

End NormalizerClaims.

Section NormalizerLines.
Import Py Re CGC_parser.

(** C4, as stated, fails: a line with the strand symbol [*] does not match
    the data pattern of ProcessGenemark; it is passed over and nothing is
    written to the log. *)
Lemma bad_strand_line_not_logged :
  unparsed (Some Genemark.p_contigLine) Genemark.p_dataLine
           Sample.genemark_bad_strand = true
  /\ ProcessGenemark [Sample.genemark_bad_strand] world0 = (Ret tt, world0)
  /\ LOGFILE (snd (ProcessGenemark [Sample.genemark_bad_strand] world0)) = [].
Proof. vm_compute. repeat split. Qed.

(** C4, amended.  In ProcessGenemark, ProcessGlimmer, ProcessRAST and
    ProcessPhate a line that is no comment and matches no pattern of the
    function is skipped without a log entry: the run on the file is the run
    on the file without that line, so all remaining lines are processed.
    No line aborts these four functions: on every input they return, and
    the log is as it was before. *)
Theorem unparsed_line_skipped_silently
        (g3 rast : bool) (pre post lines : list string) (line : string)
        (w : world) :
  user_out_bound w = true ->
  (unparsed (Some Genemark.p_contigLine) Genemark.p_dataLine line = true ->
   ProcessGenemark (pre ++ line :: post) w = ProcessGenemark (pre ++ post) w)
  /\ (unparsed (Some Glimmer.p_contigLine) (Glimmer.p_dataLine g3) line = true ->
      ProcessGlimmer g3 (pre ++ line :: post) w = ProcessGlimmer g3 (pre ++ post) w)
  /\ (unparsed None RAST.p_dataLine line = true ->
      ProcessRAST rast (pre ++ line :: post) w = ProcessRAST rast (pre ++ post) w)
  /\ (unparsed None Phate.p_dataLine line = true ->
      ProcessPhate (pre ++ line :: post) w = ProcessPhate (pre ++ post) w)
  /\ (exists w', ProcessGenemark lines w = (Ret tt, w') /\ LOGFILE w' = LOGFILE w)
  /\ (exists w', ProcessGlimmer g3 lines w = (Ret tt, w') /\ LOGFILE w' = LOGFILE w)
  /\ (exists w', ProcessRAST rast lines w = (Ret tt, w') /\ LOGFILE w' = LOGFILE w)
  /\ (exists w', ProcessPhate lines w = (Ret tt, w') /\ LOGFILE w' = LOGFILE w).
Proof.
  intros B. repeat split.
  - intros H. unfold ProcessGenemark, bind.
    now rewrite (for_each_skip _ _ (genemark_step_unparsed line H)).
  - intros H. unfold ProcessGlimmer, bind.
    now rewrite (for_each_skip _ _ (glimmer_step_unparsed g3 line H)).
  - intros H. destruct rast; [|reflexivity]. unfold ProcessRAST, bind.
    now rewrite (for_each_skip _ _ (rast_step_unparsed line H)).
  - intros H. unfold ProcessPhate, bind.
    now rewrite (for_each_skip _ _ (phate_step_unparsed line H)).
  - eapply writes_returns; [|exact B].
    apply process_writes, (genemark_loop lines lines), incl_refl.
  - eapply writes_returns; [|exact B]. apply process_writes, glimmer_loop.
  - destruct rast; [|now exists w].
    eapply writes_returns; [|exact B]. apply process_writes, rast_loop.
  - eapply writes_returns; [|exact B]. apply process_writes, phate_loop.
Qed.

Lemma unparsed_line_skipped_silently_witness :
  ProcessGenemark ([Sample.genemark_line] ++ Sample.genemark_bad_strand
                     :: [Sample.genemark_line]) world0
  = ProcessGenemark ([Sample.genemark_line] ++ [Sample.genemark_line]) world0.
Proof.
  apply (unparsed_line_skipped_silently
           true true [Sample.genemark_line] [Sample.genemark_line] []
           Sample.genemark_bad_strand world0); reflexivity.
Defined.

(** C10.  For a line that reaches the data branch of ProcessGlimmer, with
    left = int(group 2) and right = int(group 3): the function writes one
    more record; on '+' it has leftEnd = left and rightEnd = right when
    GLIMMER3 is set, rightEnd = right + 3 when it is not; on '-' it has
    rightEnd = left and leftEnd = right when GLIMMER3 is set,
    leftEnd = right - 3 when it is not; in every case the length written is
    rightEnd - leftEnd + 1. *)
Theorem glimmer_coordinates_by_flag
        (glimmer3 : bool) (pre : list string) (line : string) (w : world) :
  user_out_bound w = true ->
  data_line Glimmer.p_contigLine (Glimmer.p_dataLine glimmer3) line = true ->
  exists m geneNo left right leftEnd rightEnd contig,
    search (Glimmer.p_dataLine glimmer3) line = Some m
    /\ PyStr.py_int (group m 2) = Some left
    /\ PyStr.py_int (group m 3) = Some right
    /\ written (ProcessGlimmer glimmer3 (pre ++ [line])) w
       = (written (ProcessGlimmer glimmer3 pre) w
          ++ [Row geneNo (group m 4) (PInt leftEnd) (PInt rightEnd)
                  (PInt (rightEnd - leftEnd + 1)) contig])%list
    /\ ((group m 4 = "+" /\ leftEnd = left
         /\ rightEnd = if glimmer3 then right else right + 3)
        \/ (group m 4 = "-" /\ rightEnd = left
            /\ leftEnd = if glimmer3 then right else right - 3))%Z.
Proof.
  intros B D.
  destruct (glimmer_loop glimmer3 pre Glimmer.init w) as (xs & Hxs & _).
  pose proof (writes_written _ _ _ (writes_then_ret _ _ _ Hxs)) as Wpre.
  destruct Hxs as (r & E & Hr). destruct (Hr B) as [v1 ->].
  assert (Hlast : for_each (Glimmer.step glimmer3) (pre ++ [line]) Glimmer.init w
                  = Glimmer.step glimmer3 v1 line (add_rows xs w)).
  { rewrite for_each_app. unfold bind at 1. rewrite E. simpl. apply bind_ret_r. }
  destruct (glimmer_step_cases glimmer3 v1 line (add_rows xs w))
    as [(D' & _) | (_ & m & gn & left & right & v' & Em & I1 & I2 & I3 & S4 & Es)];
    [congruence|].
  assert (W : forall x, Glimmer.step glimmer3 v1 line (add_rows xs w)
                        = bind (write_both x) (fun _ => ret v') (add_rows xs w) ->
                        written (ProcessGlimmer glimmer3 (pre ++ [line])) w
                        = (written (ProcessGlimmer glimmer3 pre) w ++ [x])%list).
  { intros x Ex. fold (ProcessGlimmer glimmer3 pre) in Wpre. rewrite Wpre.
    apply written_add_rows. unfold ProcessGlimmer, bind at 1.
    rewrite Hlast, Ex. unfold bind. rewrite write_both_add, bound_add_rows, B.
    simpl. now rewrite add_rows_app. }
  specialize (W _ Es). cbv zeta in W.
  unfold plus_or_minus in S4.
  destruct (String.eqb (group m 4) "+") eqn:Ep.
  - cbn [fst snd] in W. apply String.eqb_eq in Ep.
    exists m, (PInt gn), left, right, left, (if glimmer3 then right else right + 3)%Z.
    eexists. split; [exact Em|]. split; [exact I2|]. split; [exact I3|].
    split; [exact W|]. left. auto.
  - cbn [fst snd] in W. simpl in S4. apply String.eqb_eq in S4.
    exists m, (PInt gn), left, right, (if glimmer3 then right else right - 3)%Z, left.
    eexists. split; [exact Em|]. split; [exact I2|]. split; [exact I3|].
    split; [exact W|]. right. auto.
Qed.

Lemma glimmer_coordinates_by_flag_witness :
  exists m geneNo left right leftEnd rightEnd contig,
    search (Glimmer.p_dataLine false)
           "    2      900      400  [-2 L= 504 r=-1.211]" = Some m
    /\ PyStr.py_int (group m 2) = Some left
    /\ PyStr.py_int (group m 3) = Some right
    /\ written (ProcessGlimmer false
                  ([] ++ ["    2      900      400  [-2 L= 504 r=-1.211]"])) world0
       = (written (ProcessGlimmer false []) world0
          ++ [Row geneNo (group m 4) (PInt leftEnd) (PInt rightEnd)
                  (PInt (rightEnd - leftEnd + 1)) contig])%list
    /\ ((group m 4 = "+" /\ leftEnd = left
         /\ rightEnd = if false then right else right + 3)
        \/ (group m 4 = "-" /\ rightEnd = left
            /\ leftEnd = if false then right else right - 3))%Z.
Proof.
  apply (glimmer_coordinates_by_flag
           false [] "    2      900      400  [-2 L= 504 r=-1.211]" world0);
    reflexivity.
Defined.

End NormalizerLines.

(* ================================================================== *)
(** * The driver: its loops and the order of its calls *)
(* ================================================================== *)

Section DriverFacts.
Import Py Re CGC_main.
Context {C : Collaborators}.

Lemma bind_Ret {W A B} (m : M W A) (k : A -> M W B) (w w' : W) (a : A) :
  m w = (Ret a, w') -> bind m k w = k a w'.
Proof. intros H. unfold bind. now rewrite H. Qed.

Lemma add_files_run (fs : filesystem) (fileSet : list string) :
  (forall f, In f fileSet -> exists lines, open_r fs f = inr lines) ->
  forall done w,
  exists callerList w',
    for_each (add_file fs) fileSet done w = (Ret callerList, w')
    /\ List.length callerList = (List.length done + List.length fileSet)%nat
    /\ extends w w' fileSet
         (map (fun p => EvAddGeneCalls (fst p) (snd p))
              (combine (seq (List.length done) (List.length fileSet)) fileSet)).
Proof.
  induction fileSet as [|f fileSet IH]; intros Hr done w.
  - exists done, w. simpl. unfold extends. rewrite !app_nil_r, Nat.add_0_r. auto.
  - destruct (Hr f (or_introl eq_refl)) as [lines Hf].
    destruct (IH (fun g Hg => Hr g (or_intror Hg))
                 (done ++ [AddGeneCalls GeneCallSet_new lines])%list
                 (mkWorld (STDOUT w ++ ["Adding Calls from file " ++ f])
                          (LOG w) (opened w ++ [f])
                          (calls w ++ [EvAddGeneCalls (List.length done) f])))
      as (cl & w' & E & L & X1 & X2 & X3).
    exists cl, w'. split.
    + simpl. unfold bind at 1. unfold add_file, open_input. rewrite Hf. exact E.
    + rewrite length_app in L. simpl in L. split; [simpl; lia|].
      unfold extends. simpl in *. rewrite X1, X2, X3, <- !app_assoc.
      rewrite length_app, Nat.add_1_r. auto.
Qed.

Lemma extends_refl (w : world) : extends w w [] [].
Proof. unfold extends. now rewrite !app_nil_r. Qed.

Lemma extends_trans (w1 w2 w3 : world) (f1 f2 : list string) (e1 e2 : list event) :
  extends w1 w2 f1 e1 -> extends w2 w3 f2 e2 ->
  extends w1 w3 (f1 ++ f2) (e1 ++ e2).
Proof.
  unfold extends. intros (A1 & A2 & A3) (B1 & B2 & B3).
  rewrite B1, B2, B3, A1, A2, A3, !app_assoc. auto.
Qed.

Lemma print_run (s : string) (w : world) :
  exists w', print s w = (Ret tt, w') /\ extends w w' [] [].
Proof.
  eexists. split; [reflexivity|]. unfold extends. simpl. now rewrite !app_nil_r.
Qed.

Lemma call_run (e : event) (w : world) :
  exists w', call e w = (Ret tt, w') /\ extends w w' [] [e].
Proof.
  eexists. split; [reflexivity|]. unfold extends. simpl. now rewrite app_nil_r.
Qed.

Lemma print_callers_run (callerList : list GeneCallSet) :
  forall w, exists w',
    for_each (fun (_ : unit) caller => print (geneCaller caller ++ " , "))
             callerList tt w = (Ret tt, w')
    /\ extends w w' [] [].
Proof.
  induction callerList as [|c cl IH]; intros w.
  - exists w. split; [reflexivity | apply extends_refl].
  - destruct (print_run (geneCaller c ++ " , ") w) as (w1 & E1 & X1).
    destruct (IH w1) as (w2 & E2 & X2).
    exists w2. split; [simpl; now rewrite (bind_Ret _ _ _ _ _ E1)|].
    apply (extends_trans _ _ _ _ _ _ _ X1 X2).
Qed.

Lemma sort_all_run (callerList : list GeneCallSet) :
  forall done w, exists sorted w',
    for_each (fun done caller =>
                bind (call (EvSortGeneCalls (List.length done)))
                     (fun _ => ret (done ++ [SortGeneCalls caller])%list))
             callerList done w = (Ret sorted, w')
    /\ List.length sorted = (List.length done + List.length callerList)%nat
    /\ extends w w' [] (map EvSortGeneCalls
                            (seq (List.length done) (List.length callerList))).
Proof.
  induction callerList as [|c cl IH]; intros done w.
  - exists done, w. simpl. rewrite Nat.add_0_r.
    split; [reflexivity|]. split; [reflexivity | apply extends_refl].
  - destruct (call_run (EvSortGeneCalls (List.length done)) w) as (w1 & E1 & X1).
    destruct (IH (done ++ [SortGeneCalls c])%list w1) as (s & w2 & E2 & L & X2).
    exists s, w2. rewrite length_app, Nat.add_1_r in L, X2. split.
    + simpl. unfold bind at 1. rewrite (bind_Ret _ _ _ _ _ E1). exact E2.
    + split; [simpl; lia|]. apply (extends_trans _ _ _ _ _ _ _ X1 X2).
Qed.

Lemma merge_all_run (callerList : list GeneCallSet) :
  forall n cmp w, exists cmp' w',
    for_each (fun st caller =>
                bind (call (EvMerge (fst st)))
                     (fun _ => ret (S (fst st), Merge (snd st) (geneCallList caller))))
             callerList (n, cmp) w = (Ret (n + List.length callerList, cmp')%nat, w')
    /\ extends w w' [] (map EvMerge (seq n (List.length callerList))).
Proof.
  induction callerList as [|c cl IH]; intros n cmp w.
  - exists cmp, w. simpl. rewrite Nat.add_0_r. split; [reflexivity | apply extends_refl].
  - destruct (call_run (EvMerge n) w) as (w1 & E1 & X1).
    destruct (IH (S n) (Merge cmp (geneCallList c)) w1) as (cmp' & w2 & E2 & X2).
    exists cmp', w2. split.
    + simpl. unfold bind at 1. rewrite (bind_Ret _ _ _ _ _ E1).
      unfold ret at 1. simpl. rewrite E2. f_equal. f_equal. f_equal. lia.
    + apply (extends_trans _ _ _ _ _ _ _ X1 X2).
Qed.

Lemma pipeline_run (fs : filesystem) (fileSet : list string) (w : world) :
  (forall f, In f fileSet -> exists lines, open_r fs f = inr lines) ->
  exists compareGCs w',
    pipeline fs fileSet w = (Ret compareGCs, w')
    /\ extends w w' fileSet (expected_calls fileSet).
Proof.
  intros Hr. unfold pipeline, when, CHATTY, DEBUG.
  destruct (print_run "Main: Iterating through fileSet..." w) as (w1 & E1 & X1).
  rewrite (bind_Ret _ _ _ _ _ E1).
  destruct (add_files_run fs fileSet Hr [] w1) as (cl & w2 & E2 & L2 & X2).
  rewrite (bind_Ret _ _ _ _ _ E2).
  destruct (print_run "Main: callerList is" w2) as (w3 & E3 & X3).
  destruct (print_callers_run cl w3) as (w4 & E4 & X4).
  destruct (print_run "" w4) as (w5 & E5 & X5).
  rewrite (bind_Ret _ _ w2 w5 tt).
  2:{ rewrite (bind_Ret _ _ _ _ _ E3), (bind_Ret _ _ _ _ _ E4). exact E5. }
  rewrite (bind_Ret _ _ w5 w5 tt) by reflexivity.
  destruct (print_run "Main: Sorting gene calls for each caller..." w5) as (w6 & E6 & X6).
  rewrite (bind_Ret _ _ _ _ _ E6).
  destruct (sort_all_run cl [] w6) as (sorted & w7 & E7 & L7 & X7).
  unfold sort_all. rewrite (bind_Ret _ _ _ _ _ E7).
  rewrite (bind_Ret _ _ w7 w7 tt) by reflexivity.
  destruct (print_run "Main: Comparing accross the call sets..." w7) as (w8 & E8 & X8).
  rewrite (bind_Ret _ _ _ _ _ E8).
  destruct (merge_all_run sorted 0 Comparison_new w8) as (cmp & w9 & E9 & X9).
  unfold merge_all. rewrite (bind_Ret _ _ _ _ _ E9).
  destruct (call_run EvCompare w9) as (w10 & E10 & X10).
  rewrite (bind_Ret _ _ _ _ _ E10).
  destruct (call_run EvIdentifyCommonCore w10) as (w11 & E11 & X11).
  rewrite (bind_Ret _ _ _ _ _ E11).
  destruct (call_run EvPrintReport w11) as (w12 & E12 & X12).
  rewrite (bind_Ret _ _ _ _ _ E12).
  rewrite (bind_Ret _ _ w12 w12 tt) by reflexivity.
  eexists. exists w12. split; [reflexivity|].
  simpl in L2, L7, X2, X7. rewrite L7, L2 in *.
  pose proof (extends_trans _ _ _ _ _ _ _ X1
             (extends_trans _ _ _ _ _ _ _ X2
             (extends_trans _ _ _ _ _ _ _ X3
             (extends_trans _ _ _ _ _ _ _ X4
             (extends_trans _ _ _ _ _ _ _ X5
             (extends_trans _ _ _ _ _ _ _ X6
             (extends_trans _ _ _ _ _ _ _ X7
             (extends_trans _ _ _ _ _ _ _ X8
             (extends_trans _ _ _ _ _ _ _ X9
             (extends_trans _ _ _ _ _ _ _ X10
             (extends_trans _ _ _ _ _ _ _ X11 X12))))))))))) as X.
  simpl in X. rewrite !app_nil_r in X. exact X.
Qed.
End DriverFacts.

(* ================================================================== *)
(** * The two scripts as whole programs *)
(* ================================================================== *)

Section ProgramClaims.
Import Py Re.

(** C6.  The claim is that no exception escapes.  In CGC_parser.py a user
    output path that cannot be opened is printed and flagged, but the flag is
    not tested again: the run goes on and the first [USER_OUT.write] raises
    [NameError], after the two header lines went to the default output and
    with nothing in the log.  In CGC_main.py an input file that cannot be
    opened raises the [IOError] of [open]. *)
Theorem unopened_file_raises :
  CGC_parser.main Sample.fs_user_out_unwritable
    ["./CGC_parser.py"; "PHATE"; "phate.calls"; "/no/such/dir/calls.out"]
    CGC_parser.world0
  = (Raise NameError,
     CGC_parser.mkWorld true
       [CGC_parser.Text "# phate gene calls, taken from file phate.calls";
        CGC_parser.Text ("Gene No." ++ TAB ++ "Strand" ++ TAB ++ "LeftEnd" ++ TAB
                         ++ "RightEnd" ++ TAB ++ "Length" ++ TAB ++ "Contig")]
       None []
       ["[Errno 2] No such file or directory: '/no/such/dir/calls.out'"])
  /\ fst (@CGC_main.main CGC_main.no_content Sample.fs_missing_input
            ["./CGC_main.py"; "prodigal.calls"; "missing.calls"] CGC_main.world0)
     = Raise (IOError "[Errno 2] No such file or directory: 'missing.calls'").
Proof. vm_compute. split; reflexivity. Qed.

(** C7, as stated, fails: with one file path, fewer than two, the driver
    prints no usage message and does not exit; it runs the comparison. *)
Lemma single_file_runs_comparison :
  (List.length (tl ["./CGC_main.py"; "prodigal.calls"]) < 2)%nat
  /\ fst (@CGC_main.main CGC_main.no_content Sample.fs_missing_input
            ["./CGC_main.py"; "prodigal.calls"] CGC_main.world0) = Ret tt
  /\ CGC_main.calls
       (snd (@CGC_main.main CGC_main.no_content Sample.fs_missing_input
               ["./CGC_main.py"; "prodigal.calls"] CGC_main.world0))
     = [CGC_main.EvAddGeneCalls 0 "prodigal.calls"; CGC_main.EvSortGeneCalls 0;
        CGC_main.EvMerge 0; CGC_main.EvCompare; CGC_main.EvIdentifyCommonCore;
        CGC_main.EvPrintReport].
Proof. vm_compute. repeat split. apply le_n. Qed.

(** C7, amended.  With no file path at all the driver writes the log line,
    prints the usage message and exits with status zero; no input file is
    opened and no comparison is made. *)
Theorem no_file_usage_exit
        {C : CGC_main.Collaborators} (fs : filesystem) (argv : list string) :
  open_w fs CGC_main.OUT_FILE = None ->
  open_w fs CGC_main.LOG_FILE = None ->
  (List.length argv <= 1)%nat ->
  CGC_main.main fs argv CGC_main.world0
  = (Exit 0,
     CGC_main.mkWorld [CGC_main.USAGE_STRING]
                      ["Incorrect number of command-line arguments provided"]
                      [] []).
Proof.
  intros Ho Hl Hn. unfold CGC_main.main, CGC_main.open_output. rewrite Ho, Hl.
  unfold bind at 1. unfold ret at 1. unfold bind at 1. unfold ret at 1.
  unfold bind at 1. unfold CGC_main.get_input_parameters.
  destruct (Nat.ltb_spec 1 (List.length argv)) as [H|H]; [lia|]. reflexivity.
Qed.

Lemma no_file_usage_exit_witness :
  @CGC_main.main CGC_main.no_content Sample.fs_missing_input ["./CGC_main.py"]
                 CGC_main.world0
  = (Exit 0,
     CGC_main.mkWorld [CGC_main.USAGE_STRING]
                      ["Incorrect number of command-line arguments provided"]
                      [] []).
Proof.
  apply (@no_file_usage_exit CGC_main.no_content Sample.fs_missing_input
                             ["./CGC_main.py"]);
    [reflexivity | reflexivity | simpl; lia].
Defined.

(** C9.  When the lowercased first argument contains one of "help", "input",
    "usage", "detail", "info", the driver prints one of its four messages and
    exits with status zero; no input file is opened and no call is made, also
    when the argument is the path of an input file. *)
Theorem keyword_argument_exits
        {C : CGC_main.Collaborators} (fs : filesystem) (prog a1 : string)
        (rest : list string) (kw : string) :
  open_w fs CGC_main.OUT_FILE = None ->
  open_w fs CGC_main.LOG_FILE = None ->
  In kw CGC_main.keywords ->
  CGC_main.contains kw (PyStr.lower a1) ->
  exists msg,
    CGC_main.main fs (prog :: a1 :: rest) CGC_main.world0
    = (Exit 0, CGC_main.mkWorld [msg] [] [] [])
    /\ In msg [CGC_main.HELP_STRING; CGC_main.INPUT_STRING;
               CGC_main.USAGE_STRING; CGC_main.INFO_STRING].
Proof.
  intros Ho Hl Hin Hc. apply search_lit in Hc.
  unfold CGC_main.main, CGC_main.open_output. rewrite Ho, Hl.
  unfold bind at 1. unfold ret at 1. unfold bind at 1. unfold ret at 1.
  unfold bind at 1. unfold CGC_main.get_input_parameters, CGC_main.arg.
  cbn [List.length Nat.ltb Nat.leb nth tl].
  destruct (matched (search (lit "help") (PyStr.lower a1))) eqn:E1.
  { eexists. split; [reflexivity|]. simpl. tauto. }
  destruct (matched (search (lit "input") (PyStr.lower a1))) eqn:E2.
  { eexists. split; [reflexivity|]. simpl. tauto. }
  destruct (matched (search (lit "usage") (PyStr.lower a1))) eqn:E3.
  { eexists. split; [reflexivity|]. simpl. tauto. }
  destruct (matched (search (lit "detail") (PyStr.lower a1))) eqn:E4.
  { eexists. split; [reflexivity|]. simpl. tauto. }
  destruct (matched (search (lit "info") (PyStr.lower a1))) eqn:E5.
  { eexists. split; [reflexivity|]. simpl. tauto. }
  simpl in Hin.
  repeat (destruct Hin as [<-|Hin]; [congruence|]). destruct Hin.
Qed.

Lemma keyword_argument_exits_witness :
  exists msg,
    @CGC_main.main CGC_main.no_content Sample.fs_missing_input
                   ("./CGC_main.py" :: "my_input.calls" :: ["prodigal.calls"])
                   CGC_main.world0
    = (Exit 0, CGC_main.mkWorld [msg] [] [] [])
    /\ In msg [CGC_main.HELP_STRING; CGC_main.INPUT_STRING;
               CGC_main.USAGE_STRING; CGC_main.INFO_STRING].
Proof.
  apply (@keyword_argument_exits CGC_main.no_content Sample.fs_missing_input
                                 "./CGC_main.py" "my_input.calls"
                                 ["prodigal.calls"] "input").
  - reflexivity.
  - reflexivity.
  - simpl. tauto.
  - exists "my_", ".calls". reflexivity.
Defined.

End ProgramClaims.

(* ================================================================== *)
(** * Further properties of the normalizer's records *)
(* ================================================================== *)

Section RecordFields.
Import Py Re CGC_parser.

Lemma default_contig_named (c : string) :
  negb (String.eqb (default_contig c) "") = true.
Proof.
  unfold default_contig. destruct (String.eqb c "") eqn:E; [reflexivity|].
  now rewrite E.
Qed.

Lemma genemark_loop_fields (lines : list string) (v : locals) (w : world) :
  exists xs, writes (for_each Genemark.step lines v) w xs
             /\ Forall (fun x => strand_ok x = true /\ contig_named x = true) xs.
Proof.
  apply (for_each_writes _ (fun _ => True)); [|apply all_lines].
  clear. intros v x w _.
  destruct (genemark_step_cases v x w)
    as [(v' & E) | (m & gn & len & v' & _ & _ & _ & S2 & E)].
  - exists []. split; [eapply writes_ret_eq, E | constructor].
  - eexists. split; [eapply writes_one_eq, E|].
    constructor; [|constructor]. split; [exact S2 | apply default_contig_named].
Qed.

Lemma glimmer_loop_fields (g3 : bool) (lines : list string) (v : locals) (w : world) :
  exists xs, writes (for_each (Glimmer.step g3) lines v) w xs
             /\ Forall (fun x => strand_ok x = true /\ contig_named x = true) xs.
Proof.
  apply (for_each_writes _ (fun _ => True)); [|apply all_lines].
  clear. intros v x w _.
  destruct (glimmer_step_cases g3 v x w)
    as [(_ & v' & E) | (_ & m & gn & l & r & v' & _ & _ & _ & _ & S4 & E)].
  - exists []. split; [eapply writes_ret_eq, E | constructor].
  - eexists. split; [eapply writes_one_eq, E|].
    constructor; [|constructor]. split; [exact S4 | apply default_contig_named].
Qed.

Lemma rast_loop_strand (lines : list string) (v : locals) (w : world) :
  exists xs, writes (for_each RAST.step lines v) w xs
             /\ Forall (fun x => strand_ok x = true) xs.
Proof.
  apply (for_each_writes _ (fun _ => True)); [|apply all_lines].
  clear. intros v x w _.
  destruct (rast_step_cases v x w) as [(v' & E) | (m & l & r & v' & _ & S4 & E)].
  - exists []. split; [eapply writes_ret_eq, E | constructor].
  - eexists. split; [eapply writes_one_eq, E|]. constructor; [exact S4 | constructor].
Qed.

Lemma phate_loop_strand (lines : list string) (v : locals) (w : world) :
  exists xs, writes (for_each Phate.step lines v) w xs
             /\ Forall (fun x => strand_ok x = true) xs.
Proof.
  apply (for_each_writes _ (fun _ => True)); [|apply all_lines].
  clear. intros v x w _.
  destruct (phate_step_cases v x w) as [(v' & E) | (m & l & r & v' & _ & S3 & E)].
  - exists []. split; [eapply writes_ret_eq, E | constructor].
  - eexists. split; [eapply writes_one_eq, E|]. constructor; [exact S3 | constructor].
Qed.

Lemma Forall_proj1 {A} (P Q : A -> Prop) (xs : list A) :
  Forall (fun x => P x /\ Q x) xs -> Forall P xs.
Proof. intros H. eapply Forall_impl; [|exact H]. now intros a [? ?]. Qed.


(** X1.  Every record written by ProcessGenemark, ProcessGlimmer (either
    Glimmer version), ProcessRAST and ProcessPhate has the strand '+' or '-',
    whatever the input lines are. *)
Theorem strand_is_plus_or_minus
        (g3 rast : bool) (lines : list string) (w : world) :
  forallb strand_ok (written (ProcessGenemark lines) w) = true
  /\ forallb strand_ok (written (ProcessGlimmer g3 lines) w) = true
  /\ forallb strand_ok (written (ProcessRAST rast lines) w) = true
  /\ forallb strand_ok (written (ProcessPhate lines) w) = true.
Proof.
  repeat split.
  - destruct (process_writes _ _ _ _ _ (genemark_loop_fields lines Genemark.init w))
      as (xs & H & HP).
    unfold ProcessGenemark. rewrite (writes_written _ _ _ H).
    apply forallb_Forall, (Forall_proj1 _ _ _ HP).
  - destruct (process_writes _ _ _ _ _ (glimmer_loop_fields g3 lines Glimmer.init w))
      as (xs & H & HP).
    unfold ProcessGlimmer. rewrite (writes_written _ _ _ H).
    apply forallb_Forall, (Forall_proj1 _ _ _ HP).
  - destruct rast;
      [|unfold ProcessRAST; now rewrite (writes_written _ _ _ (writes_nothing tt w))].
    destruct (process_writes _ _ _ _ _ (rast_loop_strand lines RAST.init w))
      as (xs & H & HP).
    unfold ProcessRAST. rewrite (writes_written _ _ _ H). now apply forallb_Forall.
  - destruct (process_writes _ _ _ _ _ (phate_loop_strand lines Phate.init w))
      as (xs & H & HP).
    unfold ProcessPhate. rewrite (writes_written _ _ _ H). now apply forallb_Forall.
Qed.


End RecordFields.

Section CommentLines.
Import Py Re CGC_parser.

Lemma bol_fails_later (r : regex) (s : string) :
  forall pos, search_at (Bol :: r) s (S pos) = None.
Proof.
  induction s as [|a s IH]; intros pos; simpl; [reflexivity | apply IH].
Qed.

(** The comment pattern finds the lines whose first byte is '#'. *)
Lemma comment_iff (line : string) :
  matched (search p_comment line) = true <-> exists s, line = String "#" s.
Proof.
  unfold search, p_comment. destruct line as [|a s].
  - cbn. split; [discriminate | intros [s H]; discriminate].
  - cbn [search_at match_here lit Nat.eqb]. unfold PyStr.is_char.
    destruct (Ascii.eqb "#" a) eqn:E.
    + apply Ascii.eqb_eq in E. subst a. cbn [matched]. split; [eauto | reflexivity].
    + rewrite bol_fails_later. cbn [matched]. apply Ascii.eqb_neq in E.
      split; [discriminate | intros [s' H]; congruence].
Qed.

Lemma comment_found (s : string) : exists m, search p_comment (String "#" s) = Some m.
Proof.
  destruct (search p_comment (String "#" s)) as [m|] eqn:E; [eauto|].
  assert (H : matched (search p_comment (String "#" s)) = true)
    by (apply comment_iff; eauto).
  rewrite E in H. discriminate.
Qed.

(** X3.  A line that starts with '#' is ignored by all five functions: the
    run on a file is the run on the file without its comment lines, so a
    comment changes neither the records nor the loop variables. *)
Theorem comment_lines_ignored
        (g3 rast sco : bool) (pre post : list string) (s : string) (w : world) :
  ProcessGenemark (pre ++ String "#" s :: post) w = ProcessGenemark (pre ++ post) w
  /\ ProcessGlimmer g3 (pre ++ String "#" s :: post) w
     = ProcessGlimmer g3 (pre ++ post) w
  /\ ProcessRAST rast (pre ++ String "#" s :: post) w = ProcessRAST rast (pre ++ post) w
  /\ ProcessProdigal sco (pre ++ String "#" s :: post) w
     = ProcessProdigal sco (pre ++ post) w
  /\ ProcessPhate (pre ++ String "#" s :: post) w = ProcessPhate (pre ++ post) w.
Proof.
  destruct (comment_found s) as [m Hm].
  repeat split.
  - unfold ProcessGenemark, bind. rewrite for_each_skip; [reflexivity|].
    intros v w'. unfold Genemark.step. now rewrite Hm.
  - unfold ProcessGlimmer, bind. rewrite for_each_skip; [reflexivity|].
    intros v w'. unfold Glimmer.step. now rewrite Hm.
  - destruct rast; [|reflexivity].
    unfold ProcessRAST, bind. rewrite for_each_skip; [reflexivity|].
    intros v w'. unfold RAST.step. now rewrite Hm.
  - destruct sco; unfold ProcessProdigal, bind.
    + rewrite for_each_skip; [reflexivity|].
      intros v w'. unfold Prodigal.step_sco. now rewrite Hm.
    + rewrite for_each_skip; [reflexivity|].
      intros v w'. unfold Prodigal.step_gff. now rewrite Hm.
  - unfold ProcessPhate, bind. rewrite for_each_skip; [reflexivity|].
    intros v w'. unfold Phate.step. now rewrite Hm.
Qed.

End CommentLines.

(* ================================================================== *)
(** * Loops with an invariant on the loop variables *)
(* ================================================================== *)

Section Invariants.
Import Py Re CGC_parser.

Lemma write_then_ret {A} (x : out_line) (a : A) (w : world) :
  user_out_bound w = true ->
  bind (write_both x) (fun _ => ret a) w = (Ret a, add_rows [x] w).
Proof. intros B. unfold bind. rewrite write_both_add, B. reflexivity. Qed.

(** [J done v xs]: after the lines [done] the loop variables are [v] and the
    records [xs] were written.  [Q] holds of the lines still to come. *)
Lemma for_each_inv {S} (step : S -> string -> M world S)
      (Q : string -> Prop) (J : list string -> S -> list out_line -> Prop) :
  (forall done v xs0 x w,
      Q x -> J done v xs0 -> user_out_bound w = true ->
      exists v' xs, step v x w = (Ret v', add_rows xs w)
                    /\ J (done ++ [x])%list v' (xs0 ++ xs)%list) ->
  forall lines, Forall Q lines ->
  forall done v xs0 w,
    J done v xs0 -> user_out_bound w = true ->
    exists v' xs, for_each step lines v w = (Ret v', add_rows xs w)
                  /\ J (done ++ lines)%list v' (xs0 ++ xs)%list.
Proof.
  intros Hstep lines HQ.
  induction HQ as [|x lines Hx HQ IH]; intros done v xs0 w HJ B.
  - exists v, []. rewrite !app_nil_r. split; [reflexivity | exact HJ].
  - destruct (Hstep done v xs0 x w Hx HJ B) as (v1 & xs1 & E1 & J1).
    destruct (IH (done ++ [x])%list v1 (xs0 ++ xs1)%list (add_rows xs1 w) J1)
      as (v2 & xs2 & E2 & J2); [now rewrite bound_add_rows|].
    exists v2, (xs1 ++ xs2)%list. split.
    + simpl. unfold bind. rewrite E1, E2. now rewrite add_rows_app.
    + rewrite <- app_assoc in J2. simpl in J2. now rewrite app_assoc.
Qed.

(** The function: the loop, then [return]. *)
Lemma process_inv {S} (step : S -> string -> M world S) (lines : list string)
      (v v' : S) (w : world) (xs : list out_line) :
  for_each step lines v w = (Ret v', add_rows xs w) ->
  bind (for_each step lines v) (fun _ => ret tt) w = (Ret tt, add_rows xs w)
  /\ written (bind (for_each step lines v) (fun _ => ret tt)) w = xs.
Proof.
  intros E.
  assert (R : bind (for_each step lines v) (fun _ => ret tt) w
              = (Ret tt, add_rows xs w)) by (unfold bind; now rewrite E).
  split; [exact R|]. apply written_add_rows. now rewrite R.
Qed.

Lemma numbered_snoc (first n : nat) :
  numbered first (S n) = (numbered first n ++ [Some (PInt (Z.of_nat (first + n)))])%list.
Proof. unfold numbered. now rewrite seq_S, map_app. Qed.

Lemma filter_snoc {A} (f : A -> bool) (xs : list A) (x : A) :
  filter f (xs ++ [x]) = (filter f xs ++ if f x then [x] else [])%list.
Proof. rewrite filter_app. simpl. now destruct (f x). Qed.

(** *** ProcessPhate *)

Lemma phate_step_exact (v : locals) (line : string) (w : world) :
  user_out_bound w = true ->
  (data_line0 Phate.p_dataLine line = false /\ Phate.step v line w = (Ret v, w))
  \/ (data_line0 Phate.p_dataLine line = true
      /\ exists m a b v',
          search Phate.p_dataLine line = Some m
          /\ PyStr.py_int (group m 1) = Some a
          /\ PyStr.py_int (group m 2) = Some b
          /\ plus_or_minus (group m 3) = true
          /\ count v' = (count v + 1)%Z
          /\ contig v' = contig v
          /\ Phate.step v line w
             = (Ret v',
                add_rows
                  [let leftEnd := if String.eqb (group m 3) "+" then a else b in
                   let rightEnd := if String.eqb (group m 3) "+" then b else a in
                   Row (PInt (count v + 1)) (group m 3) (PInt leftEnd) (PInt rightEnd)
                       (PInt (Z.abs (rightEnd - leftEnd) + 1)) (contig v)] w)).
Proof.
  intros B. unfold data_line0, Phate.step.
  destruct (search p_comment line) as [mc|]; simpl; [left; split; reflexivity|].
  destruct (search Phate.p_dataLine line) as [m|] eqn:E; simpl;
    [|left; split; reflexivity].
  right. split; [reflexivity|].
  destruct (phate_groups _ _ E) as (N1 & N2 & S3).
  destruct (int_number (group m 1) w N1) as (a & I1 & R1).
  destruct (int_number (group m 2) w N2) as (b & I2 & R2).
  destruct (String.eqb (group m 3) "+") eqn:Ep;
    exists m, a, b; eexists;
    (split; [reflexivity|]); (split; [exact I1|]); (split; [exact I2|]);
    (split; [exact S3|]);
    (split; [|split;
       [|cbv zeta; rewrite Ep;
         unfold bind at 1; unfold bind at 1; rewrite R1; unfold bind at 1;
         rewrite R2; unfold ret at 1; cbn [fst snd];
         apply (write_then_ret _ _ _ B)]]); reflexivity.
Qed.

End Invariants.

Section Numbering.
Import Py Re CGC_parser.

Lemma for_each_snoc {S} (step : S -> string -> M world S) (pre : list string)
      (line : string) (v v1 : S) (w w1 : world) :
  for_each step pre v w = (Ret v1, w1) ->
  for_each step (pre ++ [line]) v w = step v1 line w1.
Proof.
  intros H. rewrite for_each_app. unfold bind at 1. rewrite H. simpl.
  apply bind_ret_r.
Qed.

Lemma of_nat_succ (n : nat) : (Z.of_nat n + 1)%Z = Z.of_nat (1 + n).
Proof. lia. Qed.

Lemma phate_inv_step (done : list string) (v : locals) (xs0 : list out_line)
      (x : string) (w : world) :
  True -> phate_state done v xs0 -> user_out_bound w = true ->
  exists v' xs, Phate.step v x w = (Ret v', add_rows xs w)
                /\ phate_state (done ++ [x]) v' (xs0 ++ xs).
Proof.
  intros _ (Hc & Hk & Hn & Hg & Hu) B. unfold phate_state.
  destruct (phate_step_exact v x w B)
    as [(D & E) | (D & m & a & b & v' & _ & _ & _ & _ & Hc' & Hk' & E)].
  - exists v, []. split; [exact E|].
    rewrite app_nil_r, filter_snoc, D, app_nil_r. auto.
  - eexists v', _. split; [exact E|].
    rewrite filter_snoc, D, !length_app, map_app, Hg. cbn [List.length map row_geneNo].
    rewrite Nat.add_1_r, numbered_snoc, Hc', Hk', Hc, Hn.
    repeat split; try lia; try assumption.
    + now rewrite of_nat_succ.
    + apply Forall_app. split; [exact Hu|]. constructor; [|constructor].
      cbn. now rewrite Hk.
Qed.

Lemma phate_run (lines : list string) (w : world) :
  user_out_bound w = true ->
  exists v xs, for_each Phate.step lines Phate.init w = (Ret v, add_rows xs w)
               /\ phate_state lines v xs.
Proof.
  intros B.
  destruct (for_each_inv Phate.step (fun _ => True) phate_state phate_inv_step
                         lines (all_lines lines) [] Phate.init [] w)
    as (v & xs & E & J); [|exact B|eauto].
  unfold phate_state. cbn. repeat split; constructor.
Qed.

(** After the lines [done] of ProcessRAST. *)
Lemma rast_step_exact (v : locals) (line : string) (w : world) :
  user_out_bound w = true ->
  (data_line0 RAST.p_dataLine line = false /\ RAST.step v line w = (Ret v, w))
  \/ (data_line0 RAST.p_dataLine line = true
      /\ exists m l r v',
          search RAST.p_dataLine line = Some m
          /\ PyStr.py_int (group m 2) = Some l
          /\ PyStr.py_int (group m 3) = Some r
          /\ count v' = (count v + 1)%Z
          /\ RAST.step v line w
             = (Ret v',
                add_rows [Row (PInt (count v + 1)) (group m 4) (PInt l) (PInt r)
                              (PInt (r - l + 1)) (group m 1)] w)).
Proof.
  intros B. unfold data_line0, RAST.step.
  destruct (search p_comment line) as [mc|]; simpl; [left; split; reflexivity|].
  destruct (search RAST.p_dataLine line) as [m|] eqn:E; simpl;
    [|left; split; reflexivity].
  right. split; [reflexivity|].
  destruct (rast_groups _ _ E) as (N2 & N3 & S4).
  destruct (int_number (group m 2) w N2) as (l & I2 & R2).
  destruct (int_number (group m 3) w N3) as (r & I3 & R3).
  exists m, l, r. eexists.
  split; [reflexivity|]. split; [exact I2|]. split; [exact I3|].
  split; [|unfold bind at 1; rewrite R2; unfold bind at 1; rewrite R3;
           apply (write_then_ret _ _ _ B)].
  reflexivity.
Qed.

Lemma rast_run (lines : list string) (w : world) :
  user_out_bound w = true ->
  exists v xs,
    for_each RAST.step lines RAST.init w = (Ret v, add_rows xs w)
    /\ count v = Z.of_nat (List.length xs)
    /\ List.length xs = List.length (filter (data_line0 RAST.p_dataLine) lines)
    /\ map row_geneNo xs = numbered 1 (List.length xs).
Proof.
  intros B.
  destruct (for_each_inv RAST.step (fun _ => True)
              (fun done v xs =>
                 count v = Z.of_nat (List.length xs)
                 /\ List.length xs
                    = List.length (filter (data_line0 RAST.p_dataLine) done)
                 /\ map row_geneNo xs = numbered 1 (List.length xs)))
    with (lines := lines) (done := @nil string) (v := RAST.init)
         (xs0 := @nil out_line) (w := w)
    as (v & xs & E & J); [|apply all_lines| |exact B|eauto].
  - clear. intros done v xs0 x w _ (Hc & Hn & Hg) B.
    destruct (rast_step_exact v x w B)
      as [(D & E) | (D & m & l & r & v' & _ & _ & _ & Hc' & E)].
    + exists v, []. split; [exact E|].
      rewrite app_nil_r, filter_snoc, D, app_nil_r. auto.
    + eexists v', _. split; [exact E|].
      rewrite filter_snoc, D, !length_app, map_app, Hg.
      cbn [List.length map row_geneNo].
      rewrite Nat.add_1_r, numbered_snoc, Hc', Hc, Hn.
      repeat split; try lia. now rewrite of_nat_succ.
  - cbn. auto.
Qed.

(** X4.  ProcessRAST (gff3 setting) and ProcessPhate number their records
    1, 2, 3, ... in the order of the data lines, whatever gene number the
    input carries; there is one record per data line. *)
Theorem rast_phate_number_consecutively (lines : list string) (w : world) :
  user_out_bound w = true ->
  map row_geneNo (written (ProcessRAST true lines) w)
  = numbered 1 (List.length (filter (data_line0 RAST.p_dataLine) lines))
  /\ map row_geneNo (written (ProcessPhate lines) w)
     = numbered 1 (List.length (filter (data_line0 Phate.p_dataLine) lines)).
Proof.
  intros B. split.
  - destruct (rast_run lines w B) as (v & xs & E & _ & Hn & Hg).
    destruct (process_inv _ _ _ _ _ _ E) as (_ & W).
    unfold ProcessRAST. rewrite W, Hg. now rewrite Hn.
  - destruct (phate_run lines w B) as (v & xs & E & _ & _ & Hn & Hg & _).
    destruct (process_inv _ _ _ _ _ _ E) as (_ & W).
    unfold ProcessPhate. rewrite W, Hg. now rewrite Hn.
Qed.

Lemma rast_phate_number_consecutively_witness :
  map row_geneNo
      (written (ProcessPhate [Sample.phate_plus_line; "junk"; Sample.phate_plus_line])
               world0)
  = numbered 1 (List.length
                  (filter (data_line0 Phate.p_dataLine)
                          [Sample.phate_plus_line; "junk"; Sample.phate_plus_line])).
Proof.
  apply (rast_phate_number_consecutively
           [Sample.phate_plus_line; "junk"; Sample.phate_plus_line] world0).
  reflexivity.
Defined.

End Numbering.

Section DataLines.
Import Py Re CGC_parser.

Lemma genemark_step_exact (v : locals) (line : string) (w : world) :
  user_out_bound w = true ->
  (data_line Genemark.p_contigLine Genemark.p_dataLine line = false
   /\ exists v', Genemark.step v line w = (Ret v', w))
  \/ (data_line Genemark.p_contigLine Genemark.p_dataLine line = true
      /\ exists m gn len v',
          search Genemark.p_dataLine line = Some m
          /\ PyStr.py_int (group m 1) = Some gn
          /\ PyStr.py_int (group m 5) = Some len
          /\ number (group m 4) = true
          /\ plus_or_minus (group m 2) = true
          /\ contig v' = default_contig (contig v)
          /\ Genemark.step v line w
             = (Ret v',
                add_rows
                  [Row (PInt gn) (group m 2) (PStr (strip_angle (group m 3)))
                       (PStr (strip_angle (group m 4))) (PInt len)
                       (default_contig (contig v))] w)).
Proof.
  intros B. unfold data_line, Genemark.step.
  destruct (search p_comment line) as [mc|]; simpl;
    [left; split; [reflexivity | eexists; reflexivity]|].
  destruct (search Genemark.p_contigLine line) as [mg|]; simpl;
    [left; split; [reflexivity | eexists; reflexivity]|].
  destruct (search Genemark.p_dataLine line) as [m|] eqn:E; simpl;
    [|left; split; [reflexivity | eexists; reflexivity]].
  right. split; [reflexivity|].
  destruct (genemark_groups _ _ E) as (N1 & S2 & N4 & N5).
  destruct (int_number (group m 1) w N1) as (gn & I1 & R1).
  destruct (int_number (group m 5) w N5) as (len & I5 & R5).
  exists m, gn, len. eexists.
  split; [reflexivity|]. split; [exact I1|]. split; [exact I5|].
  split; [exact N4|]. split; [exact S2|].
  split; [|unfold bind at 1; rewrite R1; unfold bind at 1; rewrite R5;
           pose proof S2 as S2'; unfold plus_or_minus in S2';
           apply orb_true_iff in S2'; destruct S2' as [S2'|S2']; rewrite S2';
           simpl; try rewrite andb_false_r; apply (write_then_ret _ _ _ B)].
  reflexivity.
Qed.

Lemma glimmer_step_exact (g3 : bool) (v : locals) (line : string) (w : world) :
  user_out_bound w = true ->
  (data_line Glimmer.p_contigLine (Glimmer.p_dataLine g3) line = false
   /\ exists v', Glimmer.step g3 v line w = (Ret v', w))
  \/ (data_line Glimmer.p_contigLine (Glimmer.p_dataLine g3) line = true
      /\ exists x v',
          row_contig x = Some (default_contig (contig v))
          /\ contig v' = default_contig (contig v)
          /\ Glimmer.step g3 v line w = (Ret v', add_rows [x] w)).
Proof.
  intros B. unfold data_line, Glimmer.step.
  destruct (search p_comment line) as [mc|]; simpl;
    [left; split; [reflexivity | eexists; reflexivity]|].
  destruct (search Glimmer.p_contigLine line) as [mg|]; simpl;
    [left; split; [reflexivity | eexists; reflexivity]|].
  destruct (search (Glimmer.p_dataLine g3) line) as [m|] eqn:E; simpl;
    [|left; split; [reflexivity | eexists; reflexivity]].
  right. split; [reflexivity|].
  destruct (glimmer_groups _ _ _ E) as (N1 & N2 & N3 & S4).
  destruct (int_number (group m 1) w N1) as (gn & I1 & R1).
  destruct (int_number (group m 2) w N2) as (left & I2 & R2).
  destruct (int_number (group m 3) w N3) as (right & I3 & R3).
  unfold plus_or_minus in S4.
  destruct (String.eqb (group m 4) "+") eqn:Ep; eexists; eexists;
    (split; [|split;
       [|unfold bind at 1; rewrite R1; unfold bind at 1; rewrite R2;
         unfold bind at 1; rewrite R3;
         try (simpl in S4; rewrite S4);
         unfold bind at 1; unfold ret at 1; cbn [fst snd];
         apply (write_then_ret _ _ _ B)]]); reflexivity.
Qed.

(** Counting the records of a loop whose data steps write one record. *)
Lemma count_inv {S} (step : S -> string -> M world S) (d : string -> bool) :
  (forall v x w,
      user_out_bound w = true ->
      (d x = false /\ exists v', step v x w = (Ret v', w))
      \/ (d x = true /\ exists y v', step v x w = (Ret v', add_rows [y] w))) ->
  forall lines v w,
    user_out_bound w = true ->
    exists v' xs, for_each step lines v w = (Ret v', add_rows xs w)
                  /\ List.length xs = List.length (filter d lines).
Proof.
  intros Hstep lines v w B.
  destruct (for_each_inv step (fun _ => True)
              (fun done _ xs => List.length xs = List.length (filter d done)))
    with (lines := lines) (done := @nil string) (v := v)
         (xs0 := @nil out_line) (w := w)
    as (v' & xs & E & J); [|apply all_lines|reflexivity|exact B|eauto].
  clear - Hstep. intros done v xs0 x w _ Hn B.
  destruct (Hstep v x w B) as [(D & v' & E) | (D & y & v' & E)].
  - exists v', []. split; [exact E|].
    now rewrite app_nil_r, filter_snoc, D, app_nil_r.
  - exists v', [y]. split; [exact E|].
    rewrite filter_snoc, D, !length_app, Hn. reflexivity.
Qed.

(** X5.  With USER_OUT usable, ProcessGenemark, ProcessGlimmer, ProcessRAST
    (gff3 setting) and ProcessPhate write exactly one record for each line
    that reaches their data branch, and none for any other line. *)
Theorem one_record_per_data_line (g3 : bool) (lines : list string) (w : world) :
  user_out_bound w = true ->
  List.length (written (ProcessGenemark lines) w)
  = List.length (filter (data_line Genemark.p_contigLine Genemark.p_dataLine) lines)
  /\ List.length (written (ProcessGlimmer g3 lines) w)
     = List.length
         (filter (data_line Glimmer.p_contigLine (Glimmer.p_dataLine g3)) lines)
  /\ List.length (written (ProcessRAST true lines) w)
     = List.length (filter (data_line0 RAST.p_dataLine) lines)
  /\ List.length (written (ProcessPhate lines) w)
     = List.length (filter (data_line0 Phate.p_dataLine) lines).
Proof.
  intros B. repeat split.
  - destruct (count_inv Genemark.step
                (data_line Genemark.p_contigLine Genemark.p_dataLine))
      with (lines := lines) (v := Genemark.init) (w := w)
      as (v & xs & E & Hn); [|exact B|].
    + clear. intros v x w B.
      destruct (genemark_step_exact v x w B)
        as [H | (D & m & gn & len & v' & _ & _ & _ & _ & _ & _ & E)];
        [left; exact H | right; eauto].
    + destruct (process_inv _ _ _ _ _ _ E) as (_ & W).
      unfold ProcessGenemark. now rewrite W.
  - destruct (count_inv (Glimmer.step g3)
                (data_line Glimmer.p_contigLine (Glimmer.p_dataLine g3)))
      with (lines := lines) (v := Glimmer.init) (w := w)
      as (v & xs & E & Hn); [|exact B|].
    + clear. intros v x w B.
      destruct (glimmer_step_exact g3 v x w B) as [H | (D & y & v' & _ & _ & E)];
        [left; exact H | right; eauto].
    + destruct (process_inv _ _ _ _ _ _ E) as (_ & W).
      unfold ProcessGlimmer. now rewrite W.
  - destruct (rast_run lines w B) as (v & xs & E & _ & Hn & _).
    destruct (process_inv _ _ _ _ _ _ E) as (_ & W).
    unfold ProcessRAST. now rewrite W.
  - destruct (phate_run lines w B) as (v & xs & E & _ & _ & Hn & _).
    destruct (process_inv _ _ _ _ _ _ E) as (_ & W).
    unfold ProcessPhate. now rewrite W.
Qed.

Lemma one_record_per_data_line_witness :
  List.length
    (written (ProcessGenemark [Sample.genemark_line; Sample.genemark_bad_strand])
             world0)
  = List.length
      (filter (data_line Genemark.p_contigLine Genemark.p_dataLine)
              [Sample.genemark_line; Sample.genemark_bad_strand]).
Proof.
  apply (one_record_per_data_line
           true [Sample.genemark_line; Sample.genemark_bad_strand] world0).
  reflexivity.
Defined.

End DataLines.

Section LastLine.
Import Py Re CGC_parser.

(** What the last line adds to the output of a function. *)
Lemma written_snoc {S} (step : S -> string -> M world S) (pre : list string)
      (line : string) (v v1 v2 : S) (w : world) (xs ys : list out_line) :
  for_each step pre v w = (Ret v1, add_rows xs w) ->
  step v1 line (add_rows xs w) = (Ret v2, add_rows ys (add_rows xs w)) ->
  written (bind (for_each step (pre ++ [line]) v) (fun _ => ret tt)) w
  = (written (bind (for_each step pre v) (fun _ => ret tt)) w ++ ys)%list.
Proof.
  intros E1 E2.
  destruct (process_inv _ _ _ _ _ _ E1) as (_ & W1). rewrite W1.
  assert (E : for_each step (pre ++ [line]) v w = (Ret v2, add_rows (xs ++ ys) w))
    by (rewrite (for_each_snoc _ _ _ _ _ _ _ E1), E2; now rewrite add_rows_app).
  now destruct (process_inv _ _ _ _ _ _ E) as (_ & W).
Qed.

(** X6.  For a line that reaches the data branch of ProcessPhate, with first
    and second the integers of its two columns: the function writes one more
    record, numbered one above the number of data lines before it, with
    contig 'unknown'; on '+' leftEnd is the first column and rightEnd the
    second, on '-' leftEnd is the second and rightEnd the first; the length
    is abs(rightEnd - leftEnd) + 1. *)
Theorem phate_ends_by_strand (pre : list string) (line : string) (w : world) :
  user_out_bound w = true ->
  data_line0 Phate.p_dataLine line = true ->
  exists m first second leftEnd rightEnd,
    search Phate.p_dataLine line = Some m
    /\ PyStr.py_int (group m 1) = Some first
    /\ PyStr.py_int (group m 2) = Some second
    /\ written (ProcessPhate (pre ++ [line])) w
       = (written (ProcessPhate pre) w
          ++ [Row (PInt (Z.of_nat
                           (S (List.length
                                 (filter (data_line0 Phate.p_dataLine) pre)))))
                  (group m 3) (PInt leftEnd) (PInt rightEnd)
                  (PInt (Z.abs (rightEnd - leftEnd) + 1)) "unknown"])%list
    /\ ((group m 3 = "+" /\ leftEnd = first /\ rightEnd = second)
        \/ (group m 3 = "-" /\ leftEnd = second /\ rightEnd = first)).
Proof.
  intros B D.
  destruct (phate_run pre w B) as (v1 & xs & E1 & Hc & Hk & Hn & _).
  assert (B1 : user_out_bound (add_rows xs w) = true) by now rewrite bound_add_rows.
  destruct (phate_step_exact v1 line (add_rows xs w) B1)
    as [(D' & _) | (_ & m & a & b & v2 & Em & I1 & I2 & S3 & _ & _ & E2)];
    [congruence|].
  pose proof (written_snoc _ _ _ _ _ _ _ _ _ E1 E2) as W.
  fold (ProcessPhate (pre ++ [line])) in W. fold (ProcessPhate pre) in W.
  cbv zeta in W. rewrite Hc, Hk, Hn, of_nat_succ in W.
  unfold plus_or_minus in S3.
  destruct (String.eqb (group m 3) "+") eqn:Ep.
  - apply String.eqb_eq in Ep. exists m, a, b, a, b.
    split; [exact Em|]. split; [exact I1|]. split; [exact I2|].
    split; [exact W|]. left. auto.
  - simpl in S3. apply String.eqb_eq in S3. exists m, a, b, b, a.
    split; [exact Em|]. split; [exact I1|]. split; [exact I2|].
    split; [exact W|]. right. auto.
Qed.

Lemma phate_ends_by_strand_witness :
  exists m first second leftEnd rightEnd,
    search Phate.p_dataLine ("900" ++ TAB ++ "400" ++ TAB ++ "-") = Some m
    /\ PyStr.py_int (group m 1) = Some first
    /\ PyStr.py_int (group m 2) = Some second
    /\ written (ProcessPhate ([Sample.phate_plus_line]
                                ++ ["900" ++ TAB ++ "400" ++ TAB ++ "-"])) world0
       = (written (ProcessPhate [Sample.phate_plus_line]) world0
          ++ [Row (PInt (Z.of_nat
                           (S (List.length
                                 (filter (data_line0 Phate.p_dataLine)
                                         [Sample.phate_plus_line])))))
                  (group m 3) (PInt leftEnd) (PInt rightEnd)
                  (PInt (Z.abs (rightEnd - leftEnd) + 1)) "unknown"])%list
    /\ ((group m 3 = "+" /\ leftEnd = first /\ rightEnd = second)
        \/ (group m 3 = "-" /\ leftEnd = second /\ rightEnd = first)).
Proof.
  apply (phate_ends_by_strand [Sample.phate_plus_line]
                              ("900" ++ TAB ++ "400" ++ TAB ++ "-") world0);
    reflexivity.
Defined.

(** X7.  For a line that reaches the data branch of ProcessRAST, the record
    written has the start and end columns as leftEnd and rightEnd in the
    order of the line, whatever the strand, the first column as contig, the
    length rightEnd - leftEnd + 1, and the number of data lines so far as
    gene number. *)
Theorem rast_copies_columns (pre : list string) (line : string) (w : world) :
  user_out_bound w = true ->
  data_line0 RAST.p_dataLine line = true ->
  exists m leftEnd rightEnd,
    search RAST.p_dataLine line = Some m
    /\ PyStr.py_int (group m 2) = Some leftEnd
    /\ PyStr.py_int (group m 3) = Some rightEnd
    /\ written (ProcessRAST true (pre ++ [line])) w
       = (written (ProcessRAST true pre) w
          ++ [Row (PInt (Z.of_nat
                           (S (List.length
                                 (filter (data_line0 RAST.p_dataLine) pre)))))
                  (group m 4) (PInt leftEnd) (PInt rightEnd)
                  (PInt (rightEnd - leftEnd + 1)) (group m 1)])%list.
Proof.
  intros B D.
  destruct (rast_run pre w B) as (v1 & xs & E1 & Hc & Hn & _).
  assert (B1 : user_out_bound (add_rows xs w) = true) by now rewrite bound_add_rows.
  destruct (rast_step_exact v1 line (add_rows xs w) B1)
    as [(D' & _) | (_ & m & l & r & v2 & Em & I2 & I3 & _ & E2)];
    [congruence|].
  pose proof (written_snoc _ _ _ _ _ _ _ _ _ E1 E2) as W.
  rewrite Hc, Hn, of_nat_succ in W.
  exists m, l, r. split; [exact Em|]. split; [exact I2|]. split; [exact I3|].
  exact W.
Qed.

Lemma rast_copies_columns_witness :
  exists m leftEnd rightEnd,
    search RAST.p_dataLine
           ("ctg1" ++ TAB ++ "FIG" ++ TAB ++ "CDS" ++ TAB ++ "900" ++ TAB ++ "400"
            ++ TAB ++ "." ++ TAB ++ "-" ++ TAB ++ "0" ++ TAB ++ "ID=fig|1.peg.1")
    = Some m
    /\ PyStr.py_int (group m 2) = Some leftEnd
    /\ PyStr.py_int (group m 3) = Some rightEnd
    /\ written (ProcessRAST true
                  ([] ++ ["ctg1" ++ TAB ++ "FIG" ++ TAB ++ "CDS" ++ TAB ++ "900"
                          ++ TAB ++ "400" ++ TAB ++ "." ++ TAB ++ "-" ++ TAB ++ "0"
                          ++ TAB ++ "ID=fig|1.peg.1"])) world0
       = (written (ProcessRAST true []) world0
          ++ [Row (PInt (Z.of_nat
                           (S (List.length
                                 (filter (data_line0 RAST.p_dataLine) [])))))
                  (group m 4) (PInt leftEnd) (PInt rightEnd)
                  (PInt (rightEnd - leftEnd + 1)) (group m 1)])%list.
Proof.
  apply (rast_copies_columns
           [] ("ctg1" ++ TAB ++ "FIG" ++ TAB ++ "CDS" ++ TAB ++ "900" ++ TAB ++ "400"
               ++ TAB ++ "." ++ TAB ++ "-" ++ TAB ++ "0" ++ TAB ++ "ID=fig|1.peg.1")
           world0); reflexivity.
Defined.

End LastLine.

Section GenemarkFields.
Import Py Re CGC_parser.

Lemma search_bol_char (c a : ascii) (t : string) :
  matched (search (Bol :: lit (String c "")) (String a t)) = Ascii.eqb c a.
Proof.
  unfold search. cbn [search_at match_here lit Nat.eqb]. unfold PyStr.is_char.
  destruct (Ascii.eqb c a); [reflexivity|]. now rewrite bol_fails_later.
Qed.

(** [strip_angle] drops one leading '>' or '<' and nothing else. *)
Lemma strip_angle_cons (a : ascii) (t : string) :
  strip_angle (String a t)
  = if Ascii.eqb ">" a || Ascii.eqb "<" a then t else String a t.
Proof. unfold strip_angle. now rewrite !search_bol_char. Qed.

Lemma strip_angle_number (s : string) : number s = true -> strip_angle s = s.
Proof.
  destruct s as [|a t]; [discriminate|]. intros H. rewrite strip_angle_cons.
  simpl in H. apply andb_true_iff in H. destruct H as [Ha _].
  rewrite (Ascii.eqb_sym ">" a), (Ascii.eqb_sym "<" a).
  now rewrite (digit_not_char a ">" Ha eq_refl), (digit_not_char a "<" Ha eq_refl).
Qed.

Lemma genemark_prefix_run (pre : list string) (w : world) :
  user_out_bound w = true ->
  exists v xs, for_each Genemark.step pre Genemark.init w = (Ret v, add_rows xs w).
Proof.
  intros B.
  destruct (genemark_loop pre pre Genemark.init w (incl_refl _))
    as (xs & (r & E & Hr) & _).
  destruct (Hr B) as [v ->]. eauto.
Qed.

(** X8.  For a line that reaches the data branch of ProcessGenemark the
    record written has: the gene number and the length read from the first
    and fifth groups; the strand of the second group; as leftEnd the text of
    the third group without one leading '<' or '>'; as rightEnd the text of
    the fourth group unchanged; a contig that is not empty. *)
Theorem genemark_record_fields (pre : list string) (line : string) (w : world) :
  user_out_bound w = true ->
  data_line Genemark.p_contigLine Genemark.p_dataLine line = true ->
  exists m geneNo len leftEnd contig,
    search Genemark.p_dataLine line = Some m
    /\ PyStr.py_int (group m 1) = Some geneNo
    /\ PyStr.py_int (group m 5) = Some len
    /\ written (ProcessGenemark (pre ++ [line])) w
       = (written (ProcessGenemark pre) w
          ++ [Row (PInt geneNo) (group m 2) (PStr leftEnd) (PStr (group m 4))
                  (PInt len) contig])%list
    /\ (group m 3 = String "<" leftEnd \/ group m 3 = String ">" leftEnd
        \/ (group m 3 = leftEnd
            /\ forall t, leftEnd <> String "<" t /\ leftEnd <> String ">" t))
    /\ contig <> "".
Proof.
  intros B D.
  destruct (genemark_prefix_run pre w B) as (v1 & xs & E1).
  assert (B1 : user_out_bound (add_rows xs w) = true) by now rewrite bound_add_rows.
  destruct (genemark_step_exact v1 line (add_rows xs w) B1)
    as [(D' & _) | (_ & m & gn & len & v2 & Em & I1 & I5 & N4 & _ & _ & E2)];
    [congruence|].
  pose proof (written_snoc _ _ _ _ _ _ _ _ _ E1 E2) as W.
  rewrite (strip_angle_number _ N4) in W.
  exists m, gn, len, (strip_angle (group m 3)), (default_contig (contig v1)).
  split; [exact Em|]. split; [exact I1|]. split; [exact I5|]. split; [exact W|].
  split.
  - destruct (group m 3) as [|a t].
    + right. right. split; [reflexivity|]. intros t. split; discriminate.
    + rewrite strip_angle_cons.
      destruct (Ascii.eqb ">" a) eqn:Eg; [apply Ascii.eqb_eq in Eg; subst; auto|].
      destruct (Ascii.eqb "<" a) eqn:El; [apply Ascii.eqb_eq in El; subst; auto|].
      simpl. right. right. split; [reflexivity|].
      apply Ascii.eqb_neq in Eg, El. intros t'. split; congruence.
  - pose proof (default_contig_named (contig v1)) as H.
    intros C. rewrite C in H. discriminate.
Qed.

Lemma genemark_record_fields_witness :
  exists m geneNo len leftEnd contig,
    search Genemark.p_dataLine
           "     3        -          <1         250          250        1" = Some m
    /\ PyStr.py_int (group m 1) = Some geneNo
    /\ PyStr.py_int (group m 5) = Some len
    /\ written (ProcessGenemark
                  ([Sample.genemark_line]
                     ++ ["     3        -          <1         250          250        1"]))
               world0
       = (written (ProcessGenemark [Sample.genemark_line]) world0
          ++ [Row (PInt geneNo) (group m 2) (PStr leftEnd) (PStr (group m 4))
                  (PInt len) contig])%list
    /\ (group m 3 = String "<" leftEnd \/ group m 3 = String ">" leftEnd
        \/ (group m 3 = leftEnd
            /\ forall t, leftEnd <> String "<" t /\ leftEnd <> String ">" t))
    /\ contig <> "".
Proof.
  apply (genemark_record_fields
           [Sample.genemark_line]
           "     3        -          <1         250          250        1" world0);
    reflexivity.
Defined.

End GenemarkFields.

Section Contigs.
Import Py Re CGC_parser.

Lemma default_contig_idem (c : string) :
  default_contig (default_contig c) = default_contig c.
Proof.
  unfold default_contig. destruct (String.eqb c "") eqn:E; [reflexivity|].
  now rewrite E.
Qed.

(** A run of data lines: every record carries the contig the loop variables
    hold, with 'unknown' for the empty one. *)
Lemma contig_run (step : locals -> string -> M world locals) (d : string -> bool) :
  (forall v x w,
      user_out_bound w = true -> d x = true ->
      exists y v', row_contig y = Some (default_contig (contig v))
                   /\ contig v' = default_contig (contig v)
                   /\ step v x w = (Ret v', add_rows [y] w)) ->
  forall datas v w,
    forallb d datas = true -> user_out_bound w = true ->
    exists v' xs,
      for_each step datas v w = (Ret v', add_rows xs w)
      /\ List.length xs = List.length datas
      /\ Forall (fun x => row_contig x = Some (default_contig (contig v))) xs.
Proof.
  intros Hstep datas v w Hd B.
  destruct (for_each_inv step (fun x => d x = true)
              (fun done v' xs =>
                 default_contig (contig v') = default_contig (contig v)
                 /\ List.length xs = List.length done
                 /\ Forall (fun x => row_contig x
                                     = Some (default_contig (contig v))) xs))
    with (lines := datas) (done := @nil string) (v := v)
         (xs0 := @nil out_line) (w := w)
    as (v' & xs & E & _ & L & F);
    [|apply Forall_forall; now apply forallb_forall
     |repeat split; constructor|exact B|eauto].
  clear - Hstep. intros done v1 xs0 x w Hx (Hc & L & F) B.
  destruct (Hstep v1 x w B Hx) as (y & v2 & Hy & Hv & E).
  exists v2, [y]. split; [exact E|].
  rewrite Hv, default_contig_idem, !length_app, L. repeat split; [exact Hc|].
  apply Forall_app. split; [exact F|]. constructor; [|constructor]. now rewrite Hy, Hc.
Qed.

(** The records of a contig line followed by data lines. *)
Lemma contig_then_data (step : locals -> string -> M world locals)
      (pre datas : list string) (cline : string)
      (v0 v1 v2 v3 : locals) (w : world) (xs ys : list out_line) :
  for_each step pre v0 w = (Ret v1, add_rows xs w) ->
  step v1 cline (add_rows xs w) = (Ret v2, add_rows xs w) ->
  for_each step datas v2 (add_rows xs w) = (Ret v3, add_rows ys (add_rows xs w)) ->
  written (bind (for_each step (pre ++ cline :: datas) v0) (fun _ => ret tt)) w
  = (written (bind (for_each step pre v0) (fun _ => ret tt)) w ++ ys)%list.
Proof.
  intros E1 E2 E3.
  destruct (process_inv _ _ _ _ _ _ E1) as (_ & W1). rewrite W1.
  assert (E : for_each step (pre ++ cline :: datas) v0 w
              = (Ret v3, add_rows (xs ++ ys) w)).
  { rewrite for_each_app. unfold bind at 1. rewrite E1. simpl. unfold bind at 1.
    now rewrite E2, add_rows_app. }
  now destruct (process_inv _ _ _ _ _ _ E) as (_ & W).
Qed.

(** X9.  In ProcessGenemark a line that matches the contig pattern (and is
    no comment) names the contig of the data lines that follow it: each of
    them gives one record whose contig is the first group of the contig line,
    or 'unknown' when that group is empty. *)
Theorem genemark_contig_line_names_records
        (pre datas : list string) (cline : string) (mc : list string) (w : world) :
  user_out_bound w = true ->
  matched (search p_comment cline) = false ->
  search Genemark.p_contigLine cline = Some mc ->
  forallb (data_line Genemark.p_contigLine Genemark.p_dataLine) datas = true ->
  exists xs,
    written (ProcessGenemark (pre ++ cline :: datas)) w
    = (written (ProcessGenemark pre) w ++ xs)%list
    /\ List.length xs = List.length datas
    /\ Forall (fun x => row_contig x = Some (default_contig (group mc 1))) xs.
Proof.
  intros B Hc Hm Hd.
  destruct (genemark_prefix_run pre w B) as (v1 & xs & E1).
  assert (B1 : user_out_bound (add_rows xs w) = true) by now rewrite bound_add_rows.
  assert (E2 : Genemark.step v1 cline (add_rows xs w)
               = (Ret (mkLocals (geneNo v1) (group mc 1) (strand v1) (leftEnd v1)
                                (rightEnd v1) (length v1) (count v1)),
                  add_rows xs w)).
  { unfold Genemark.step. destruct (search p_comment cline); [discriminate|].
    now rewrite Hm. }
  destruct (contig_run Genemark.step
              (data_line Genemark.p_contigLine Genemark.p_dataLine))
    with (datas := datas)
         (v := mkLocals (geneNo v1) (group mc 1) (strand v1) (leftEnd v1)
                        (rightEnd v1) (length v1) (count v1))
         (w := add_rows xs w)
    as (v3 & ys & E3 & L & F); [|exact Hd|exact B1|].
  - clear. intros v x w B D.
    destruct (genemark_step_exact v x w B)
      as [(D' & _) | (_ & m & gn & len & v' & _ & _ & _ & _ & _ & Hv & E)];
      [congruence|].
    eexists _, v'. split; [|split; [exact Hv | exact E]]. reflexivity.
  - exists ys. split; [|split; [exact L | exact F]].
    apply (contig_then_data _ _ _ _ _ _ _ _ _ _ _ E1 E2 E3).
Qed.

Lemma genemark_contig_line_names_records_witness :
  exists xs,
    written (ProcessGenemark
               ([] ++ "FASTA definition line: phage7 length=41000"
                   :: [Sample.genemark_line; Sample.genemark_line])) world0
    = (written (ProcessGenemark []) world0 ++ xs)%list
    /\ List.length xs = List.length [Sample.genemark_line; Sample.genemark_line]
    /\ Forall (fun x => row_contig x = Some (default_contig (group ["phage7"] 1))) xs.
Proof.
  apply (genemark_contig_line_names_records
           [] [Sample.genemark_line; Sample.genemark_line]
           "FASTA definition line: phage7 length=41000" ["phage7"] world0);
    reflexivity.
Defined.

(** X10.  In ProcessGlimmer (either version) a line that matches the contig
    pattern (and is no comment) names the contig of the data lines that
    follow it, with 'unknown' for an empty name. *)
Theorem glimmer_contig_line_names_records
        (g3 : bool) (pre datas : list string) (cline : string) (mc : list string)
        (w : world) :
  user_out_bound w = true ->
  matched (search p_comment cline) = false ->
  search Glimmer.p_contigLine cline = Some mc ->
  forallb (data_line Glimmer.p_contigLine (Glimmer.p_dataLine g3)) datas = true ->
  exists xs,
    written (ProcessGlimmer g3 (pre ++ cline :: datas)) w
    = (written (ProcessGlimmer g3 pre) w ++ xs)%list
    /\ List.length xs = List.length datas
    /\ Forall (fun x => row_contig x = Some (default_contig (group mc 1))) xs.
Proof.
  intros B Hc Hm Hd.
  destruct (glimmer_loop g3 pre Glimmer.init w) as (xs & (r & E1 & Hr) & _).
  destruct (Hr B) as [v1 ->].
  assert (B1 : user_out_bound (add_rows xs w) = true) by now rewrite bound_add_rows.
  assert (E2 : Glimmer.step g3 v1 cline (add_rows xs w)
               = (Ret (mkLocals (geneNo v1) (group mc 1) (strand v1) (leftEnd v1)
                                (rightEnd v1) (length v1) (count v1)),
                  add_rows xs w)).
  { unfold Glimmer.step. destruct (search p_comment cline); [discriminate|].
    now rewrite Hm. }
  destruct (contig_run (Glimmer.step g3)
              (data_line Glimmer.p_contigLine (Glimmer.p_dataLine g3)))
    with (datas := datas)
         (v := mkLocals (geneNo v1) (group mc 1) (strand v1) (leftEnd v1)
                        (rightEnd v1) (length v1) (count v1))
         (w := add_rows xs w)
    as (v3 & ys & E3 & L & F); [|exact Hd|exact B1|].
  - clear. intros v x w B D.
    destruct (glimmer_step_exact g3 v x w B)
      as [(D' & _) | (_ & y & v' & Hy & Hv & E)]; [congruence|].
    exists y, v'. auto.
  - exists ys. split; [|split; [exact L | exact F]].
    apply (contig_then_data _ _ _ _ _ _ _ _ _ _ _ E1 E2 E3).
Qed.

Lemma glimmer_contig_line_names_records_witness :
  exists xs,
    written (ProcessGlimmer true
               ([] ++ ">contig00012  length=5120  numreads=77"
                   :: [Sample.glimmer3_plus_line; Sample.glimmer3_minus_line])) world0
    = (written (ProcessGlimmer true []) world0 ++ xs)%list
    /\ List.length xs
       = List.length [Sample.glimmer3_plus_line; Sample.glimmer3_minus_line]
    /\ Forall (fun x => row_contig x
                        = Some (default_contig (group ["contig00012 "] 1))) xs.
Proof.
  apply (glimmer_contig_line_names_records
           true [] [Sample.glimmer3_plus_line; Sample.glimmer3_minus_line]
           ">contig00012  length=5120  numreads=77" ["contig00012 "] world0);
    reflexivity.
Defined.

End Contigs.

Section UnknownContig.
Import Py Re CGC_parser.

Lemma prodigal_sco_step_exact (v : locals) (line : string) (w : world) :
  user_out_bound w = true ->
  exists v' xs,
    Prodigal.step_sco v line w = (Ret v', add_rows xs w)
    /\ contig v' = contig v
    /\ Forall (fun x => row_contig x = Some (contig v)) xs.
Proof.
  intros B. unfold Prodigal.step_sco.
  destruct (search p_comment line) as [mc|]; simpl.
  { exists v, []. repeat split. constructor. }
  destruct (search Prodigal.p_dataLine_sco line) as [m|] eqn:E.
  - destruct (prodigal_sco_groups _ _ E) as (N2 & N3).
    destruct (int_number (group m 2) w N2) as (l & I2 & R2).
    destruct (int_number (group m 3) w N3) as (r & I3 & R3).
    eexists _, [_]. split; [|split].
    + unfold bind at 1. unfold bind at 1. rewrite R2. unfold bind at 1. rewrite R3.
      unfold ret at 1. apply (write_then_ret _ _ _ B).
    + reflexivity.
    + constructor; [reflexivity | constructor].
  - exists v, [Prodigal.row_of v]. split; [|split].
    + unfold bind at 1. unfold ret at 1. apply (write_then_ret _ _ _ B).
    + reflexivity.
    + constructor; [reflexivity | constructor].
Qed.

Lemma prodigal_sco_run (lines : list string) (w : world) :
  user_out_bound w = true ->
  exists v xs,
    for_each Prodigal.step_sco lines Prodigal.init w = (Ret v, add_rows xs w)
    /\ contig v = "unknown"
    /\ Forall (fun x => row_contig x = Some "unknown") xs.
Proof.
  intros B.
  destruct (for_each_inv Prodigal.step_sco (fun _ => True)
              (fun _ v xs =>
                 contig v = "unknown"
                 /\ Forall (fun x => row_contig x = Some "unknown") xs))
    with (lines := lines) (done := @nil string) (v := Prodigal.init)
         (xs0 := @nil out_line) (w := w)
    as (v & xs & E & J); [|apply all_lines|split; [reflexivity | constructor]
                          |exact B|eauto].
  clear. intros done v xs0 x w _ (Hk & F) B.
  destruct (prodigal_sco_step_exact v x w B) as (v' & xs & E & Hk' & F').
  exists v', xs. split; [exact E|]. rewrite Hk', Hk. split; [reflexivity|].
  apply Forall_app. split; [exact F|]. now rewrite Hk in F'.
Qed.

(** X11.  ProcessPhate and ProcessProdigal (sco setting) take no contig from
    their input: every record they write carries the contig 'unknown'. *)
Theorem phate_prodigal_contig_unknown (lines : list string) (w : world) :
  user_out_bound w = true ->
  Forall (fun x => row_contig x = Some "unknown") (written (ProcessPhate lines) w)
  /\ Forall (fun x => row_contig x = Some "unknown")
            (written (ProcessProdigal true lines) w).
Proof.
  intros B. split.
  - destruct (phate_run lines w B) as (v & xs & E & _ & _ & _ & _ & F).
    destruct (process_inv _ _ _ _ _ _ E) as (_ & W).
    unfold ProcessPhate. now rewrite W.
  - destruct (prodigal_sco_run lines w B) as (v & xs & E & _ & F).
    destruct (process_inv _ _ _ _ _ _ E) as (_ & W).
    unfold ProcessProdigal. now rewrite W.
Qed.

Lemma phate_prodigal_contig_unknown_witness :
  Forall (fun x => row_contig x = Some "unknown")
         (written (ProcessProdigal true Sample.prodigal_sco_file) world0).
Proof.
  apply (phate_prodigal_contig_unknown Sample.prodigal_sco_file world0).
  reflexivity.
Defined.

End UnknownContig.

(* ================================================================== *)
(** * The parser as a whole program *)
(* ================================================================== *)

Section ParserRuns.
Import Py Re CGC_parser.

Lemma add_rows_eq (xs : list out_line) :
  forall w,
    add_rows xs w
    = mkWorld (USER_OUT_PROVIDED w) (OUTFILE w ++ xs)
              (if USER_OUT_PROVIDED w
               then match USER_OUT w with
                    | Some u => Some (u ++ xs)%list
                    | None => None
                    end
               else USER_OUT w)
              (LOGFILE w) (STDOUT w).
Proof.
  induction xs as [|x xs IH]; intros [p o u l s].
  - simpl. rewrite app_nil_r. destruct p, u; simpl; now rewrite ?app_nil_r.
  - change (add_rows (x :: xs) (mkWorld p o u l s))
      with (add_rows xs (add_row x (mkWorld p o u l s))).
    rewrite IH. unfold add_row. simpl.
    destruct p, u; simpl; now rewrite <- ?app_assoc.
Qed.

Lemma returns_rows (m : M world unit) (w : world) (P : out_line -> Prop) :
  (forall x, P x -> is_row x = true) ->
  (exists xs, writes m w xs /\ Forall P xs) ->
  user_out_bound w = true ->
  exists xs, m w = (Ret tt, add_rows xs w) /\ Forall (fun x => is_row x = true) xs.
Proof.
  intros HP (xs & (r & E & Hr) & F) B. destruct (Hr B) as [[] ->].
  exists xs. split; [exact E|]. eapply Forall_impl; [|exact F]. exact HP.
Qed.

Lemma genemark_rows (lines : list string) (w : world) :
  user_out_bound w = true ->
  exists xs, ProcessGenemark lines w = (Ret tt, add_rows xs w)
             /\ Forall (fun x => is_row x = true) xs.
Proof.
  apply (returns_rows _ _ (fun x => length_copied lines x = true)).
  - now intros [s|g s l r n c].
  - apply process_writes, (genemark_loop lines lines), incl_refl.
Qed.

Lemma glimmer_rows (g3 : bool) (lines : list string) (w : world) :
  user_out_bound w = true ->
  exists xs, ProcessGlimmer g3 lines w = (Ret tt, add_rows xs w)
             /\ Forall (fun x => is_row x = true) xs.
Proof.
  apply (returns_rows _ _ (fun x => length_consistent x = true)).
  - now intros [s|g s l r n c].
  - apply process_writes, glimmer_loop.
Qed.

Lemma rast_rows (lines : list string) (w : world) :
  user_out_bound w = true ->
  exists xs, ProcessRAST true lines w = (Ret tt, add_rows xs w)
             /\ Forall (fun x => is_row x = true) xs.
Proof.
  apply (returns_rows _ _ (fun x => length_consistent x = true)).
  - now intros [s|g s l r n c].
  - apply process_writes, rast_loop.
Qed.

Lemma phate_rows (lines : list string) (w : world) :
  user_out_bound w = true ->
  exists xs, ProcessPhate lines w = (Ret tt, add_rows xs w)
             /\ Forall (fun x => is_row x = true) xs.
Proof.
  apply (returns_rows _ _ (fun x => length_abs x = true)).
  - now intros [s|g s l r n c].
  - apply process_writes, phate_loop.
Qed.

Lemma prodigal_rows (lines : list string) (w : world) :
  user_out_bound w = true ->
  exists xs, ProcessProdigal true lines w = (Ret tt, add_rows xs w)
             /\ Forall (fun x => is_row x = true) xs.
Proof.
  intros B. destruct (prodigal_sco_run lines w B) as (v & xs & E & _ & F).
  destruct (process_inv _ _ _ _ _ _ E) as (R & _).
  exists xs. split; [exact R|]. eapply Forall_impl; [|exact F].
  now intros [s|g s l r n c].
Qed.


Lemma headers_written {A} (h c : out_line) (k : unit -> M world A) (w : world) :
  user_out_bound w = true ->
  bind (OUT_write h)
       (fun _ => bind (OUT_write c)
       (fun _ => bind (if_user_out h)
       (fun _ => bind (if_user_out c) k))) w
  = k tt (add_rows [h; c] w).
Proof.
  destruct w as [p o u l s]. destruct p, u; try discriminate; intros _; reflexivity.
Qed.

Lemma closing_written (e : out_line) (msg : string) (w : world) :
  user_out_bound w = true ->
  bind (if_user_out e) (fun _ => bind (OUT_write e) (fun _ => LOGFILE_write msg)) w
  = (Ret tt,
     mkWorld (USER_OUT_PROVIDED w) (OUTFILE (add_rows [e] w))
             (USER_OUT (add_rows [e] w)) (LOGFILE w ++ [msg]) (STDOUT w)).
Proof.
  destruct w as [p o u l s]. destruct p, u; try discriminate; intros _; reflexivity.
Qed.

Lemma dispatch_runs (geneCaller : string) (lines : list string) (w : world) :
  user_out_bound w = true ->
  exists rows log,
    (if matched (search p_genemark geneCaller) then ProcessGenemark lines
     else if matched (search p_glimmer geneCaller) then ProcessGlimmer GLIMMER3 lines
     else if matched (search p_prodigal geneCaller)
          then ProcessProdigal PRODIGAL_sco lines
     else if matched (search p_rast geneCaller) then ProcessRAST RAST_GFF3 lines
     else if matched (search p_phate geneCaller) then ProcessPhate lines
     else LOGFILE_write ("ERROR: Cannot process unknown gene caller output file:"
                         ++ geneCaller)) w
    = (Ret tt,
       mkWorld (USER_OUT_PROVIDED w) (OUTFILE (add_rows rows w))
               (USER_OUT (add_rows rows w)) (LOGFILE w ++ log) (STDOUT w))
    /\ Forall (fun x => is_row x = true) rows
    /\ ((known_caller geneCaller = true /\ log = [])
        \/ (known_caller geneCaller = false
            /\ log = ["ERROR: Cannot process unknown gene caller output file:"
                      ++ geneCaller]
            /\ rows = [])).
Proof.
  intros B.
  assert (R : forall xs, (Ret tt, add_rows xs w)
                         = (Ret tt : result unit,
                            mkWorld (USER_OUT_PROVIDED w) (OUTFILE (add_rows xs w))
                                    (USER_OUT (add_rows xs w)) (LOGFILE w ++ [])
                                    (STDOUT w))).
  { intros xs. rewrite app_nil_r, (add_rows_eq xs w). reflexivity. }
  unfold known_caller.
  destruct (matched (search p_genemark geneCaller)).
  { destruct (genemark_rows lines w B) as (xs & E & F).
    exists xs, []. rewrite E. split; [apply R | auto]. }
  destruct (matched (search p_glimmer geneCaller)).
  { destruct (glimmer_rows GLIMMER3 lines w B) as (xs & E & F).
    exists xs, []. rewrite E. split; [apply R | auto]. }
  destruct (matched (search p_prodigal geneCaller)).
  { destruct (prodigal_rows lines w B) as (xs & E & F).
    exists xs, []. unfold PRODIGAL_sco. rewrite E. split; [apply R | auto]. }
  destruct (matched (search p_rast geneCaller)).
  { destruct (rast_rows lines w B) as (xs & E & F).
    exists xs, []. unfold RAST_GFF3. rewrite E. split; [apply R | auto]. }
  destruct (matched (search p_phate geneCaller)).
  { destruct (phate_rows lines w B) as (xs & E & F).
    exists xs, []. rewrite E. split; [apply R | auto]. }
  exists []. eexists. split; [reflexivity|]. split; [constructor | right; auto].
Qed.

Lemma process_runs (geneCaller geneCallerOut : string) (lines : list string)
      (p : bool) (o : list out_line) (u : option (list out_line))
      (l s : list string) :
  user_out_bound (mkWorld p o u l s) = true ->
  exists rows log,
    process geneCaller geneCallerOut lines (mkWorld p o u l s)
    = (Ret tt,
       let content := header_line geneCaller geneCallerOut :: columns_line
                        :: rows ++ [end_line] in
       mkWorld p (o ++ content)
               (if p then match u with
                          | Some u0 => Some (u0 ++ content)%list
                          | None => None
                          end
                else u)
               (l ++ log ++ ["Processing complete"]) s)
    /\ Forall (fun x => is_row x = true) rows
    /\ ((known_caller geneCaller = true /\ log = [])
        \/ (known_caller geneCaller = false
            /\ log = ["ERROR: Cannot process unknown gene caller output file:"
                      ++ geneCaller]
            /\ rows = [])).
Proof.
  intros B. unfold process.
  rewrite (headers_written _ _ _ _ B).
  set (w2 := add_rows _ _).
  assert (B2 : user_out_bound w2 = true) by (unfold w2; now rewrite bound_add_rows).
  destruct (dispatch_runs geneCaller lines w2 B2) as (rows & log & E & F & L).
  exists rows, log. split; [|split; [exact F | exact L]].
  rewrite (bind_Ret _ _ _ _ _ E).
  rewrite closing_written.
  2:{ unfold w2. rewrite !add_rows_eq. simpl. now destruct p, u. }
  unfold w2. rewrite !add_rows_eq. cbv zeta. cbn.
  f_equal. destruct p, u; try discriminate; cbn;
    f_equal; rewrite <- ?app_assoc; reflexivity.
Qed.

Lemma no_help_search (a kw : string) :
  no_help_word a -> In kw ["help"; "input"; "usage"] ->
  matched (search (lit kw) (PyStr.lower a)) = false.
Proof.
  intros H Hin. destruct (matched (search (lit kw) (PyStr.lower a))) eqn:E;
    [|reflexivity].
  apply search_lit in E. destruct (H kw Hin E).
Qed.

Lemma parameters_three (prog caller infile : string) (w : world) :
  no_help_word caller ->
  get_input_parameters [prog; caller; infile] w
  = (Ret (PyStr.lower caller, infile, ""), w).
Proof.
  intros H. unfold get_input_parameters, arg. cbn [List.length existsb Nat.eqb nth
                                                    ACCEPTABLE_ARG_COUNT orb].
  rewrite (no_help_search _ "help" H), (no_help_search _ "input" H),
    (no_help_search _ "usage" H) by (simpl; tauto).
  reflexivity.
Qed.


(** X12.  A run of the parser with a caller name and an input file that can
    be read (and its own two files writable) ends normally, prints nothing,
    and leaves in the output file: the header line naming the lowercased
    caller and the input file, the column titles, records only, and the
    closing line '# END'.  The log ends with 'Processing complete'.  When the
    lowercased caller name matches one of the five caller patterns the log
    holds nothing else; when it matches none, the log holds the error line
    before it and no record is written. *)
Theorem parser_output_format
        (fs : filesystem) (prog caller infile : string) (lines : list string) :
  open_w fs logfile = None ->
  no_help_word caller ->
  open_r fs infile = inr lines ->
  open_w fs outfile = None ->
  exists rows log,
    main fs [prog; caller; infile] world0
    = (Ret tt,
       mkWorld false
               (header_line (PyStr.lower caller) infile :: columns_line
                  :: rows ++ [end_line])%list
               None (log ++ ["Processing complete"])%list [])
    /\ forallb is_row rows = true
    /\ ((known_caller (PyStr.lower caller) = true /\ log = [])
        \/ (known_caller (PyStr.lower caller) = false
            /\ log = ["ERROR: Cannot process unknown gene caller output file:"
                      ++ PyStr.lower caller]
            /\ rows = [])).
Proof.
  intros Hl Hh Hr Ho. unfold main. rewrite Hl.
  rewrite (bind_Ret _ _ _ _ _ (parameters_three prog caller infile world0 Hh)).
  cbn [fst snd].
  assert (E : open_files fs infile "" world0 = (Ret lines, world0))
    by (unfold open_files; rewrite Hr, Ho; reflexivity).
  rewrite (bind_Ret _ _ _ _ _ E).
  destruct (process_runs (PyStr.lower caller) infile lines false [] None [] [] eq_refl)
    as (rows & log & Ep & F & L).
  exists rows, log. split; [exact Ep|]. split; [now apply forallb_Forall | exact L].
Qed.

Lemma parser_output_format_witness :
  exists rows log,
    main Sample.fs_user_out_unwritable ["./CGC_parser.py"; "PHATE"; "phate.calls"]
         world0
    = (Ret tt,
       mkWorld false
               (header_line (PyStr.lower "PHATE") "phate.calls" :: columns_line
                  :: rows ++ [end_line])%list
               None (log ++ ["Processing complete"])%list [])
    /\ forallb is_row rows = true
    /\ ((known_caller (PyStr.lower "PHATE") = true /\ log = [])
        \/ (known_caller (PyStr.lower "PHATE") = false
            /\ log = ["ERROR: Cannot process unknown gene caller output file:"
                      ++ PyStr.lower "PHATE"]
            /\ rows = [])).
Proof.
  apply (parser_output_format Sample.fs_user_out_unwritable "./CGC_parser.py"
                              "PHATE" "phate.calls"
                              ["10" ++ TAB ++ "50" ++ TAB ++ "+"]).
  - reflexivity.
  - intros kw Hin Hc. apply search_lit in Hc. simpl in Hin.
    repeat (destruct Hin as [<-|Hin]; [vm_compute in Hc; discriminate|]).
    exact Hin.
  - reflexivity.
  - reflexivity.
Defined.



End ParserRuns.

Section ParserExits.
Import Py Re CGC_parser.

(** X14.  With an argument count other than 2, 3 or 4, or with a single
    argument that holds no help word, the parser prints the usage message,
    writes 'Incorrect number of command-line arguments provided' to the log
    and exits with status zero; no file is read or written. *)
Theorem parser_wrong_argument_count (fs : filesystem) (argv : list string) :
  open_w fs logfile = None ->
  ~ In (List.length argv) [2; 3; 4]%nat
  \/ (List.length argv = 2%nat /\ no_help_word (arg argv 1)) ->
  main fs argv world0
  = (Exit 0,
     mkWorld false [] None ["Incorrect number of command-line arguments provided"]
             [USAGE_STRING]).
Proof.
  intros Hl H. unfold main. rewrite Hl. unfold bind at 1.
  unfold get_input_parameters.
  destruct argv as [|a0 [|a1 [|a2 [|a3 [|a4 rest]]]]];
    cbn [List.length existsb Nat.eqb ACCEPTABLE_ARG_COUNT orb];
    try reflexivity.
  - destruct H as [H | [_ H]]; [exfalso; apply H; simpl; tauto|].
    unfold arg in *. cbn [nth] in *.
    rewrite (no_help_search _ "help" H), (no_help_search _ "input" H),
      (no_help_search _ "usage" H) by (simpl; tauto).
    reflexivity.
  - destruct H as [H | [H _]]; [exfalso; apply H; simpl; tauto | discriminate].
  - destruct H as [H | [H _]]; [exfalso; apply H; simpl; tauto | discriminate].
Qed.

Lemma parser_wrong_argument_count_witness :
  main Sample.fs_user_out_unwritable ["./CGC_parser.py"] world0
  = (Exit 0,
     mkWorld false [] None ["Incorrect number of command-line arguments provided"]
             [USAGE_STRING]).
Proof.
  apply (parser_wrong_argument_count Sample.fs_user_out_unwritable
                                     ["./CGC_parser.py"]).
  - reflexivity.
  - left. simpl. intros [H|[H|[H|[]]]]; discriminate.
Defined.





End ParserExits.

(* ================================================================== *)
(** * The driver: files that cannot be read, and what is compared *)
(* ================================================================== *)

Section DriverRuns.
Import Py Re CGC_main.
Context {C : Collaborators}.

Lemma bind_Raise {W A B} (m : M W A) (k : A -> M W B) (w w' : W) (e : exn) :
  m w = (Raise e, w') -> bind m k w = (Raise e, w').
Proof. intros H. unfold bind. now rewrite H. Qed.

Lemma for_each_append {W S X} (body : S -> X -> M W S) (xs ys : list X) :
  forall v w,
    for_each body (xs ++ ys) v w = bind (for_each body xs v) (for_each body ys) w.
Proof.
  induction xs as [|x xs IH]; intros v w; simpl.
  - reflexivity.
  - unfold bind in *.
    destruct (body v x w) as [[v'|c|e] w']; [apply IH | reflexivity | reflexivity].
Qed.

Lemma parameters_files (prog : string) (fileSet : list string) (w : world) :
  fileSet <> [] ->
  (forall kw, In kw keywords -> ~ contains kw (PyStr.lower (hd "" fileSet))) ->
  get_input_parameters (prog :: fileSet) w = (Ret fileSet, w).
Proof.
  intros Hne Hkw. destruct fileSet as [|a1 rest]; [congruence|].
  assert (K : forall kw, In kw keywords ->
                         matched (search (lit kw) (PyStr.lower a1)) = false).
  { intros kw Hin. destruct (matched (search (lit kw) (PyStr.lower a1))) eqn:E;
      [|reflexivity].
    apply search_lit in E. destruct (Hkw kw Hin E). }
  unfold get_input_parameters, arg. cbn [List.length Nat.ltb Nat.leb nth tl].
  rewrite (K "help"), (K "input"), (K "usage"), (K "detail"), (K "info")
    by (simpl; tauto).
  reflexivity.
Qed.

Lemma startup (fs : filesystem) (argv : list string) (w : world) :
  open_w fs OUT_FILE = None ->
  open_w fs LOG_FILE = None ->
  main fs argv w = bind (get_input_parameters argv) (pipeline fs) w.
Proof.
  intros Ho Hl. unfold main, open_output. rewrite Ho, Hl. reflexivity.
Qed.

(** X17.  When an input file cannot be opened the driver stops with the
    [IOError] of that file: the files before it were read into call sets,
    the files after it are not opened, and nothing is sorted, merged,
    compared or reported. *)
Theorem driver_unreadable_file_aborts
        (fs : filesystem) (prog : string) (pre post : list string)
        (bad e : string) :
  open_w fs OUT_FILE = None ->
  open_w fs LOG_FILE = None ->
  (forall kw, In kw keywords ->
              ~ contains kw (PyStr.lower (hd "" (pre ++ bad :: post)))) ->
  (forall f, In f pre -> exists lines, open_r fs f = inr lines) ->
  open_r fs bad = inl e ->
  exists w,
    main fs (prog :: pre ++ bad :: post) world0 = (Raise (IOError e), w)
    /\ opened w = pre
    /\ calls w = map (fun p => EvAddGeneCalls (fst p) (snd p))
                     (combine (seq 0 (List.length pre)) pre).
Proof.
  intros Ho Hl Hkw Hr Hb.
  rewrite (startup fs _ _ Ho Hl).
  assert (Hne : (pre ++ bad :: post)%list <> []) by now destruct pre.
  rewrite (bind_Ret _ _ _ _ _ (parameters_files prog _ world0 Hne Hkw)).
  unfold pipeline, when, CHATTY.
  destruct (print_run "Main: Iterating through fileSet..." world0)
    as (w1 & E1 & X1).
  rewrite (bind_Ret _ _ _ _ _ E1).
  destruct (add_files_run fs pre Hr [] w1) as (cl & w2 & E2 & _ & X2).
  pose proof (extends_trans _ _ _ _ _ _ _ X1 X2) as (_ & Xo & Xc).
  exists w2. split; [|split; [exact Xo | exact Xc]].
  apply bind_Raise. rewrite for_each_append. unfold bind at 1. rewrite E2.
  simpl. apply bind_Raise. unfold add_file. apply bind_Raise.
  unfold open_input. now rewrite Hb.
Qed.

(** *** The objects the loops build *)

Lemma add_files_values (fs : filesystem) (fileSet : list string)
      (contents : list (list string)) :
  Forall2 (fun f lines => open_r fs f = inr lines) fileSet contents ->
  forall done w, exists w',
    for_each (add_file fs) fileSet done w
    = (Ret (done ++ map (AddGeneCalls GeneCallSet_new) contents)%list, w').
Proof.
  induction 1 as [|f lines fileSet contents Hf HF IH]; intros done w.
  - exists w. simpl. now rewrite app_nil_r.
  - destruct (IH (done ++ [AddGeneCalls GeneCallSet_new lines])%list
                 (mkWorld (STDOUT w ++ ["Adding Calls from file " ++ f])
                          (LOG w) (opened w ++ [f])
                          (calls w ++ [EvAddGeneCalls (List.length done) f])))
      as [w' E].
    exists w'.
    replace (done ++ map (AddGeneCalls GeneCallSet_new) (lines :: contents))%list
      with ((done ++ [AddGeneCalls GeneCallSet_new lines])
              ++ map (AddGeneCalls GeneCallSet_new) contents)%list
      by (now rewrite <- app_assoc).
    simpl. unfold bind at 1. unfold add_file, open_input. rewrite Hf. exact E.
Qed.

Lemma sort_all_values (callerList : list GeneCallSet) :
  forall done w, exists w',
    for_each (fun done caller =>
                bind (call (EvSortGeneCalls (List.length done)))
                     (fun _ => ret (done ++ [SortGeneCalls caller])%list))
             callerList done w
    = (Ret (done ++ map SortGeneCalls callerList)%list, w').
Proof.
  induction callerList as [|c cl IH]; intros done w.
  - exists w. simpl. now rewrite app_nil_r.
  - destruct (IH (done ++ [SortGeneCalls c])%list
                 (mkWorld (STDOUT w) (LOG w) (opened w)
                          (calls w ++ [EvSortGeneCalls (List.length done)])))
      as [w' E].
    exists w'.
    replace (done ++ map SortGeneCalls (c :: cl))%list
      with ((done ++ [SortGeneCalls c]) ++ map SortGeneCalls cl)%list
      by (now rewrite <- app_assoc).
    simpl. unfold bind at 1. exact E.
Qed.

Lemma merge_all_values (callerList : list GeneCallSet) :
  forall n cmp w, exists n' w',
    for_each (fun st caller =>
                bind (call (EvMerge (fst st)))
                     (fun _ => ret (S (fst st), Merge (snd st) (geneCallList caller))))
             callerList (n, cmp) w
    = (Ret (n', fold_left (fun c s => Merge c (geneCallList s)) callerList cmp), w').
Proof.
  induction callerList as [|c cl IH]; intros n cmp w.
  - exists n, w. reflexivity.
  - destruct (IH (S n) (Merge cmp (geneCallList c))
                 (mkWorld (STDOUT w) (LOG w) (opened w) (calls w ++ [EvMerge n])))
      as (n' & w' & E).
    exists n', w'. simpl. unfold bind at 1. exact E.
Qed.

(** X18.  On input files that can all be read, what the driver reports is
    PrintReport of IdentifyCommonCore of Compare of one Comparison into which
    the call lists were merged in the order of the command line; each call
    list comes from a fresh GeneCallSet that read one file only and was then
    sorted. *)
Theorem driver_compares_sorted_sets
        (fs : filesystem) (prog : string) (fileSet : list string)
        (contents : list (list string)) :
  open_w fs OUT_FILE = None ->
  open_w fs LOG_FILE = None ->
  fileSet <> [] ->
  (forall kw, In kw keywords -> ~ contains kw (PyStr.lower (hd "" fileSet))) ->
  Forall2 (fun f lines => open_r fs f = inr lines) fileSet contents ->
  exists w,
    main fs (prog :: fileSet) world0
    = (Ret (PrintReport
              (IdentifyCommonCore
                 (Compare
                    (fold_left
                       (fun c lines =>
                          Merge c (geneCallList
                                     (SortGeneCalls
                                        (AddGeneCalls GeneCallSet_new lines))))
                       contents Comparison_new)))),
       w).
Proof.
  intros Ho Hl Hne Hkw HF.
  rewrite (startup fs _ _ Ho Hl).
  rewrite (bind_Ret _ _ _ _ _ (parameters_files prog _ world0 Hne Hkw)).
  unfold pipeline, when, CHATTY, DEBUG.
  destruct (print_run "Main: Iterating through fileSet..." world0)
    as (w1 & E1 & _).
  rewrite (bind_Ret _ _ _ _ _ E1).
  destruct (add_files_values fs fileSet contents HF [] w1) as (w2 & E2).
  rewrite (bind_Ret _ _ _ _ _ E2). cbn [app].
  set (cl := map (AddGeneCalls GeneCallSet_new) contents).
  destruct (print_run "Main: callerList is" w2) as (w3 & E3 & _).
  destruct (print_callers_run cl w3) as (w4 & E4 & _).
  destruct (print_run "" w4) as (w5 & E5 & _).
  rewrite (bind_Ret _ _ w2 w5 tt).
  2:{ rewrite (bind_Ret _ _ _ _ _ E3), (bind_Ret _ _ _ _ _ E4). exact E5. }
  rewrite (bind_Ret _ _ w5 w5 tt) by reflexivity.
  destruct (print_run "Main: Sorting gene calls for each caller..." w5)
    as (w6 & E6 & _).
  rewrite (bind_Ret _ _ _ _ _ E6).
  destruct (sort_all_values cl [] w6) as (w7 & E7).
  unfold sort_all. rewrite (bind_Ret _ _ _ _ _ E7). cbn [app].
  rewrite (bind_Ret _ _ w7 w7 tt) by reflexivity.
  destruct (print_run "Main: Comparing accross the call sets..." w7)
    as (w8 & E8 & _).
  rewrite (bind_Ret _ _ _ _ _ E8).
  destruct (merge_all_values (map SortGeneCalls cl) 0 Comparison_new w8)
    as (n' & w9 & E9).
  unfold merge_all. rewrite (bind_Ret _ _ _ _ _ E9). cbn [snd].
  eexists. unfold bind, call, modify, ret. cbn.
  f_equal. do 3 f_equal. unfold cl.
  clear. generalize Comparison_new. induction contents as [|x xs IH]; intros c.
  - reflexivity.
  - simpl. apply IH.
Qed.

(** *** The order of the calls and the value they build *)

Lemma readable_all (fs : filesystem) (fileSet : list string)
      (contents : list (list string)) :
  Forall2 (fun f lines => open_r fs f = inr lines) fileSet contents ->
  forall f, In f fileSet -> exists lines, open_r fs f = inr lines.
Proof.
  induction 1 as [|f lines fileSet contents Hf HF IH]; intros g Hg.
  - destruct Hg.
  - destruct Hg as [<-|Hg]; [eauto | now apply IH].
Qed.

Lemma pipeline_value (fs : filesystem) (fileSet : list string)
      (contents : list (list string)) (w : world) :
  Forall2 (fun f lines => open_r fs f = inr lines) fileSet contents ->
  exists w',
    pipeline fs fileSet w
    = (Ret (PrintReport
              (IdentifyCommonCore
                 (Compare
                    (fold_left
                       (fun c lines =>
                          Merge c (geneCallList
                                     (SortGeneCalls
                                        (AddGeneCalls GeneCallSet_new lines))))
                       contents Comparison_new)))),
       w').
Proof.
  intros HF. unfold pipeline, when, CHATTY, DEBUG.
  destruct (print_run "Main: Iterating through fileSet..." w) as (w1 & E1 & _).
  rewrite (bind_Ret _ _ _ _ _ E1).
  destruct (add_files_values fs fileSet contents HF [] w1) as (w2 & E2).
  rewrite (bind_Ret _ _ _ _ _ E2). cbn [app].
  set (cl := map (AddGeneCalls GeneCallSet_new) contents).
  destruct (print_run "Main: callerList is" w2) as (w3 & E3 & _).
  destruct (print_callers_run cl w3) as (w4 & E4 & _).
  destruct (print_run "" w4) as (w5 & E5 & _).
  rewrite (bind_Ret _ _ w2 w5 tt).
  2:{ rewrite (bind_Ret _ _ _ _ _ E3), (bind_Ret _ _ _ _ _ E4). exact E5. }
  rewrite (bind_Ret _ _ w5 w5 tt) by reflexivity.
  destruct (print_run "Main: Sorting gene calls for each caller..." w5)
    as (w6 & E6 & _).
  rewrite (bind_Ret _ _ _ _ _ E6).
  destruct (sort_all_values cl [] w6) as (w7 & E7).
  unfold sort_all. rewrite (bind_Ret _ _ _ _ _ E7). cbn [app].
  rewrite (bind_Ret _ _ w7 w7 tt) by reflexivity.
  destruct (print_run "Main: Comparing accross the call sets..." w7)
    as (w8 & E8 & _).
  rewrite (bind_Ret _ _ _ _ _ E8).
  destruct (merge_all_values (map SortGeneCalls cl) 0 Comparison_new w8)
    as (n' & w9 & E9).
  unfold merge_all. rewrite (bind_Ret _ _ _ _ _ E9). cbn [snd].
  eexists. unfold bind, call, modify, ret. cbn.
  f_equal. do 3 f_equal. unfold cl.
  clear. generalize Comparison_new. induction contents as [|x xs IH]; intros c.
  - reflexivity.
  - simpl. apply IH.
Qed.

(** C8, amended.  On a list of input files that can all be opened (the
    first of which holds no keyword, the driver's own two files opening),
    the driver returns and its method calls are, in this order: AddGeneCalls
    once per file, SortGeneCalls once per call set, Merge once per call set,
    then Compare, IdentifyCommonCore and PrintReport once each.  The value
    returned is PrintReport of IdentifyCommonCore of Compare of the single
    Comparison into which every sorted call list was merged, in the order
    of the files. *)
Theorem pipeline_call_order
        (fs : filesystem) (prog : string) (fileSet : list string)
        (contents : list (list string)) :
  open_w fs OUT_FILE = None ->
  open_w fs LOG_FILE = None ->
  fileSet <> [] ->
  (forall kw, In kw keywords -> ~ contains kw (PyStr.lower (hd "" fileSet))) ->
  Forall2 (fun f lines => open_r fs f = inr lines) fileSet contents ->
  exists w,
    main fs (prog :: fileSet) world0
    = (Ret (PrintReport
              (IdentifyCommonCore
                 (Compare
                    (fold_left
                       (fun c lines =>
                          Merge c (geneCallList
                                     (SortGeneCalls
                                        (AddGeneCalls GeneCallSet_new lines))))
                       contents Comparison_new)))),
       w)
    /\ calls w = expected_calls fileSet
    /\ opened w = fileSet.
Proof.
  intros Ho Hl Hne Hkw HF.
  rewrite (startup fs _ _ Ho Hl).
  rewrite (bind_Ret _ _ _ _ _ (parameters_files prog _ world0 Hne Hkw)).
  destruct (pipeline_value fs fileSet contents world0 HF) as (w & E).
  destruct (pipeline_run fs fileSet world0 (readable_all fs fileSet contents HF))
    as (cmp & w' & E' & _ & Xo & Xc).
  rewrite E in E'. injection E' as _ <-.
  exists w. split; [exact E|]. split; [exact Xc | exact Xo].
Qed.

End DriverRuns.

Lemma driver_unreadable_file_aborts_witness :
  exists w,
    @CGC_main.main CGC_main.no_content Sample.fs_missing_input
          ("./CGC_main.py" :: ["genemark.calls"] ++ "missing.calls"
                           :: ["prodigal.calls"]) CGC_main.world0
    = (Py.Raise (Py.IOError "[Errno 2] No such file or directory: 'missing.calls'"),
       w)
    /\ CGC_main.opened w = ["genemark.calls"]
    /\ CGC_main.calls w
       = map (fun p => CGC_main.EvAddGeneCalls (fst p) (snd p))
             (combine (seq 0 (List.length ["genemark.calls"])) ["genemark.calls"]).
Proof.
  apply (@driver_unreadable_file_aborts CGC_main.no_content
                                        Sample.fs_missing_input).
  - reflexivity.
  - reflexivity.
  - intros kw Hin Hc. apply search_lit in Hc. simpl in Hin.
    repeat (destruct Hin as [<-|Hin]; [vm_compute in Hc; discriminate|]).
    exact Hin.
  - intros f Hin. simpl in Hin. destruct Hin as [<-|[]]. eexists. reflexivity.
  - reflexivity.
Defined.

Lemma driver_compares_sorted_sets_witness :
  exists w,
    @CGC_main.main CGC_main.no_content Sample.fs_missing_input
                   ("./CGC_main.py" :: ["genemark.calls"; "prodigal.calls"])
                   CGC_main.world0
    = (Py.Ret (CGC_main.PrintReport
                 (CGC_main.IdentifyCommonCore
                    (CGC_main.Compare
                       (fold_left
                          (fun c lines =>
                             CGC_main.Merge c
                               (CGC_main.geneCallList
                                  (CGC_main.SortGeneCalls
                                     (CGC_main.AddGeneCalls CGC_main.GeneCallSet_new
                                                            lines))))
                          [["# PHATE gene calls, taken from file x"; "# END"];
                           ["# PHATE gene calls, taken from file x"; "# END"]]
                          CGC_main.Comparison_new)))),
       w).
Proof.
  apply (@driver_compares_sorted_sets CGC_main.no_content Sample.fs_missing_input).
  - reflexivity.
  - reflexivity.
  - discriminate.
  - intros kw Hin Hc. apply search_lit in Hc. simpl in Hin.
    repeat (destruct Hin as [<-|Hin]; [vm_compute in Hc; discriminate|]).
    exact Hin.
  - repeat constructor.
Defined.

Section ProdigalFields.
Import Py Re CGC_parser.

Lemma prodigal_sco_step_row (v : locals) (line : string) (w : world)
      (m : list string) :
  user_out_bound w = true ->
  search p_comment line = None ->
  search Prodigal.p_dataLine_sco line = Some m ->
  exists l r v',
    PyStr.py_int (group m 2) = Some l
    /\ PyStr.py_int (group m 3) = Some r
    /\ Prodigal.step_sco v line w
       = (Ret v',
          add_rows [Row (PStr (group m 1)) (group m 4) (PInt l) (PInt r)
                        (PInt (r - l + 1)) (contig v)] w).
Proof.
  intros B Hc E. unfold Prodigal.step_sco. rewrite Hc, E. simpl.
  destruct (prodigal_sco_groups _ _ E) as (N2 & N3).
  destruct (int_number (group m 2) w N2) as (l & I2 & R2).
  destruct (int_number (group m 3) w N3) as (r & I3 & R3).
  exists l, r. eexists. split; [exact I2|]. split; [exact I3|].
  unfold bind at 1. unfold bind at 1. rewrite R2. unfold bind at 1. rewrite R3.
  unfold ret at 1. apply (write_then_ret _ _ _ B).
Qed.

(** X19.  For a line that is no comment and matches the sco data pattern,
    the last record ProcessProdigal writes has: as gene number the text of
    the first group as it stands (it is not converted to an integer), as
    leftEnd and rightEnd the second and third groups in the order of the
    line, whatever the strand, the length rightEnd - leftEnd + 1 and the
    contig 'unknown'. *)
Theorem prodigal_sco_record_fields (pre : list string) (line : string) (w : world) :
  user_out_bound w = true ->
  data_line0 Prodigal.p_dataLine_sco line = true ->
  exists m leftEnd rightEnd,
    search Prodigal.p_dataLine_sco line = Some m
    /\ PyStr.py_int (group m 2) = Some leftEnd
    /\ PyStr.py_int (group m 3) = Some rightEnd
    /\ written (ProcessProdigal true (pre ++ [line])) w
       = (written (ProcessProdigal true pre) w
          ++ [Row (PStr (group m 1)) (group m 4) (PInt leftEnd) (PInt rightEnd)
                  (PInt (rightEnd - leftEnd + 1)) "unknown"])%list.
Proof.
  intros B D. unfold data_line0 in D.
  destruct (search p_comment line) eqn:Hc; [discriminate|].
  destruct (search Prodigal.p_dataLine_sco line) as [m|] eqn:Em; [|discriminate].
  destruct (prodigal_sco_run pre w B) as (v1 & xs & E1 & Hk & _).
  assert (B1 : user_out_bound (add_rows xs w) = true) by now rewrite bound_add_rows.
  destruct (prodigal_sco_step_row v1 line (add_rows xs w) m B1 Hc Em)
    as (l & r & v2 & I2 & I3 & E2).
  pose proof (written_snoc _ _ _ _ _ _ _ _ _ E1 E2) as W. rewrite Hk in W.
  exists m, l, r. split; [reflexivity|]. split; [exact I2|]. split; [exact I3|].
  exact W.
Qed.

Lemma prodigal_sco_record_fields_witness :
  exists m leftEnd rightEnd,
    search Prodigal.p_dataLine_sco ">007_2799_337_-" = Some m
    /\ PyStr.py_int (group m 2) = Some leftEnd
    /\ PyStr.py_int (group m 3) = Some rightEnd
    /\ written (ProcessProdigal true ([">1_337_2799_+"] ++ [">007_2799_337_-"]))
               world0
       = (written (ProcessProdigal true [">1_337_2799_+"]) world0
          ++ [Row (PStr (group m 1)) (group m 4) (PInt leftEnd) (PInt rightEnd)
                  (PInt (rightEnd - leftEnd + 1)) "unknown"])%list.
Proof.
  apply (prodigal_sco_record_fields [">1_337_2799_+"] ">007_2799_337_-" world0);
    reflexivity.
Defined.

End ProdigalFields.

(** C8, as stated, fails: of three input files the second cannot be opened;
    the driver calls AddGeneCalls once, for the first file only, and stops
    with the [IOError]: no call set is sorted or merged, and Compare,
    IdentifyCommonCore and PrintReport are never called. *)
Lemma unreadable_file_breaks_call_order :
  List.length ["genemark.calls"; "missing.calls"; "prodigal.calls"] = 3%nat
  /\ fst (@CGC_main.main CGC_main.no_content Sample.fs_missing_input
            ["./CGC_main.py"; "genemark.calls"; "missing.calls"; "prodigal.calls"]
            CGC_main.world0)
     = Py.Raise (Py.IOError "[Errno 2] No such file or directory: 'missing.calls'")
  /\ CGC_main.calls
       (snd (@CGC_main.main CGC_main.no_content Sample.fs_missing_input
               ["./CGC_main.py"; "genemark.calls"; "missing.calls"; "prodigal.calls"]
               CGC_main.world0))
     = [CGC_main.EvAddGeneCalls 0 "genemark.calls"]
  /\ CGC_main.calls
       (snd (@CGC_main.main CGC_main.no_content Sample.fs_missing_input
               ["./CGC_main.py"; "genemark.calls"; "missing.calls"; "prodigal.calls"]
               CGC_main.world0))
     <> CGC_main.expected_calls
          ["genemark.calls"; "missing.calls"; "prodigal.calls"].
Proof. vm_compute. repeat split. discriminate. Qed.

Lemma pipeline_call_order_witness :
  exists w,
    @CGC_main.main CGC_main.no_content Sample.fs_missing_input
                   ("./CGC_main.py" :: ["genemark.calls"; "prodigal.calls"])
                   CGC_main.world0
    = (Py.Ret (CGC_main.PrintReport
                 (CGC_main.IdentifyCommonCore
                    (CGC_main.Compare
                       (fold_left
                          (fun c lines =>
                             CGC_main.Merge c
                               (CGC_main.geneCallList
                                  (CGC_main.SortGeneCalls
                                     (CGC_main.AddGeneCalls CGC_main.GeneCallSet_new
                                                            lines))))
                          [["# PHATE gene calls, taken from file x"; "# END"];
                           ["# PHATE gene calls, taken from file x"; "# END"]]
                          CGC_main.Comparison_new)))),
       w)
    /\ CGC_main.calls w
       = CGC_main.expected_calls ["genemark.calls"; "prodigal.calls"]
    /\ CGC_main.opened w = ["genemark.calls"; "prodigal.calls"].
Proof.
  apply (@pipeline_call_order CGC_main.no_content Sample.fs_missing_input).
  - reflexivity.
  - reflexivity.
  - discriminate.
  - intros kw Hin Hc. apply search_lit in Hc. simpl in Hin.
    repeat (destruct Hin as [<-|Hin]; [vm_compute in Hc; discriminate|]).
    exact Hin.
  - repeat constructor.
Defined.
